(** * kakeibo: the diff-based monthly save (POST /api/monthly)

    A shallow embedding of [src/save.ts]: request validation, the editable
    month window, the category reference check, the compiled statement batch
    and the optimistic-lock inspection, over a relational model of the tables
    of [db/schema.sql]. *)

From Stdlib Require Import ZArith String Ascii List Bool Lia.
From stdpp Require Import base option list gmap strings pretty.

Set Warnings "-register-all".

Open Scope string_scope.
Open Scope Z_scope.

(** ** Values of a parsed JSON body

    [request.json()] yields [unknown].  A number that [Number.isInteger]
    accepts is carried by its exact value, the integer that the double is
    (the handler compares such numbers, binds them, and adds one to
    [expected_version], see [double_of]); any other number is [JNonInt],
    which is never zero.  An object is the list of its own properties;
    [assoc] reads the first binding of a name. *)

Inductive JSON : Type :=
| JNull
| JBool (b : bool)
| JInt (z : Z)
| JNonInt
| JStr (s : string)
| JArr (l : list JSON)
| JObj (l : list (string * JSON)).

Fixpoint assoc (k : string) (l : list (string * JSON)) : option JSON :=
  match l with
  | [] => None
  | (k', v) :: l' => if String.eqb k k' then Some v else assoc k l'
  end.

(** [o.k]: [None] is [undefined].  None of the property names read by the
    handler is defined on arrays. *)
Definition prop (o : JSON) (k : string) : option JSON :=
  match o with
  | JObj l => assoc k l
  | _ => None
  end.

(** [!v] *)
Definition falsy (v : option JSON) : bool :=
  match v with
  | None | Some JNull | Some (JBool false) | Some (JInt 0) | Some (JStr "") => true
  | _ => false
  end.

(** [!v || typeof v !== "object"] *)
Definition not_object (v : option JSON) : bool :=
  match v with
  | Some (JArr _) | Some (JObj _) => false
  | _ => true
  end.

(** ** Constants *)

Definition digit (c : ascii) : bool :=
  let n := nat_of_ascii c in (48 <=? n)%nat && (n <=? 57)%nat.

Definition chr (c d : ascii) : bool := Ascii.eqb c d.

Definition between (lo hi c : ascii) : bool :=
  (nat_of_ascii lo <=? nat_of_ascii c)%nat && (nat_of_ascii c <=? nat_of_ascii hi)%nat.

(** [(0[1-9]|1[0-2])] *)
Definition re_month (a b : ascii) : bool :=
  (chr a "0" && between "1" "9" b) || (chr a "1" && between "0" "2" b).

(** [(0[1-9]|[12]\d|3[01])] *)
Definition re_day (a b : ascii) : bool :=
  (chr a "0" && between "1" "9" b)
  || (between "1" "2" a && digit b)
  || (chr a "3" && between "0" "1" b).

(** [/^\d{4}-(0[1-9]|1[0-2])$/.test(s)] *)
Definition MONTH_KEY_RE (s : string) : bool :=
  match list_ascii_of_string s with
  | [y1; y2; y3; y4; h; m1; m2] =>
      digit y1 && digit y2 && digit y3 && digit y4 && chr h "-" && re_month m1 m2
  | _ => false
  end.

(** [/^\d{4}-(0[1-9]|1[0-2])-(0[1-9]|[12]\d|3[01])$/.test(s)] *)
Definition DATE_RE (s : string) : bool :=
  match list_ascii_of_string s with
  | [y1; y2; y3; y4; h; m1; m2; h'; d1; d2] =>
      digit y1 && digit y2 && digit y3 && digit y4 && chr h "-" && re_month m1 m2
      && chr h' "-" && re_day d1 d2
  | _ => false
  end.

Definition VALID_TYPES : list string := ["expense"; "income"].

Definition VALID_PAYMENT_METHODS : list string :=
  ["現金"; "クレカ"; "銀行引落"; "QR"; "その他"].

(** [set.has(s)] *)
Definition has (set : list string) (s : string) : bool :=
  existsb (String.eqb s) set.

(** ** Request and response types *)

Record SaveRequest := {
  month_key : string;
  expected_version : Z;
  ops : JSON
}.

Record CreateEntry := {
  ce_entry_id : option string;
  ce_date : string;
  ce_type : string;
  ce_amount : Z;
  ce_category_id : string;
  ce_memo : option string;
  ce_payment_method : option string
}.

Record UpdateEntry := {
  ue_entry_id : string;
  ue_date : string;
  ue_type : string;
  ue_amount : Z;
  ue_category_id : string;
  ue_memo : option string;
  ue_payment_method : option string
}.

Record UpsertDailyBudget := {
  udb_date : string;
  daily_budget_override : Z
}.

Record Applied := {
  created_entries : nat;
  updated_entries : nat;
  deleted_entries : nat;
  upserted_daily_budgets : nat;
  deleted_daily_budgets : nat
}.

Record SaveResponse := {
  sr_month_key : string;
  new_version : Z;
  applied : Applied
}.

(** The three bodies the handler serialises: [{error}], the conflict
    object, and [SaveResponse]. *)
Inductive Body : Type :=
| ErrorBody (message : string)
| ConflictBody (error message : string)
| OkBody (r : SaveResponse).

Record Response := {
  status : Z;
  body : Body
}.

Definition errorResponse (st : Z) (message : string) : Response :=
  {| status := st; body := ErrorBody message |}.

Definition jsonResponse (st : Z) (b : Body) : Response :=
  {| status := st; body := b |}.

(** ** Editable month range *)

(** The wall clock as [new Date()] shows it in [getEditableMonthKeys]:
    [getFullYear()] and [getMonth()] (0-based). *)
Record Clock := {
  fullYear : Z;
  monthIndex : Z
}.

(** [new Date(y, mi, 1)], read back through [getFullYear()] and
    [getMonth()]: a year argument in 0..99 means 1900 + y, and a month
    index outside 0..11 carries into the year. *)
Definition Date_ym (y mi : Z) : Z * Z :=
  let yr := if (0 <=? y) && (y <=? 99) then 1900 + y else y in
  (yr + mi / 12, mi mod 12).

(** [String(n).padStart(2, "0")] *)
Definition padStart2 (n : Z) : string :=
  let s := pretty n in
  if (String.length s <? 2)%nat then "0" ++ s else s.

(** The template literal of [getEditableMonthKeys], from what
    [getFullYear()] and [getMonth()] return. *)
Definition month_key_text (ym : Z * Z) : string :=
  pretty (fst ym) ++ "-" ++ padStart2 (snd ym + 1).

(** [keys.add(mk)] on an insertion-ordered [Set]. *)
Definition set_add (keys : list string) (mk : string) : list string :=
  if has keys mk then keys else keys ++ [mk].

Fixpoint editable_loop (now : Clock) (i : Z) (n : nat) (keys : list string) : list string :=
  match n with
  | O => keys
  | S n' =>
      let y := fullYear now in
      let m := monthIndex now + 1 in
      let date := Date_ym y (m - 1 - i) in
      let mk := month_key_text date in
      editable_loop now (i + 1) n' (set_add keys mk)
  end.

Definition getEditableMonthKeys (now : Clock) : list string :=
  editable_loop now 0 6 [].

Definition dateMatchesMonthKey (date monthKey : string) : bool :=
  String.prefix (monthKey ++ "-") date.

(** ** Validation *)

(** [typeof v === "string" && p(v)] *)
Definition string_where (p : string -> bool) (v : option JSON) : bool :=
  match v with
  | Some (JStr s) => p s
  | _ => false
  end.

(** [typeof v === "number" && Number.isInteger(v) && p(v)] *)
Definition integer_where (p : Z -> bool) (v : option JSON) : bool :=
  match v with
  | Some (JInt z) => p z
  | _ => false
  end.

(** [v !== undefined && v !== null] *)
Definition provided (v : option JSON) : bool :=
  match v with
  | None | Some JNull => false
  | _ => true
  end.

(** [typeof v === "string" ? v : alt] *)
Definition string_or {A} (f : string -> A) (alt : A) (v : option JSON) : A :=
  match v with
  | Some (JStr s) => f s
  | _ => alt
  end.

(** A value that a preceding check has shown to be a string, or an
    integer. *)
Definition the_string (v : option JSON) : string := string_or id "" v.

Definition the_integer (v : option JSON) : Z :=
  match v with
  | Some (JInt z) => z
  | _ => 0
  end.

Definition nonempty (s : string) : bool := negb (String.eqb s "").

Definition mismatch_message (date monthKey : string) : string :=
  "date " ++ date ++ " does not match month_key " ++ monthKey ++ ".".

Definition validateBody (b : JSON) : string + SaveRequest :=
  if not_object (Some b) then inl "Invalid request body."
  else if negb (string_where MONTH_KEY_RE (prop b "month_key"))
  then inl "month_key must be in YYYY-MM format."
  else if negb (integer_where (fun v => 0 <=? v) (prop b "expected_version"))
  then inl "expected_version must be a non-negative integer."
  else if not_object (prop b "ops") then inl "ops is required."
  else inr {| month_key := the_string (prop b "month_key");
              expected_version := the_integer (prop b "expected_version");
              ops := default JNull (prop b "ops") |}.

Definition validateCreateEntry (e : JSON) (monthKey : string) : string + CreateEntry :=
  if not_object (Some e) then inl "Invalid entry object."
  else
    let o := prop e in
    if provided (o "entry_id") && negb (string_where (fun _ => true) (o "entry_id"))
    then inl "entry_id must be a string if provided."
    else if negb (string_where DATE_RE (o "date")) then inl "date must be YYYY-MM-DD."
    else if negb (dateMatchesMonthKey (the_string (o "date")) monthKey)
    then inl (mismatch_message (the_string (o "date")) monthKey)
    else if negb (string_where (has VALID_TYPES) (o "type"))
    then inl "type must be 'expense' or 'income'."
    else if negb (integer_where (fun a => 0 <? a) (o "amount"))
    then inl "amount must be a positive integer."
    else if negb (string_where nonempty (o "category_id")) then inl "category_id is required."
    else if provided (o "payment_method")
            && negb (string_where (has VALID_PAYMENT_METHODS) (o "payment_method"))
    then inl "Invalid payment_method."
    else inr {| ce_entry_id := string_or Some None (o "entry_id");
                ce_date := the_string (o "date");
                ce_type := the_string (o "type");
                ce_amount := the_integer (o "amount");
                ce_category_id := the_string (o "category_id");
                ce_memo := string_or Some None (o "memo");
                ce_payment_method := string_or Some None (o "payment_method") |}.

(** [{ ...base, entry_id }] *)
Definition with_entry_id (base : CreateEntry) (entry_id : string) : UpdateEntry :=
  {| ue_entry_id := entry_id;
     ue_date := ce_date base;
     ue_type := ce_type base;
     ue_amount := ce_amount base;
     ue_category_id := ce_category_id base;
     ue_memo := ce_memo base;
     ue_payment_method := ce_payment_method base |}.

(** The spread [{ ...o }] has the own properties of [o]. *)
Definition validateUpdateEntry (e : JSON) (monthKey : string) : string + UpdateEntry :=
  if not_object (Some e) then inl "Invalid entry object."
  else if negb (string_where nonempty (prop e "entry_id"))
  then inl "entry_id is required for update."
  else
    match validateCreateEntry e monthKey with
    | inl message => inl message
    | inr base => inr (with_entry_id base (the_string (prop e "entry_id")))
    end.

Definition validateUpsertDailyBudget (d : JSON) (monthKey : string)
  : string + UpsertDailyBudget :=
  if not_object (Some d) then inl "Invalid daily_budget object."
  else
    let o := prop d in
    if negb (string_where DATE_RE (o "date")) then inl "date must be YYYY-MM-DD."
    else if negb (dateMatchesMonthKey (the_string (o "date")) monthKey)
    then inl (mismatch_message (the_string (o "date")) monthKey)
    else if negb (integer_where (fun v => 0 <=? v) (o "daily_budget_override"))
    then inl "daily_budget_override must be a non-negative integer."
    else inr {| udb_date := the_string (o "date");
                daily_budget_override := the_integer (o "daily_budget_override") |}.

(** ** The five loops of the handler over [ops]

    [crypto.randomUUID()] is the oracle [uuid]: its [k]-th call returns
    [uuid k].  A created entry leaves its loop with [entry_id] set, which is
    the shape of an [UpdateEntry].  Each loop stops at the first element it
    rejects. *)

Section Loops.

Variable uuid : nat -> string.
Variable monthKey : string.

(** [v.entry_id || crypto.randomUUID()] with the number of calls made. *)
Definition assign_entry_id (v : CreateEntry) (k : nat) : string * nat :=
  match ce_entry_id v with
  | Some s => if nonempty s then (s, k) else (uuid k, S k)
  | None => (uuid k, S k)
  end.

Fixpoint create_loop (es : list JSON) (k : nat) : string + list UpdateEntry :=
  match es with
  | [] => inr []
  | e :: es' =>
      match validateCreateEntry e monthKey with
      | inl message => inl message
      | inr v =>
          let (entry_id, k') := assign_entry_id v k in
          match create_loop es' k' with
          | inl message => inl message
          | inr rest => inr (with_entry_id v entry_id :: rest)
          end
      end
  end.

Fixpoint update_loop (es : list JSON) : string + list UpdateEntry :=
  match es with
  | [] => inr []
  | e :: es' =>
      match validateUpdateEntry e monthKey with
      | inl message => inl message
      | inr v =>
          match update_loop es' with
          | inl message => inl message
          | inr rest => inr (v :: rest)
          end
      end
  end.

Fixpoint delete_ids_loop (ids : list JSON) : string + list string :=
  match ids with
  | [] => inr []
  | i :: ids' =>
      if negb (string_where nonempty (Some i))
      then inl "delete_entry_ids must contain non-empty strings."
      else
        match delete_ids_loop ids' with
        | inl message => inl message
        | inr rest => inr (the_string (Some i) :: rest)
        end
  end.

Fixpoint upsert_loop (ds : list JSON) : string + list UpsertDailyBudget :=
  match ds with
  | [] => inr []
  | d :: ds' =>
      match validateUpsertDailyBudget d monthKey with
      | inl message => inl message
      | inr v =>
          match upsert_loop ds' with
          | inl message => inl message
          | inr rest => inr (v :: rest)
          end
      end
  end.

Fixpoint delete_dates_loop (ds : list JSON) : string + list string :=
  match ds with
  | [] => inr []
  | d :: ds' =>
      if negb (string_where DATE_RE (Some d))
      then inl "delete_daily_budget_dates must contain YYYY-MM-DD strings."
      else if negb (dateMatchesMonthKey (the_string (Some d)) monthKey)
      then inl (mismatch_message (the_string (Some d)) monthKey)
      else
        match delete_dates_loop ds' with
        | inl message => inl message
        | inr rest => inr (the_string (Some d) :: rest)
        end
  end.

(** [if (ops.name) { if (!Array.isArray(ops.name)) return ...; for ... }] *)
Definition op_list {A} (v : option JSON) (name : string)
    (loop : list JSON -> string + list A) : string + list A :=
  if falsy v then inr []
  else
    match v with
    | Some (JArr l) => loop l
    | _ => inl (name ++ " must be an array.")
    end.

End Loops.

(** The validated operation lists, in the handler's local variables. *)
Record Ops := {
  createEntries : list UpdateEntry;
  updateEntries : list UpdateEntry;
  deleteEntryIds : list string;
  upsertDailyBudgets : list UpsertDailyBudget;
  deleteDailyBudgetDates : list string
}.

Definition validateOps (uuid : nat -> string) (monthKey : string) (o : JSON)
  : string + Ops :=
  match op_list (prop o "create_entries") "create_entries"
          (fun l => create_loop uuid monthKey l 0) with
  | inl message => inl message
  | inr cs =>
  match op_list (prop o "update_entries") "update_entries" (update_loop monthKey) with
  | inl message => inl message
  | inr us =>
  match op_list (prop o "delete_entry_ids") "delete_entry_ids" delete_ids_loop with
  | inl message => inl message
  | inr dis =>
  match op_list (prop o "upsert_daily_budgets") "upsert_daily_budgets"
          (upsert_loop monthKey) with
  | inl message => inl message
  | inr ups =>
  match op_list (prop o "delete_daily_budget_dates") "delete_daily_budget_dates"
          (delete_dates_loop monthKey) with
  | inl message => inl message
  | inr dds =>
      inr {| createEntries := cs; updateEntries := us; deleteEntryIds := dis;
             upsertDailyBudgets := ups; deleteDailyBudgetDates := dds |}
  end end end end end.

Definition totalOps (v : Ops) : nat :=
  (length (createEntries v) + length (updateEntries v) + length (deleteEntryIds v)
   + length (upsertDailyBudgets v) + length (deleteDailyBudgetDates v))%nat.

(** ** The tables of [db/schema.sql] *)

Record MonthRow := {
  version : Z;
  monthly_budget : option Z;
  cutoff_type : string;
  cutoff_day : option Z;
  m_updated_at : string
}.

Record CategoryRow := {
  c_user_id : string;
  c_name : string;
  c_kind : string;
  c_is_active : Z;
  c_sort_order : option Z
}.

Record EntryRow := {
  e_user_id : string;
  e_month_key : string;
  e_date : string;
  e_type : string;
  e_amount : Z;
  e_category_id : string;
  e_memo : option string;
  e_payment_method : option string;
  e_created_at : string;
  e_updated_at : string
}.

Record DailyBudgetRow := {
  d_override : Z;
  d_created_at : string;
  d_updated_at : string
}.

(** Each table is keyed by its primary key: [users] by [user_id], [months]
    by [(user_id, month_key)], [categories] by [category_id], [entries] by
    [entry_id], [daily_budgets] by [(user_id, month_key, date)]. *)
Record DB := {
  users : gset string;
  months : gmap (string * string) MonthRow;
  categories : gmap string CategoryRow;
  entries : gmap string EntryRow;
  daily_budgets : gmap (string * string * string) DailyBudgetRow
}.

Definition set_months (db : DB) (m : gmap (string * string) MonthRow) : DB :=
  {| users := users db; months := m; categories := categories db;
     entries := entries db; daily_budgets := daily_budgets db |}.

Definition set_entries (db : DB) (m : gmap string EntryRow) : DB :=
  {| users := users db; months := months db; categories := categories db;
     entries := m; daily_budgets := daily_budgets db |}.

Definition set_daily_budgets (db : DB)
    (m : gmap (string * string * string) DailyBudgetRow) : DB :=
  {| users := users db; months := months db; categories := categories db;
     entries := entries db; daily_budgets := m |}.

(** ** The statements the handler prepares

    One constructor per SQL text of [save.ts], its arguments in the order of
    [bind]. *)

Inductive Stmt : Type :=
(* INSERT OR IGNORE INTO months (user_id, month_key, version, cutoff_type,
   updated_at) VALUES (?, ?, 0, 'calendar', ?) *)
| InsertOrIgnoreMonth (user_id month_key now : string)
(* UPDATE months SET version = version + 1, updated_at = ?
   WHERE user_id = ? AND month_key = ? AND version = ? *)
| BumpVersion (now user_id month_key : string) (expected_version : Z)
(* INSERT INTO entries (entry_id, user_id, month_key, date, type, amount,
   category_id, memo, payment_method, created_at, updated_at) VALUES (...) *)
| InsertEntry (entry_id user_id month_key date type : string) (amount : Z)
    (category_id : string) (memo payment_method : option string)
    (created_at updated_at : string)
(* UPDATE entries SET date = ?, type = ?, amount = ?, category_id = ?,
   memo = ?, payment_method = ?, updated_at = ?
   WHERE entry_id = ? AND user_id = ? AND month_key = ? *)
| UpdateEntryRow (date type : string) (amount : Z) (category_id : string)
    (memo payment_method : option string) (updated_at : string)
    (entry_id user_id month_key : string)
(* DELETE FROM entries WHERE entry_id = ? AND user_id = ? AND month_key = ? *)
| DeleteEntry (entry_id user_id month_key : string)
(* INSERT INTO daily_budgets (...) VALUES (?, ?, ?, ?, ?, ?)
   ON CONFLICT(user_id, month_key, date) DO UPDATE SET
   daily_budget_override = excluded.daily_budget_override,
   updated_at = excluded.updated_at *)
| UpsertDailyBudgetRow (user_id month_key date : string) (override : Z)
    (created_at updated_at : string)
(* DELETE FROM daily_budgets WHERE user_id = ? AND month_key = ? AND date = ? *)
| DeleteDailyBudget (user_id month_key date : string).

(** What one statement does to the tables and the number of rows it
    changes ([meta.changes]); [None] is a constraint failure (primary key or
    foreign key, which the schema enforces). *)
Definition exec (s : Stmt) (db : DB) : option (DB * Z) :=
  match s with
  | InsertOrIgnoreMonth u mk now =>
      match months db !! (u, mk) with
      | Some _ => Some (db, 0)
      | None =>
          if bool_decide (u ∈ users db)
          then Some (set_months db
                       (<[(u, mk) := {| version := 0; monthly_budget := None;
                                        cutoff_type := "calendar"; cutoff_day := None;
                                        m_updated_at := now |}]> (months db)), 1)
          else None
      end
  | BumpVersion now u mk expected =>
      match months db !! (u, mk) with
      | Some r =>
          if version r =? expected
          then Some (set_months db
                       (<[(u, mk) := {| version := version r + 1;
                                        monthly_budget := monthly_budget r;
                                        cutoff_type := cutoff_type r;
                                        cutoff_day := cutoff_day r;
                                        m_updated_at := now |}]> (months db)), 1)
          else Some (db, 0)
      | None => Some (db, 0)
      end
  | InsertEntry id u mk date type amount cat memo pm created updated =>
      match entries db !! id with
      | Some _ => None
      | None =>
          if bool_decide (u ∈ users db)
             && bool_decide (is_Some (months db !! (u, mk)))
             && bool_decide (is_Some (categories db !! cat))
          then Some (set_entries db
                       (<[id := {| e_user_id := u; e_month_key := mk; e_date := date;
                                   e_type := type; e_amount := amount;
                                   e_category_id := cat; e_memo := memo;
                                   e_payment_method := pm; e_created_at := created;
                                   e_updated_at := updated |}]> (entries db)), 1)
          else None
      end
  | UpdateEntryRow date type amount cat memo pm updated id u mk =>
      match entries db !! id with
      | Some r =>
          if String.eqb (e_user_id r) u && String.eqb (e_month_key r) mk
          then
            if bool_decide (is_Some (categories db !! cat))
            then Some (set_entries db
                         (<[id := {| e_user_id := e_user_id r;
                                     e_month_key := e_month_key r; e_date := date;
                                     e_type := type; e_amount := amount;
                                     e_category_id := cat; e_memo := memo;
                                     e_payment_method := pm;
                                     e_created_at := e_created_at r;
                                     e_updated_at := updated |}]> (entries db)), 1)
            else None
          else Some (db, 0)
      | None => Some (db, 0)
      end
  | DeleteEntry id u mk =>
      match entries db !! id with
      | Some r =>
          if String.eqb (e_user_id r) u && String.eqb (e_month_key r) mk
          then Some (set_entries db (delete id (entries db)), 1)
          else Some (db, 0)
      | None => Some (db, 0)
      end
  | UpsertDailyBudgetRow u mk date override created updated =>
      match daily_budgets db !! (u, mk, date) with
      | Some r =>
          Some (set_daily_budgets db
                  (<[(u, mk, date) := {| d_override := override;
                                         d_created_at := d_created_at r;
                                         d_updated_at := updated |}]> (daily_budgets db)), 1)
      | None =>
          if bool_decide (u ∈ users db) && bool_decide (is_Some (months db !! (u, mk)))
          then Some (set_daily_budgets db
                       (<[(u, mk, date) := {| d_override := override;
                                              d_created_at := created;
                                              d_updated_at := updated |}]>
                          (daily_budgets db)), 1)
          else None
      end
  | DeleteDailyBudget u mk date =>
      match daily_budgets db !! (u, mk, date) with
      | Some _ => Some (set_daily_budgets db (delete (u, mk, date) (daily_budgets db)), 1)
      | None => Some (db, 0)
      end
  end.

(** [db.batch(stmts)]: the statements run in order inside one transaction.
    A statement that fails aborts the whole sequence; a statement that
    changes no row is not a failure. *)
Fixpoint run (stmts : list Stmt) (db : DB) : option (DB * list Z) :=
  match stmts with
  | [] => Some (db, [])
  | s :: rest =>
      match exec s db with
      | None => None
      | Some (db', changes) =>
          match run rest db' with
          | None => None
          | Some (db'', results) => Some (db'', changes :: results)
          end
      end
  end.

Definition batch (stmts : list Stmt) (db : DB) : option (DB * list Z) := run stmts db.

(** [SELECT category_id FROM categories WHERE user_id = ?] *)
Definition select_category_ids (db : DB) (user_id : string) : list string :=
  (map_to_list (filter (fun kv => c_user_id (snd kv) = user_id) (categories db))).*1.

(** ** Number arithmetic

    A JavaScript number is an IEEE 754 double.  Every integer of magnitude up
    to 2^53 is a double; beyond, the doubles are the multiples of the power of
    two [2 ^ (Z.log2 |z| - 52)].  [double_of z] is the double that an
    arithmetic operation returns when its exact result is the integer [z]:
    the nearest double, a tie going to the even significand.  (The sum of a
    double and 1 never overflows.) *)
Definition double_of (z : Z) : Z :=
  let a := Z.abs z in
  if a <=? 2 ^ 53 then z
  else
    let ulp := 2 ^ (Z.log2 a - 52) in
    let q := a / ulp in
    let r := a mod ulp in
    let q' := if 2 * r <? ulp then q
              else if ulp <? 2 * r then q + 1
              else if Z.even q then q else q + 1 in
    Z.sgn z * (q' * ulp).

(** [a + b] on numbers that hold integers. *)
Definition number_add (a b : Z) : Z := double_of (a + b).

(** ** The handler *)

(** What the handler asked of the database, in order. *)
Inductive Access : Type :=
| CategoryLookup (user_id : string)
| Batch (stmts : list Stmt) (results : option (list Z)).

(** The handler returns a response, or the exception of a failed batch
    escapes it. *)
Inductive Outcome : Type :=
| Returned (r : Response)
| Thrown.

Record Run := {
  outcome : Outcome;
  store : DB;
  accesses : list Access
}.

(** [allCategoryIds], in insertion order. *)
Definition allCategoryIds (v : Ops) : list string :=
  fold_left set_add (map ue_category_id (updateEntries v))
    (fold_left set_add (map ue_category_id (createEntries v)) []).

(** The first referenced id that [validCatIds] lacks. *)
Definition first_invalid (validCatIds ids : list string) : option string :=
  find (fun cid => negb (has validCatIds cid)) ids.

(** The statement list [stmts], built in seven steps. *)
Definition compile (user_id month_key : string) (expected_version : Z) (now : string)
    (v : Ops) : list Stmt :=
  [InsertOrIgnoreMonth user_id month_key now;
   BumpVersion now user_id month_key expected_version]
  ++ map (fun e => InsertEntry (ue_entry_id e) user_id month_key (ue_date e) (ue_type e)
                     (ue_amount e) (ue_category_id e) (ue_memo e) (ue_payment_method e)
                     now now) (createEntries v)
  ++ map (fun e => UpdateEntryRow (ue_date e) (ue_type e) (ue_amount e) (ue_category_id e)
                     (ue_memo e) (ue_payment_method e) now (ue_entry_id e) user_id
                     month_key) (updateEntries v)
  ++ map (fun id => DeleteEntry id user_id month_key) (deleteEntryIds v)
  ++ map (fun d => UpsertDailyBudgetRow user_id month_key (udb_date d)
                     (daily_budget_override d) now now) (upsertDailyBudgets v)
  ++ map (fun d => DeleteDailyBudget user_id month_key d) (deleteDailyBudgetDates v).

Definition counts (v : Ops) : Applied :=
  {| created_entries := length (createEntries v);
     updated_entries := length (updateEntries v);
     deleted_entries := length (deleteEntryIds v);
     upserted_daily_budgets := length (upsertDailyBudgets v);
     deleted_daily_budgets := length (deleteDailyBudgetDates v) |}.

Definition no_counts : Applied :=
  {| created_entries := 0; updated_entries := 0; deleted_entries := 0;
     upserted_daily_budgets := 0; deleted_daily_budgets := 0 |}.

Definition conflict : Body :=
  ConflictBody "Conflict" "Please fetch latest and re-apply changes.".

Section Handler.

(** The environment of one request: the wall clock read by
    [getEditableMonthKeys], the timestamp text [now] of the batch and the
    values [crypto.randomUUID()] returns. *)
Variable clock : Clock.
Variable now : string.
Variable uuid : nat -> string.

(** The part of the handler after the no-op check. *)
Definition save (db : DB) (user_id month_key : string) (expected_version : Z) (v : Ops)
  : Run :=
  let ids := allCategoryIds v in
  let lookup := if (0 <? length ids)%nat then [CategoryLookup user_id] else [] in
  match (if (0 <? length ids)%nat
         then first_invalid (select_category_ids db user_id) ids else None) with
  | Some cid =>
      {| outcome := Returned (errorResponse 400 ("Invalid category_id: " ++ cid));
         store := db; accesses := lookup |}
  | None =>
      let stmts := compile user_id month_key expected_version now v in
      match batch stmts db with
      | None => {| outcome := Thrown; store := db; accesses := lookup ++ [Batch stmts None] |}
      | Some (db', results) =>
          let changes := nth 1 results 0 in
          {| outcome :=
               Returned
                 (if changes =? 0 then jsonResponse 409 conflict
                  else jsonResponse 200
                         (OkBody {| sr_month_key := month_key;
                                    new_version := number_add expected_version 1;
                                    applied := counts v |}));
             store := db';
             accesses := lookup ++ [Batch stmts (Some results)] |}
      end
  end.

(** [request] is the body text parsed by [request.json()]; [None] when it
    does not parse. *)
Definition handlePostMonthly (db : DB) (user_id : string) (request : option JSON) : Run :=
  let reply r := {| outcome := Returned r; store := db; accesses := [] |} in
  match request with
  | None => reply (errorResponse 400 "Invalid JSON body.")
  | Some rawBody =>
      match validateBody rawBody with
      | inl message => reply (errorResponse 400 message)
      | inr validated =>
          if negb (has (getEditableMonthKeys clock) (month_key validated))
          then reply (errorResponse 403 "This month is read-only.")
          else
            match validateOps uuid (month_key validated) (ops validated) with
            | inl message => reply (errorResponse 400 message)
            | inr v =>
                if (totalOps v =? 0)%nat
                then reply (jsonResponse 200
                              (OkBody {| sr_month_key := month_key validated;
                                         new_version := expected_version validated;
                                         applied := no_counts |}))
                else save db user_id (month_key validated) (expected_version validated) v
            end
      end
  end.

End Handler.

(** ** Vocabulary of the properties *)

(** The two statements on [months] head the batch; every other statement
    works on [entries] or [daily_budgets]. *)
Definition on_months (s : Stmt) : bool :=
  match s with
  | InsertOrIgnoreMonth _ _ _ | BumpVersion _ _ _ _ => true
  | _ => false
  end.

(** The user and month-key that the WHERE clause (or the inserted row) of a
    statement carries. *)
Definition scope (s : Stmt) : string * string :=
  match s with
  | InsertOrIgnoreMonth u mk _ => (u, mk)
  | BumpVersion _ u mk _ => (u, mk)
  | InsertEntry _ u mk _ _ _ _ _ _ _ _ => (u, mk)
  | UpdateEntryRow _ _ _ _ _ _ _ _ u mk => (u, mk)
  | DeleteEntry _ u mk => (u, mk)
  | UpsertDailyBudgetRow u mk _ _ _ _ => (u, mk)
  | DeleteDailyBudget u mk _ => (u, mk)
  end.

Definition steps (user_id month_key now : string) (v : Ops) : list Stmt :=
  drop 2 (compile user_id month_key 0 now v).

(** A row of [entries] that belongs to another user or to another month. *)
Definition foreign (u mk : string) (row : EntryRow) : Prop :=
  e_user_id row <> u \/ e_month_key row <> mk.

Definition stored_version (db : DB) (user_id month_key : string) : option Z :=
  version <$> months db !! (user_id, month_key).

Definition editable (clock : Clock) (monthKey : string) : bool :=
  has (getEditableMonthKeys clock) monthKey.

Definition noop_reply (db : DB) (rq : SaveRequest) : Run :=
  {| outcome := Returned (jsonResponse 200
                            (OkBody {| sr_month_key := month_key rq;
                                       new_version := expected_version rq;
                                       applied := no_counts |}));
     store := db; accesses := [] |}.

Definition rejected (db : DB) (st : Z) (message : string) : Run :=
  {| outcome := Returned (errorResponse st message); store := db; accesses := [] |}.

(** The elements of the array [ops.name] of a request; none when the
    property is not an array. *)
Definition elements (o : JSON) (name : string) : list JSON :=
  match prop o name with
  | Some (JArr l) => l
  | _ => []
  end.

(** How many operations a request lists under [name]. *)
Definition listed (o : JSON) (name : string) : nat := length (elements o name).

(** 2^53, from which on not every integer is a number. *)
Definition MAX_EXACT : Z := 9007199254740992.

(** The accesses of [save] before its batch. *)
Definition lookups_of (user_id : string) (v : Ops) : list Access :=
  if (0 <? length (allCategoryIds v))%nat then [CategoryLookup user_id] else [].

(** The body of the response, when the handler returned one. *)
Definition body_of (o : Outcome) : option Body :=
  match o with
  | Returned r => Some (body r)
  | Thrown => None
  end.

Definition is_lookup (a : Access) : bool :=
  match a with
  | CategoryLookup _ => true
  | Batch _ _ => false
  end.

(** How many category lookups a run issued. *)
Definition lookups (l : list Access) : nat := length (List.filter is_lookup l).

(** The category ids that the create and update operations refer to. *)
Definition referenced (v : Ops) : list string :=
  map ue_category_id (createEntries v ++ updateEntries v).

(** [cid] is in the category set of user [u]. *)
Definition owns (db : DB) (u cid : string) : Prop :=
  exists r, categories db !! cid = Some r /\ c_user_id r = u.

(** ** Sample data

    A user with one category and no month row yet, on a clock in February
    2026, and the requests used to run the handler on concrete inputs. *)

Definition sample_clock : Clock := {| fullYear := 2026; monthIndex := 1 |}.

Definition sample_uuid (k : nat) : string := "uuid-" ++ pretty k.

Definition sample_db : DB :=
  {| users := {["u1"]};
     months := ∅;
     categories := {["cat-001" := {| c_user_id := "u1"; c_name := "food";
                                     c_kind := "expense"; c_is_active := 1;
                                     c_sort_order := None |}]};
     entries := ∅;
     daily_budgets := ∅ |}.

Definition request (monthKey : string) (expectedVersion : Z) (o : list (string * JSON))
  : JSON :=
  JObj [("month_key", JStr monthKey); ("expected_version", JInt expectedVersion);
        ("ops", JObj o)].

Definition entry_json (date : string) (amount : Z) (more : list (string * JSON)) : JSON :=
  JObj ([("date", JStr date); ("type", JStr "expense"); ("amount", JInt amount);
         ("category_id", JStr "cat-001")] ++ more).

(** [{month_key: "2026-02", expected_version: 0, ops: {create_entries:
    [{date: "2026-02-05", type: "expense", amount: 500, category_id:
    "cat-001"}]}}] *)
Definition create_request : JSON :=
  request "2026-02" 0 [("create_entries", JArr [entry_json "2026-02-05" 500 []])].

(** The request above, saved once and then sent again unchanged. *)
Definition first_save : Run :=
  handlePostMonthly sample_clock "2026-02-10 09:00:00" sample_uuid sample_db "u1"
    (Some create_request).

Definition second_save : Run :=
  handlePostMonthly sample_clock "2026-02-10 09:00:05" (fun k => sample_uuid (S k))
    (store first_save) "u1" (Some create_request).

(** An empty save against a month before the editable window. *)
Definition old_noop_request : JSON := request "2025-01" 3 [].

Definition empty_ops : Ops :=
  {| createEntries := []; updateEntries := []; deleteEntryIds := [];
     upsertDailyBudgets := []; deleteDailyBudgetDates := [] |}.

(** Deleting an entry id that is in no table. *)
Definition delete_missing_request : JSON :=
  request "2026-02" 0 [("delete_entry_ids", JArr [JStr "no-such-entry"])].

(** An update and a deletion of an entry id that is in no table. *)
Definition missing_request : JSON :=
  request "2026-02" 0
    [("update_entries", JArr [entry_json "2026-02-09" 1 [("entry_id", JStr "no-such-entry")]]);
     ("delete_entry_ids", JArr [JStr "no-such-entry"])].

(** The tables of a month that has been saved 2^53 times, and the next
    save. *)
Definition worn_db : DB :=
  {| users := users sample_db;
     months := {[("u1", "2026-02") := {| version := MAX_EXACT; monthly_budget := None;
                                         cutoff_type := "calendar"; cutoff_day := None;
                                         m_updated_at := "2026-02-09 09:00:00" |}]};
     categories := categories sample_db;
     entries := ∅;
     daily_budgets := ∅ |}.

Definition worn_request : JSON :=
  request "2026-02" MAX_EXACT [("delete_entry_ids", JArr [JStr "no-such-entry"])].

(** ** The editable window in the words of the specification

    The current calendar month plus the five preceding calendar months, each
    named by its month-key. *)

(** The calendar month before month [m] (1..12) of year [y]. *)
Definition previous_month (ym : Z * Z) : Z * Z :=
  if snd ym =? 1 then (fst ym - 1, 12) else (fst ym, snd ym - 1).

(** The calendar month [i] months before [ym]. *)
Definition months_back (ym : Z * Z) (i : nat) : Z * Z := Nat.iter i previous_month ym.

(** The key "YYYY-MM" of month [m] (1..12) of year [y]. *)
Definition month_key_of (ym : Z * Z) : string :=
  pretty (fst ym) ++ "-" ++ padStart2 (snd ym).

Definition editable_window (now : Clock) : list string :=
  map (fun i => month_key_of (months_back (fullYear now, monthIndex now + 1) i))
    [0; 1; 2; 3; 4; 5]%nat.

(** ** Dates in the words of the specification *)

Definition leap_year (y : Z) : bool :=
  (y mod 4 =? 0) && (negb (y mod 100 =? 0) || (y mod 400 =? 0)).

Definition days_in_month (y m : Z) : Z :=
  if m =? 2 then (if leap_year y then 29 else 28)
  else if (m =? 4) || (m =? 6) || (m =? 9) || (m =? 11) then 30
  else 31.

(** The number a string of decimal digits denotes. *)
Definition number_of (s : string) : Z :=
  fold_left (fun acc c => 10 * acc + (Z.of_nat (nat_of_ascii c) - 48))
    (list_ascii_of_string s) 0.

(** The date "YYYY-MM-DD" is a day of the calendar month "YYYY-MM": same
    year and month, and a day number that the month has. *)
Definition in_calendar_month (date monthKey : string) : bool :=
  String.eqb (substring 0 7 date) monthKey
  && (1 <=? number_of (substring 8 2 date))
  && (number_of (substring 8 2 date)
      <=? days_in_month (number_of (substring 0 4 date)) (number_of (substring 5 2 date))).

(** What the validator establishes of a date: the month-key, a hyphen and
    two characters that [(0[1-9]|[12]\d|3[01])] matches. *)
Definition dated (monthKey date : string) : Prop :=
  exists d1 d2, date = monthKey ++ "-" ++ String d1 (String d2 "") /\ re_day d1 d2 = true.

Definition dates_of (v : Ops) : list string :=
  map ue_date (createEntries v) ++ map ue_date (updateEntries v)
  ++ map udb_date (upsertDailyBudgets v) ++ deleteDailyBudgetDates v.

(** The dates a request submits: the [date] of each element of
    [create_entries], [update_entries] and [upsert_daily_budgets], and the
    elements of [delete_daily_budget_dates]. *)
Definition submitted_dates (o : JSON) : list (option JSON) :=
  map (fun e => prop e "date") (elements o "create_entries")
  ++ map (fun e => prop e "date") (elements o "update_entries")
  ++ map (fun e => prop e "date") (elements o "upsert_daily_budgets")
  ++ map Some (elements o "delete_daily_budget_dates").

(** [d] is a string "YYYY-MM-DD" whose year and month are those of
    [monthKey]. *)
Definition in_month (monthKey : string) (d : option JSON) : bool :=
  string_where (fun s => DATE_RE s && String.eqb (substring 0 7 s) monthKey) d.

(** The date a statement binds. *)
Definition bound_date (s : Stmt) : option string :=
  match s with
  | InsertEntry _ _ _ date _ _ _ _ _ _ _ => Some date
  | UpdateEntryRow date _ _ _ _ _ _ _ _ _ => Some date
  | UpsertDailyBudgetRow _ _ date _ _ _ => Some date
  | DeleteDailyBudget _ _ date => Some date
  | _ => None
  end.

(** A create dated in March under the month-key of February. *)
Definition march_request : JSON :=
  request "2026-02" 0 [("create_entries", JArr [entry_json "2026-03-15" 500 []])].

(** A create whose day, 30, February does not have. *)
Definition feb30_request : JSON :=
  request "2026-02" 0 [("create_entries", JArr [entry_json "2026-02-30" 500 []])].

(** ** The field constraints of an entry in the words of the specification

    Date matching YYYY-MM-DD and within the request's month-key; type in
    {expense, income}; amount a strictly positive integer; non-empty category
    id; memo either absent/null or a string; payment method either
    absent/null or one of the enumerated set. *)

Definition absent_or_null (v : option JSON) : bool := negb (provided v).

Definition date_ok (e : JSON) (monthKey : string) : bool :=
  string_where (fun d => DATE_RE d && String.eqb (substring 0 7 d) monthKey) (prop e "date").

Definition type_ok (e : JSON) : bool :=
  string_where (fun t => String.eqb t "expense" || String.eqb t "income") (prop e "type").

Definition amount_ok (e : JSON) : bool :=
  integer_where (fun a => 0 <? a) (prop e "amount").

Definition category_id_ok (e : JSON) : bool :=
  string_where (fun c => negb (String.eqb c "")) (prop e "category_id").

Definition memo_ok (e : JSON) : bool :=
  absent_or_null (prop e "memo") || string_where (fun _ => true) (prop e "memo").

Definition payment_method_ok (e : JSON) : bool :=
  absent_or_null (prop e "payment_method")
  || string_where (has VALID_PAYMENT_METHODS) (prop e "payment_method").

(** The element breaks one of the constraints on date, type, amount,
    category id or payment method. *)
Definition violates (e : JSON) (monthKey : string) : bool :=
  negb (date_ok e monthKey && type_ok e && amount_ok e && category_id_ok e
        && payment_method_ok e).

(** The constrained fields, in the order the constraints are listed. *)
Inductive Field : Type :=
| DateField
| TypeField
| AmountField
| CategoryField
| PaymentField.

Definition FIELDS : list Field :=
  [DateField; TypeField; AmountField; CategoryField; PaymentField].

(** The property name of a field. *)
Definition field_name (f : Field) : string :=
  match f with
  | DateField => "date"
  | TypeField => "type"
  | AmountField => "amount"
  | CategoryField => "category_id"
  | PaymentField => "payment_method"
  end.

Definition field_ok (f : Field) (e : JSON) (monthKey : string) : bool :=
  match f with
  | DateField => date_ok e monthKey
  | TypeField => type_ok e
  | AmountField => amount_ok e
  | CategoryField => category_id_ok e
  | PaymentField => payment_method_ok e
  end.

(** The first field of the element that breaks its constraint. *)
Definition first_violated (e : JSON) (monthKey : string) : option Field :=
  find (fun f => negb (field_ok f e monthKey)) FIELDS.

(** The message that reports a field; a date is reported by its format or,
    when the format is right, by its month. *)
Definition field_message (f : Field) (e : JSON) (monthKey : string) : string :=
  match f with
  | DateField =>
      if string_where DATE_RE (prop e "date")
      then mismatch_message (the_string (prop e "date")) monthKey
      else "date must be YYYY-MM-DD."
  | TypeField => "type must be 'expense' or 'income'."
  | AmountField => "amount must be a positive integer."
  | CategoryField => "category_id is required."
  | PaymentField => "Invalid payment_method."
  end.

(** [name] occurs in [message]. *)
Fixpoint mentions (name message : string) : bool :=
  String.prefix name message
  || match message with
     | EmptyString => false
     | String _ rest => mentions name rest
     end.

(** The [entry_id] of the element is absent, null or a string. *)
Definition id_usable (e : JSON) : bool :=
  match prop e "entry_id" with
  | None | Some JNull | Some (JStr _) => true
  | _ => false
  end.

(** Every element of the array [v], if the request has it, passes
    [validate]. *)
Definition all_pass {A} (validate : JSON -> string + A) (v : option JSON) : Prop :=
  falsy v = true
  \/ exists es, v = Some (JArr es) /\ Forall (fun x => exists c, validate x = inr c) es.

(** A create whose memo is a number. *)
Definition number_memo_entry : JSON := entry_json "2026-02-05" 500 [("memo", JInt 5)].

Definition number_memo_request : JSON :=
  request "2026-02" 0 [("create_entries", JArr [number_memo_entry])].

(** A create whose amount is zero. *)
Definition zero_amount_entry : JSON := entry_json "2026-02-05" 0 [].

Definition zero_amount_request : JSON :=
  request "2026-02" 0 [("create_entries", JArr [zero_amount_entry])].

(** A create with a zero amount for a month before the editable window. *)
Definition old_zero_amount_entry : JSON := entry_json "2025-01-05" 0 [].

Definition old_zero_amount_request : JSON :=
  request "2025-01" 0 [("create_entries", JArr [old_zero_amount_entry])].

(** A create without type ahead of the create whose amount is zero. *)
Definition untyped_entry : JSON :=
  JObj [("date", JStr "2026-02-05"); ("amount", JInt 500); ("category_id", JStr "cat-001")].

Definition two_malformed_request : JSON :=
  request "2026-02" 0 [("create_entries", JArr [untyped_entry; zero_amount_entry])].

(** A create whose amount is zero and whose [entry_id] is a number. *)
Definition numbered_entry : JSON := entry_json "2026-02-05" 0 [("entry_id", JInt 7)].

Definition numbered_request : JSON :=
  request "2026-02" 0 [("create_entries", JArr [numbered_entry])].

(** An update whose amount is zero, after a well-formed create. *)
Definition zero_amount_update : JSON := entry_json "2026-02-05" 0 [("entry_id", JStr "e-3")].

Definition zero_update_ops : list (string * JSON) :=
  [("create_entries", JArr [entry_json "2026-02-05" 500 []]);
   ("update_entries", JArr [entry_json "2026-02-06" 600 [("entry_id", JStr "e-3")];
                            zero_amount_update])].

Definition zero_update_request : JSON := request "2026-02" 0 zero_update_ops.

(** ** Identifiers of created entries *)

(** The create element supplies no usable [entry_id]: absent, null or the
    empty string. *)
Definition id_missing (e : JSON) : bool :=
  match prop e "entry_id" with
  | None | Some JNull | Some (JStr "") => true
  | _ => false
  end.

(** The ids the create loop is expected to assign from call [k] of the
    generator on: the supplied id, or else the next generated one. *)
Fixpoint expected_ids (uuid : nat -> string) (es : list JSON) (k : nat) : list string :=
  match es with
  | [] => []
  | e :: es' =>
      if id_missing e then uuid k :: expected_ids uuid es' (S k)
      else the_string (prop e "entry_id") :: expected_ids uuid es' k
  end.

(** An entry without its id. *)
Definition fields_of (c : UpdateEntry)
  : string * string * Z * string * option string * option string :=
  (ue_date c, ue_type c, ue_amount c, ue_category_id c, ue_memo c, ue_payment_method c).

(** Two results of the create loop that differ at most in the ids. *)
Definition same_outcome (r r' : string + list UpdateEntry) : Prop :=
  match r, r' with
  | inl m, inl m' => m = m'
  | inr cs, inr cs' => map fields_of cs = map fields_of cs'
  | _, _ => False
  end.

(** The id an INSERT into [entries] binds. *)
Definition insert_id (s : Stmt) : option string :=
  match s with
  | InsertEntry id _ _ _ _ _ _ _ _ _ _ => Some id
  | _ => None
  end.

(** A create element in the words of the specification: an object whose
    [entry_id] is absent, null or a string and whose fields meet the
    constraints. *)
Definition well_formed_create (e : JSON) (monthKey : string) : bool :=
  negb (not_object (Some e)) && id_usable e && negb (violates e monthKey).

(** The four operation lists besides [create_entries] validate, to the
    lists of [v]. *)
Definition others_accepted (monthKey : string) (o : JSON) (v : Ops) : Prop :=
  op_list (prop o "update_entries") "update_entries" (update_loop monthKey)
  = inr (updateEntries v)
  /\ op_list (prop o "delete_entry_ids") "delete_entry_ids" delete_ids_loop
     = inr (deleteEntryIds v)
  /\ op_list (prop o "upsert_daily_budgets") "upsert_daily_budgets" (upsert_loop monthKey)
     = inr (upsertDailyBudgets v)
  /\ op_list (prop o "delete_daily_budget_dates") "delete_daily_budget_dates"
       (delete_dates_loop monthKey)
     = inr (deleteDailyBudgetDates v).

Definition with_creates (cs : list UpdateEntry) (v : Ops) : Ops :=
  {| createEntries := cs; updateEntries := updateEntries v;
     deleteEntryIds := deleteEntryIds v; upsertDailyBudgets := upsertDailyBudgets v;
     deleteDailyBudgetDates := deleteDailyBudgetDates v |}.

(** Two creates without id around one that brings its own. *)
Definition three_creates : list JSON :=
  [entry_json "2026-02-05" 500 [("entry_id", JStr "")];
   entry_json "2026-02-06" 600 [("entry_id", JStr "mine")];
   entry_json "2026-02-07" 700 []].

Definition three_creates_request : JSON :=
  request "2026-02" 0 [("create_entries", JArr three_creates)].

(** ** More sample data *)

(** A create that refers to a category nobody has. *)
Definition unknown_category_request : JSON :=
  request "2026-02" 0
    [("create_entries",
      JArr [JObj [("date", JStr "2026-02-05"); ("type", JStr "expense");
                  ("amount", JInt 500); ("category_id", JStr "cat-999")]])].

Definition unknown_category_ops : Ops :=
  {| createEntries := [{| ue_entry_id := "uuid-0"; ue_date := "2026-02-05";
                          ue_type := "expense"; ue_amount := 500;
                          ue_category_id := "cat-999"; ue_memo := None;
                          ue_payment_method := None |}];
     updateEntries := []; deleteEntryIds := []; upsertDailyBudgets := [];
     deleteDailyBudgetDates := [] |}.

Definition sample_month : MonthRow :=
  {| version := 0; monthly_budget := None; cutoff_type := "calendar"; cutoff_day := None;
     m_updated_at := "2026-01-31 08:00:00" |}.

Definition sample_row (user_id monthKey date : string) : EntryRow :=
  {| e_user_id := user_id; e_month_key := monthKey; e_date := date; e_type := "expense";
     e_amount := 100; e_category_id := "cat-001"; e_memo := None;
     e_payment_method := None; e_created_at := "2026-01-31 08:00:00";
     e_updated_at := "2026-01-31 08:00:00" |}.

(** Two users; entry "e-1" is of user u2, entry "e-2" is of user u1 in
    January, entry "e-3" is of user u1 in February. *)
Definition shared_db : DB :=
  {| users := {["u1"; "u2"]};
     months := {[("u1", "2026-01") := sample_month; ("u1", "2026-02") := sample_month;
                 ("u2", "2026-02") := sample_month]};
     categories := categories sample_db;
     entries := {["e-1" := sample_row "u2" "2026-02" "2026-02-03";
                  "e-2" := sample_row "u1" "2026-01" "2026-01-03";
                  "e-3" := sample_row "u1" "2026-02" "2026-02-03"]};
     daily_budgets := ∅ |}.

(** User u1 lists all three ids for update and for deletion in a save of
    February. *)
Definition grab_ops : list (string * JSON) :=
  [("update_entries",
    JArr [entry_json "2026-02-09" 1 [("entry_id", JStr "e-1")];
          entry_json "2026-02-09" 1 [("entry_id", JStr "e-2")]]);
   ("delete_entry_ids", JArr [JStr "e-1"; JStr "e-2"; JStr "e-3"])].

Definition grab_request : JSON := request "2026-02" 0 grab_ops.

(** ** Vocabulary of the further properties *)

(** What a run leaves alone outside the month [(u, mk)] of its request:
    the users, the categories, the month rows of other keys and the daily
    budgets of other users or months. *)
Definition same_outside (u mk : string) (db db' : DB) : Prop :=
  users db' = users db
  /\ categories db' = categories db
  /\ (forall k, k <> (u, mk) -> months db' !! k = months db !! k)
  /\ (forall u' mk' d, (u', mk') <> (u, mk) ->
                       daily_budgets db' !! (u', mk', d) = daily_budgets db !! (u', mk', d)).

(** The entry id a statement on [entries] names. *)
Definition touches_entry (id : string) (s : Stmt) : bool :=
  match s with
  | InsertEntry id' _ _ _ _ _ _ _ _ _ _ => String.eqb id' id
  | UpdateEntryRow _ _ _ _ _ _ _ id' _ _ => String.eqb id' id
  | DeleteEntry id' _ _ => String.eqb id' id
  | _ => false
  end.

(** The date a statement on [daily_budgets] names. *)
Definition touches_budget (date : string) (s : Stmt) : bool :=
  match s with
  | UpsertDailyBudgetRow _ _ date' _ _ _ => String.eqb date' date
  | DeleteDailyBudget _ _ date' => String.eqb date' date
  | _ => false
  end.

(** The five runs of statements that follow the two statements on
    [months], in the order of the batch. *)
Definition inserts (u mk now : string) (cs : list UpdateEntry) : list Stmt :=
  map (fun e => InsertEntry (ue_entry_id e) u mk (ue_date e) (ue_type e) (ue_amount e)
                  (ue_category_id e) (ue_memo e) (ue_payment_method e) now now) cs.

Definition updates (u mk now : string) (us : list UpdateEntry) : list Stmt :=
  map (fun e => UpdateEntryRow (ue_date e) (ue_type e) (ue_amount e) (ue_category_id e)
                  (ue_memo e) (ue_payment_method e) now (ue_entry_id e) u mk) us.

Definition deletions (u mk : string) (ids : list string) : list Stmt :=
  map (fun id => DeleteEntry id u mk) ids.

Definition budget_upserts (u mk now : string) (ds : list UpsertDailyBudget) : list Stmt :=
  map (fun d => UpsertDailyBudgetRow u mk (udb_date d) (daily_budget_override d) now now) ds.

Definition budget_deletions (u mk : string) (ds : list string) : list Stmt :=
  map (fun d => DeleteDailyBudget u mk d) ds.

(** The row that the INSERT of a created entry writes. *)
Definition inserted_row (u mk now : string) (c : UpdateEntry) : EntryRow :=
  {| e_user_id := u; e_month_key := mk; e_date := ue_date c; e_type := ue_type c;
     e_amount := ue_amount c; e_category_id := ue_category_id c; e_memo := ue_memo c;
     e_payment_method := ue_payment_method c; e_created_at := now; e_updated_at := now |}.

(** The entry of id [id] is gone for the month [(u, mk)]: no row has the
    id, or the row that has it belongs to another user or month. *)
Definition gone (u mk id : string) (db : DB) : Prop :=
  entries db !! id = None
  \/ exists row, entries db !! id = Some row /\ foreign u mk row.

(** Two creates that bring the same id. *)
Definition twin_request : JSON :=
  request "2026-02" 0
    [("create_entries",
      JArr [entry_json "2026-02-05" 500 [("entry_id", JStr "mine")];
            entry_json "2026-02-06" 600 [("entry_id", JStr "mine")]])].

(** A save of February that creates an entry, sets two daily budgets for
    the same day and deletes the daily budget of another day and entry
    "e-3". *)
Definition mixed_ops : list (string * JSON) :=
  [("create_entries", JArr [entry_json "2026-02-05" 500 [("memo", JStr "lunch")]]);
   ("delete_entry_ids", JArr [JStr "e-3"]);
   ("upsert_daily_budgets",
    JArr [JObj [("date", JStr "2026-02-11"); ("daily_budget_override", JInt 1000)];
          JObj [("date", JStr "2026-02-12"); ("daily_budget_override", JInt 700)];
          JObj [("date", JStr "2026-02-11"); ("daily_budget_override", JInt 1200)]]);
   ("delete_daily_budget_dates", JArr [JStr "2026-02-12"])].

Definition mixed_request : JSON := request "2026-02" 0 mixed_ops.

Definition mixed_validated : Ops :=
  {| createEntries := [{| ue_entry_id := "uuid-0"; ue_date := "2026-02-05";
                          ue_type := "expense"; ue_amount := 500;
                          ue_category_id := "cat-001"; ue_memo := Some "lunch";
                          ue_payment_method := None |}];
     updateEntries := [];
     deleteEntryIds := ["e-3"];
     upsertDailyBudgets := [{| udb_date := "2026-02-11"; daily_budget_override := 1000 |};
                            {| udb_date := "2026-02-12"; daily_budget_override := 700 |};
                            {| udb_date := "2026-02-11"; daily_budget_override := 1200 |}];
     deleteDailyBudgetDates := ["2026-02-12"] |}.

Definition mixed_save : Run :=
  handlePostMonthly sample_clock "2026-02-10 09:00:00" sample_uuid shared_db "u1"
    (Some mixed_request).

Definition mixed_batch : list Stmt :=
  compile "u1" "2026-02" 0 "2026-02-10 09:00:00" mixed_validated.

(** What validation leaves of an entry operation: a positive amount, one
    of the two types, a category id and a payment method of the enumeration
    or none. *)
Definition entry_ok (c : UpdateEntry) : Prop :=
  0 < ue_amount c
  /\ In (ue_type c) VALID_TYPES
  /\ ue_category_id c <> ""
  /\ (ue_payment_method c = None
      \/ exists p, ue_payment_method c = Some p /\ In p VALID_PAYMENT_METHODS).

(** ** Authentication ([src/auth.ts])

    A header value is a byte string: each of its characters is a code unit
    below 256, one [ascii] here. *)

Record AuthEnv := {
  DEV_MODE : option string;
  AUTH_SECRET : option string
}.

(** [[0-9a-f]] *)
Definition hex (c : ascii) : bool := digit c || between "a" "f" c.

(** [/^u_[0-9a-f]{32}$/.test(s)] *)
Definition USER_ID_RE (s : string) : bool :=
  match list_ascii_of_string s with
  | a :: b :: rest => chr a "u" && chr b "_" && (length rest =? 32)%nat && forallb hex rest
  | _ => false
  end.

Definition isValidUserId (id : string) : bool := USER_ID_RE id.

Record AuthError := {
  ae_status : Z;
  ae_message : string
}.

(** What awaiting [getAuthUserId] gives: the user id, a thrown
    [AuthError], or another exception. *)
Inductive AuthResult : Type :=
| Resolved (user_id : string)
| Refused (e : AuthError)
| Crashed.

(** The parts of a request the worker reads: the method, the path and
    [searchParams.get] of its URL, and [headers.get]. *)
Record Request := {
  req_method : string;
  req_pathname : string;
  req_search : string -> option string;
  req_header : string -> option string
}.

(** [!s] for a string or null *)
Definition blank (s : option string) : bool :=
  match s with
  | None | Some "" => true
  | _ => false
  end.

(** The white space and line terminators of [trim] among the code units
    below 256: tab, line feed, vertical tab, form feed, carriage return,
    space and no-break space. *)
Definition white (c : ascii) : bool :=
  let n := nat_of_ascii c in
  ((9 <=? n) && (n <=? 13))%nat || (n =? 32)%nat || (n =? 160)%nat.

Fixpoint trimStart (s : string) : string :=
  match s with
  | String c s' => if white c then trimStart s' else s
  | EmptyString => EmptyString
  end.

(** The string without its trailing white space. *)
Fixpoint trimEnd (s : string) : string :=
  match s with
  | String c s' =>
      match trimEnd s' with
      | EmptyString => if white c then EmptyString else String c EmptyString
      | t => String c t
      end
  | EmptyString => EmptyString
  end.

(** [s.trim()] *)
Definition trim (s : string) : string := trimEnd (trimStart s).

(** [s.slice(n)] *)
Fixpoint slice_from (n : nat) (s : string) : string :=
  match n, s with
  | O, _ => s
  | S n', String _ s' => slice_from n' s'
  | S _, EmptyString => EmptyString
  end.

(** [s.indexOf(c)] for a one-character [c]; [None] is -1. *)
Fixpoint indexOf (c : ascii) (s : string) : option nat :=
  match s with
  | EmptyString => None
  | String a s' => if Ascii.eqb a c then Some O else option_map S (indexOf c s')
  end.

(** [s.replace(/-/g, "+").replace(/_/g, "/")] *)
Fixpoint to_base64 (s : string) : string :=
  match s with
  | EmptyString => EmptyString
  | String c s' =>
      String (if Ascii.eqb c "-" then "+"%char else if Ascii.eqb c "_" then "/"%char else c)
        (to_base64 s')
  end.

(** ["=".repeat(n)] *)
Fixpoint equals_signs (n : nat) : string :=
  match n with
  | O => EmptyString
  | S n' => String "=" (equals_signs n')
  end.

(** The argument [padded] that [base64urlDecode] hands to [atob]. *)
Definition padded (s : string) : string :=
  let base64 := to_base64 s in
  let pad := ((4 - String.length base64 mod 4) mod 4)%nat in
  base64 ++ equals_signs pad.

(** A number as [JSON.parse] yields it, as far as [<] against an integer
    goes: an integer, a fraction strictly between [below] and [below + 1],
    or an infinity. *)
Inductive Num : Type :=
| NInt (z : Z)
| NFrac (below : Z)
| NInf (negative : bool).

(** [n < k] for an integer [k] *)
Definition num_lt (n : Num) (k : Z) : bool :=
  match n with
  | NInt z => z <? k
  | NFrac below => below <? k
  | NInf negative => negative
  end.

(** What [verifyToken] reads of the value that [JSON.parse] returned:
    [null], whose properties cannot be read, or any other value with its
    [exp] when that is a number and its [sub] when that is a string. *)
Inductive Payload : Type :=
| PNull
| PValue (exp : option Num) (sub : option string).

Definition unauthorized : AuthError := {| ae_status := 401; ae_message := "Unauthorized" |}.

Definition bad_request : AuthError := {| ae_status := 400; ae_message := "Bad Request" |}.

Section Auth.

(** The platform: [atob] ([None] when it throws), HMAC-SHA256 verification
    of a signature over a text under the key made of a secret, and
    [JSON.parse] of the UTF-8 decoding of bytes ([None] when it throws). *)
Variable atob : string -> option string.
Variable hmac_verify : string -> string -> string -> bool.
Variable parse_payload : string -> option Payload.

(** The bytes of the binary string that [atob] returns are its code
    units. *)
Definition base64urlDecode (s : string) : option string := atob (padded s).

(** [nowMs] is [Date.now()]. *)
Definition verifyToken (nowMs : Z) (token secret : string) : AuthResult :=
  match indexOf "." token with
  | None => Refused bad_request
  | Some dotIndex =>
      let payloadB64 := substring 0 dotIndex token in
      let signatureB64 := slice_from (dotIndex + 1) token in
      match base64urlDecode signatureB64 with
      | None => Crashed
      | Some signatureBytes =>
          if negb (hmac_verify secret signatureBytes payloadB64) then Refused unauthorized
          else
            match
              match base64urlDecode payloadB64 with
              | None => None
              | Some bytes => parse_payload bytes
              end
            with
            | None => Refused bad_request
            | Some PNull => Crashed
            | Some (PValue exp sub) =>
                if match exp with
                   | Some n => num_lt n (nowMs / 1000)
                   | None => false
                   end
                then Refused unauthorized
                else
                  match sub with
                  | Some s =>
                      if String.eqb s "" || negb (isValidUserId s) then Refused bad_request
                      else Resolved s
                  | None => Refused bad_request
                  end
            end
      end
  end.

Definition getAuthUserId (nowMs : Z) (request : Request) (env : AuthEnv) : AuthResult :=
  if negb (blank (DEV_MODE env)) then
    let debugUser := req_header request "X-Debug-User" in
    if blank debugUser || String.eqb (trim (default "" debugUser)) ""
    then Refused unauthorized
    else
      let id := trim (default "" debugUser) in
      if negb (isValidUserId id) then Refused bad_request else Resolved id
  else
    let authHeader := req_header request "Authorization" in
    if blank authHeader || negb (String.prefix "Bearer " (default "" authHeader))
    then Refused unauthorized
    else
      let token := slice_from 7 (default "" authHeader) in
      if blank (Some token) then Refused unauthorized
      else if blank (AUTH_SECRET env) then Refused unauthorized
      else verifyToken nowMs token (default "" (AUTH_SECRET env)).

(** ** The worker ([src/index.ts]) *)

(** What [fetch] answers: an error response, or what
    [handleGetMonthly(env.DB, user_id, month_key)] answers. *)
Inductive Reply : Type :=
| ErrorReply (r : Response)
| MonthlyDataset (user_id month_key : string).

(** [validateMonthKey] on [url.searchParams.get("month_key")] *)
Definition validateMonthKey (month_key : option string) : Response + string :=
  if blank month_key || negb (MONTH_KEY_RE (default "" month_key))
  then inl (errorResponse 400 "month_key must be in YYYY-MM format.")
  else inr (default "" month_key).

Definition fetch (nowMs : Z) (request : Request) (env : AuthEnv) : Reply :=
  match getAuthUserId nowMs request env with
  | Refused e => ErrorReply (errorResponse (ae_status e) (ae_message e))
  | Crashed => ErrorReply (errorResponse 500 "Internal Server Error")
  | Resolved user_id =>
      if String.eqb (req_pathname request) "/api/monthly"
         && String.eqb (req_method request) "GET"
      then
        match validateMonthKey (req_search request "month_key") with
        | inl r => ErrorReply r
        | inr month_key => MonthlyDataset user_id month_key
        end
      else ErrorReply (errorResponse 404 "Not found.")
  end.

End Auth.

(** ** Sample requests and a toy platform *)

Definition sample_user : string := "u_0123456789abcdef0123456789abcdef".

(** A reader that knows one name. *)
Definition only (name value : string) : string -> option string :=
  fun n => if String.eqb n name then Some value else None.

Definition dev_env : AuthEnv := {| DEV_MODE := Some "false"; AUTH_SECRET := None |}.

Definition prod_env : AuthEnv := {| DEV_MODE := None; AUTH_SECRET := Some "s3cret" |}.

Definition dev_request : Request :=
  {| req_method := "GET"; req_pathname := "/api/monthly";
     req_search := only "month_key" "2026-02";
     req_header := only "X-Debug-User" " u_0123456789abcdef0123456789abcdef " |}.

Definition bearer_request (token : string) : Request :=
  {| req_method := "GET"; req_pathname := "/api/monthly";
     req_search := only "month_key" "2026-02";
     req_header := only "Authorization" ("Bearer " ++ token) |}.

Definition post_request : Request :=
  {| req_method := "POST"; req_pathname := "/api/monthly";
     req_search := only "month_key" "2026-02";
     req_header := only "Authorization" "Bearer cGF5.c2ln" |}.

(** A stand-in for the platform: [toy_atob] rejects a text with "!",
    [toy_hmac] accepts one signature, and [toy_parse] knows a payload that
    expires at second 2000000000 and a payload that is [null]. *)
Definition toy_atob (s : string) : option string :=
  match indexOf "!" s with
  | Some _ => None
  | None => Some s
  end.

Definition toy_hmac (secret signature text : string) : bool :=
  String.eqb secret "s3cret" && String.eqb signature "c2ln"
  && (String.eqb text "cGF5" || String.eqb text "bnVsbA").

Definition toy_parse (bytes : string) : option Payload :=
  if String.eqb bytes "cGF5" then Some (PValue (Some (NInt 2000000000)) (Some sample_user))
  else if String.eqb bytes "bnVsbA==" then Some PNull
  else None.

(** ** More vocabulary and samples *)

(** The row that an UPDATE of an entry leaves in place of [r]. *)
Definition updated_row (r : EntryRow) (now : string) (p : UpdateEntry) : EntryRow :=
  {| e_user_id := e_user_id r; e_month_key := e_month_key r; e_date := ue_date p;
     e_type := ue_type p; e_amount := ue_amount p; e_category_id := ue_category_id p;
     e_memo := ue_memo p; e_payment_method := ue_payment_method p;
     e_created_at := e_created_at r; e_updated_at := now |}.

(** The entry of id [id] is a row of [(u, mk)] created at [created]. *)
Definition kept (u mk id created : string) (db : DB) : Prop :=
  exists r, entries db !! id = Some r /\ e_user_id r = u /\ e_month_key r = mk
            /\ e_created_at r = created.

(** The month row [r'] continues the month row [r]: same budget and
    cutoff, a version that is not lower. *)
Definition continues (r r' : MonthRow) : Prop :=
  monthly_budget r' = monthly_budget r
  /\ cutoff_type r' = cutoff_type r
  /\ cutoff_day r' = cutoff_day r
  /\ version r <= version r'.

(** User u1 edits entry "e-3" twice in one save. *)
Definition edit_ops : list (string * JSON) :=
  [("update_entries",
    JArr [entry_json "2026-02-20" 250 [("entry_id", JStr "e-3")];
          entry_json "2026-02-21" 300 [("entry_id", JStr "e-3"); ("memo", JStr "fixed")]])].

Definition edit_request : JSON := request "2026-02" 0 edit_ops.

Definition edit_first : UpdateEntry :=
  {| ue_entry_id := "e-3"; ue_date := "2026-02-20"; ue_type := "expense"; ue_amount := 250;
     ue_category_id := "cat-001"; ue_memo := None; ue_payment_method := None |}.

Definition edit_last : UpdateEntry :=
  {| ue_entry_id := "e-3"; ue_date := "2026-02-21"; ue_type := "expense"; ue_amount := 300;
     ue_category_id := "cat-001"; ue_memo := Some "fixed"; ue_payment_method := None |}.

Definition edit_validated : Ops :=
  {| createEntries := []; updateEntries := [edit_first; edit_last]; deleteEntryIds := [];
     upsertDailyBudgets := []; deleteDailyBudgetDates := [] |}.

Definition edit_save : Run :=
  handlePostMonthly sample_clock "2026-02-10 09:00:00" sample_uuid shared_db "u1"
    (Some edit_request).

Definition edit_batch : list Stmt :=
  compile "u1" "2026-02" 0 "2026-02-10 09:00:00" edit_validated.

(** The save that follows [first_save] with the version it returned. *)
Definition follow_request : JSON :=
  request "2026-02" 1 [("create_entries", JArr [entry_json "2026-02-06" 600 []])].

Definition create_body : SaveRequest :=
  {| month_key := "2026-02"; expected_version := 0;
     ops := JObj [("create_entries", JArr [entry_json "2026-02-05" 500 []])] |}.

Definition follow_body : SaveRequest :=
  {| month_key := "2026-02"; expected_version := 1;
     ops := JObj [("create_entries", JArr [entry_json "2026-02-06" 600 []])] |}.

Definition one_create (id date : string) (amount : Z) : Ops :=
  {| createEntries := [{| ue_entry_id := id; ue_date := date; ue_type := "expense";
                          ue_amount := amount; ue_category_id := "cat-001";
                          ue_memo := None; ue_payment_method := None |}];
     updateEntries := []; deleteEntryIds := []; upsertDailyBudgets := [];
     deleteDailyBudgetDates := [] |}.
(** * Properties *)

(** ** Statements and tables *)

Lemma compile_steps u mk ev now v :
  compile u mk ev now v
  = InsertOrIgnoreMonth u mk now :: BumpVersion now u mk ev :: steps u mk now v.
Proof. reflexivity. Qed.

Lemma steps_off_months u mk now v :
  Forall (fun s => on_months s = false) (steps u mk now v).
Proof.
  unfold steps, compile. cbn [app drop].
  repeat (apply Forall_app; split); apply Forall_forall;
    intros s Hs; apply list_elem_of_In, in_map_iff in Hs;
    destruct Hs as [x [<- _]]; reflexivity.
Qed.

Lemma compile_scope u mk ev now v :
  Forall (fun s => scope s = (u, mk)) (compile u mk ev now v).
Proof.
  unfold compile. cbn [app].
  do 2 (apply Forall_cons; split; [reflexivity|]).
  repeat (apply Forall_app; split); apply Forall_forall;
    intros s Hs; apply list_elem_of_In, in_map_iff in Hs;
    destruct Hs as [x [<- _]]; reflexivity.
Qed.

Lemma exec_off_months s db db' c :
  on_months s = false -> exec s db = Some (db', c) -> months db' = months db.
Proof.
  intros Hs He. destruct s; try discriminate Hs; cbn in He;
    repeat (match type of He with
            | context [match ?x with _ => _ end] => destruct x eqn:?
            end; try discriminate He);
    inversion He; subst; reflexivity.
Qed.

Lemma run_off_months stmts : forall db db' results,
  Forall (fun s => on_months s = false) stmts ->
  run stmts db = Some (db', results) -> months db' = months db.
Proof.
  induction stmts as [|s rest IH]; intros db db' results Hall Hrun; cbn in Hrun.
  - inversion Hrun; reflexivity.
  - apply Forall_cons in Hall as [Hs Hrest].
    destruct (exec s db) as [[db1 c]|] eqn:He; [|discriminate].
    destruct (run rest db1) as [[db2 cs]|] eqn:Hr; [|discriminate].
    inversion Hrun; subst.
    rewrite (IH _ _ _ Hrest Hr). eapply exec_off_months; eauto.
Qed.

Lemma foreign_eqb u mk row :
  foreign u mk row -> String.eqb (e_user_id row) u && String.eqb (e_month_key row) mk = false.
Proof.
  intros [H|H]; apply andb_false_iff; [left|right]; now apply String.eqb_neq.
Qed.

Lemma exec_frame s u mk db db' c id row :
  scope s = (u, mk) -> exec s db = Some (db', c) ->
  entries db !! id = Some row -> foreign u mk row ->
  entries db' !! id = Some row.
Proof.
  intros Hsc He Hrow Hf.
  destruct s; cbn in Hsc; inversion Hsc; subst; cbn in He;
    repeat (match type of He with
            | context [match ?x with _ => _ end] => destruct x eqn:?
            end; try discriminate He);
    inversion He; subst; cbn; try assumption.
  - (* INSERT: the id was free *)
    rewrite lookup_insert_ne; [assumption|]. intros ->. congruence.
  - (* UPDATE of a row of (u, mk) *)
    rewrite lookup_insert_ne; [assumption|]. intros ->.
    rewrite Hrow in *. simplify_eq. rewrite (foreign_eqb _ _ _ Hf) in *. discriminate.
  - (* DELETE of a row of (u, mk) *)
    rewrite lookup_delete_ne; [assumption|]. intros ->.
    rewrite Hrow in *. simplify_eq. rewrite (foreign_eqb _ _ _ Hf) in *. discriminate.
Qed.

Lemma run_frame u mk stmts : forall db db' results id row,
  Forall (fun s => scope s = (u, mk)) stmts ->
  run stmts db = Some (db', results) ->
  entries db !! id = Some row -> foreign u mk row ->
  entries db' !! id = Some row.
Proof.
  induction stmts as [|s rest IH]; intros db db' results id row Hall Hrun Hrow Hf;
    cbn in Hrun.
  - inversion Hrun; subst; assumption.
  - apply Forall_cons in Hall as [Hs Hrest].
    destruct (exec s db) as [[db1 c]|] eqn:He; [|discriminate].
    destruct (run rest db1) as [[db2 cs]|] eqn:Hr; [|discriminate].
    inversion Hrun; subst.
    eapply IH; eauto. eapply exec_frame; eauto.
Qed.

(** ** The shape of a run *)

Section Shape.

Variable clock : Clock.
Variable now : string.
Variable uuid : nat -> string.

Lemma handle_valid db u b rq v :
  validateBody b = inr rq -> editable clock (month_key rq) = true ->
  validateOps uuid (month_key rq) (ops rq) = inr v ->
  handlePostMonthly clock now uuid db u (Some b)
  = if (totalOps v =? 0)%nat then noop_reply db rq
    else save now db u (month_key rq) (expected_version rq) v.
Proof.
  intros Hb He Hv. unfold handlePostMonthly, editable in *.
  rewrite Hb, He, Hv. reflexivity.
Qed.

Lemma handle_readonly db u b rq :
  validateBody b = inr rq -> editable clock (month_key rq) = false ->
  handlePostMonthly clock now uuid db u (Some b) = rejected db 403 "This month is read-only.".
Proof.
  intros Hb He. unfold handlePostMonthly, editable in *. rewrite Hb, He. reflexivity.
Qed.

(** Every run is a rejection with status 400, the read-only rejection, the
    no-op reply, or [save]. *)
Lemma handle_cases db u request :
  (exists message, handlePostMonthly clock now uuid db u request = rejected db 400 message)
  \/ (exists b rq,
         request = Some b /\ validateBody b = inr rq
         /\ editable clock (month_key rq) = false
         /\ handlePostMonthly clock now uuid db u request
            = rejected db 403 "This month is read-only.")
  \/ (exists b rq v,
         request = Some b /\ validateBody b = inr rq
         /\ editable clock (month_key rq) = true
         /\ validateOps uuid (month_key rq) (ops rq) = inr v
         /\ ((totalOps v = 0%nat
              /\ handlePostMonthly clock now uuid db u request = noop_reply db rq)
             \/ (totalOps v <> 0%nat
                 /\ handlePostMonthly clock now uuid db u request
                    = save now db u (month_key rq) (expected_version rq) v))).
Proof.
  destruct request as [b|]; [|left; eexists; reflexivity].
  destruct (validateBody b) as [m|rq] eqn:Hb.
  { left. exists m. unfold handlePostMonthly. now rewrite Hb. }
  destruct (editable clock (month_key rq)) eqn:He.
  2:{ right; left. exists b, rq. repeat (split; [assumption || reflexivity|]).
      exact (handle_readonly _ _ _ _ Hb He). }
  destruct (validateOps uuid (month_key rq) (ops rq)) as [m|v] eqn:Hv.
  { left. exists m. unfold handlePostMonthly, editable in *. now rewrite Hb, He, Hv. }
  right; right. exists b, rq, v. repeat (split; [assumption || reflexivity|]).
  rewrite (handle_valid _ _ _ _ _ Hb He Hv).
  destruct (totalOps v =? 0)%nat eqn:Ht.
  - left. apply Nat.eqb_eq in Ht. now split.
  - right. apply Nat.eqb_neq in Ht. now split.
Qed.

(** [save] rejects an unknown category after its lookup, or runs the batch,
    which throws or returns its results. *)
Lemma save_cases db u mk ev v :
  (exists cid,
      allCategoryIds v <> []
      /\ first_invalid (select_category_ids db u) (allCategoryIds v) = Some cid
      /\ save now db u mk ev v
         = {| outcome := Returned (errorResponse 400 ("Invalid category_id: " ++ cid));
              store := db; accesses := [CategoryLookup u] |})
  \/ (first_invalid (select_category_ids db u) (allCategoryIds v) = None
      /\ ((batch (compile u mk ev now v) db = None
           /\ save now db u mk ev v
              = {| outcome := Thrown; store := db;
                   accesses := lookups_of u v ++ [Batch (compile u mk ev now v) None] |})
          \/ (exists db' results,
                 batch (compile u mk ev now v) db = Some (db', results)
                 /\ save now db u mk ev v
                    = {| outcome :=
                           Returned
                             (if nth 1 results 0 =? 0 then jsonResponse 409 conflict
                              else jsonResponse 200
                                     (OkBody {| sr_month_key := mk;
                                                new_version := number_add ev 1;
                                                applied := counts v |}));
                         store := db';
                         accesses := lookups_of u v
                                     ++ [Batch (compile u mk ev now v) (Some results)] |}))).
Proof.
  unfold save, lookups_of.
  destruct (allCategoryIds v) as [|c cs] eqn:Hids.
  - right. split; [reflexivity|]. cbn [length Nat.ltb Nat.leb].
    destruct (batch _ db) as [[db' results]|]; [right; eauto|left; eauto].
  - cbn [length Nat.ltb Nat.leb].
    destruct (first_invalid _ (c :: cs)) as [cid|] eqn:Hf.
    + left. exists cid. repeat split; congruence.
    + right. split; [reflexivity|].
      destruct (batch _ db) as [[db' results]|]; [right; eauto|left; eauto].
Qed.

End Shape.

(** ** Runs that submit a batch *)

Lemma lookups_of_no_batch u v stmts results : ~ In (Batch stmts results) (lookups_of u v).
Proof.
  unfold lookups_of. destruct (0 <? _)%nat; [intros [?|[]]; discriminate|intros []].
Qed.

(** A run whose accesses hold a batch is a run of [save] on the validated
    request, and the batch is the compiled statement list. *)
Lemma submitted_batch clock now uuid db u request stmts results :
  In (Batch stmts results) (accesses (handlePostMonthly clock now uuid db u request)) ->
  exists b rq v,
    request = Some b /\ validateBody b = inr rq
    /\ editable clock (month_key rq) = true
    /\ validateOps uuid (month_key rq) (ops rq) = inr v
    /\ totalOps v <> 0%nat
    /\ stmts = compile u (month_key rq) (expected_version rq) now v
    /\ ((results = None /\ batch stmts db = None
         /\ handlePostMonthly clock now uuid db u request
            = {| outcome := Thrown; store := db;
                 accesses := lookups_of u v ++ [Batch stmts None] |})
        \/ (exists db' res,
               results = Some res /\ batch stmts db = Some (db', res)
               /\ handlePostMonthly clock now uuid db u request
                  = {| outcome :=
                         Returned
                           (if nth 1 res 0 =? 0 then jsonResponse 409 conflict
                            else jsonResponse 200
                                   (OkBody {| sr_month_key := month_key rq;
                                              new_version := number_add (expected_version rq) 1;
                                              applied := counts v |}));
                       store := db';
                       accesses := lookups_of u v ++ [Batch stmts (Some res)] |})).
Proof.
  intros Hin.
  destruct (handle_cases clock now uuid db u request)
    as [(m & Hr)|[(b & rq & _ & _ & _ & Hr)
                  |(b & rq & v & -> & Hb & He & Hv & [[_ Hr]|[Ht Hr]])]];
    rewrite Hr in Hin; try (destruct Hin).
  exists b, rq, v. do 5 (split; [assumption || reflexivity|]).
  rewrite Hr.
  destruct (save_cases now db u (month_key rq) (expected_version rq) v)
    as [(cid & _ & _ & Hs)|[_ [[Hnone Hs]|(db' & res & Hbatch & Hs)]]];
    rewrite Hs in Hin |- *; cbn [accesses] in Hin.
  - destruct Hin as [?|[]]. discriminate.
  - apply in_app_or in Hin as [Hin|[Hin|[]]]; [now apply lookups_of_no_batch in Hin|].
    injection Hin as <- <-. split; [reflexivity|]. left. now repeat split.
  - apply in_app_or in Hin as [Hin|[Hin|[]]]; [now apply lookups_of_no_batch in Hin|].
    injection Hin as <- <-. split; [reflexivity|]. right. exists db', res. now repeat split.
Qed.

(** ** The optimistic lock *)

Lemma bump_one now u mk ev db db' :
  exec (BumpVersion now u mk ev) db = Some (db', 1) ->
  stored_version db u mk = Some ev /\ stored_version db' u mk = Some (ev + 1).
Proof.
  unfold stored_version. cbn [exec]. intros He.
  destruct (months db !! (u, mk)) as [r|] eqn:Hr; [|discriminate].
  destruct (version r =? ev) eqn:Hv; [|discriminate].
  apply Z.eqb_eq in Hv. inversion He; subst; cbn [months set_months].
  rewrite lookup_insert_eq. now split.
Qed.

Lemma ensure_month u mk now db db' c :
  exec (InsertOrIgnoreMonth u mk now) db = Some (db', c) ->
  (db' = db /\ is_Some (months db !! (u, mk)))
  \/ (months db !! (u, mk) = None /\ stored_version db' u mk = Some 0).
Proof.
  unfold stored_version. cbn [exec]. intros He.
  destruct (months db !! (u, mk)) as [r|] eqn:Hr.
  - inversion He; subst. left. split; [reflexivity|]. eauto.
  - destruct (bool_decide (u ∈ users db)); [|discriminate].
    inversion He; subst; cbn [months set_months]. right.
    rewrite lookup_insert_eq. now split.
Qed.

(** What a batch whose guard changed one row did to the month row. *)
Lemma batch_guard_one u mk ev now v db db' results :
  batch (compile u mk ev now v) db = Some (db', results) ->
  nth 1 results 0 = 1 ->
  stored_version db' u mk = Some (ev + 1)
  /\ (stored_version db u mk = Some ev \/ (stored_version db u mk = None /\ ev = 0)).
Proof.
  unfold batch. rewrite compile_steps. cbn [run]. intros Hrun Hone.
  destruct (exec (InsertOrIgnoreMonth u mk now) db) as [[db1 c0]|] eqn:H0; [|discriminate].
  destruct (exec (BumpVersion now u mk ev) db1) as [[db2 c1]|] eqn:H1; [|discriminate].
  destruct (run (steps u mk now v) db2) as [[db3 cs]|] eqn:H2; [|discriminate].
  inversion Hrun; subst. cbn in Hone. subst c1.
  apply bump_one in H1 as [Hbefore Hafter].
  split.
  - unfold stored_version in *.
    now rewrite (run_off_months _ _ _ _ (steps_off_months u mk now v) H2).
  - apply ensure_month in H0 as [[-> _]|[Hnone Hzero]]; [now left|].
    right. unfold stored_version in *. rewrite Hnone. split; [reflexivity|].
    congruence.
Qed.


(** ** Scope of the compiled statements *)

(** C8. Every statement of the batch, the updates and deletions on
    [entries] among them, carries the requesting user and the request's
    month-key in its WHERE clause, and a save by user [u] against month
    [month_key] leaves every entry row of another user or another month as it
    was, whatever entry ids the request lists. *)
Theorem foreign_entries_untouched clock now uuid db u b rq :
  validateBody b = inr rq ->
  (forall stmts results,
      In (Batch stmts results)
         (accesses (handlePostMonthly clock now uuid db u (Some b))) ->
      Forall (fun s => scope s = (u, month_key rq)) stmts)
  /\ (forall id row,
         entries db !! id = Some row -> foreign u (month_key rq) row ->
         entries (store (handlePostMonthly clock now uuid db u (Some b))) !! id
         = Some row).
Proof.
  intros Hb.
  destruct (handle_cases clock now uuid db u (Some b))
    as [(m & Hr)|[(b' & rq' & _ & _ & _ & Hr)|(b' & rq' & v & Heq & Hb' & He & Hv & Hr)]].
  { rewrite Hr. split; [intros ? ? []|intros; assumption]. }
  { rewrite Hr. split; [intros ? ? []|intros; assumption]. }
  inversion Heq; subst b'. rewrite Hb in Hb'. inversion Hb'; subst rq'.
  destruct Hr as [[_ Hr]|[_ Hr]]; rewrite Hr.
  { split; [intros ? ? []|intros; assumption]. }
  assert (Hlk : forall stmts results, ~ In (Batch stmts results) (lookups_of u v)).
  { intros stmts results. unfold lookups_of.
    destruct (0 <? _)%nat; [intros [?|[]]; discriminate|intros []]. }
  destruct (save_cases now db u (month_key rq) (expected_version rq) v)
    as [(cid & _ & _ & Hs)|[_ [[_ Hs]|(db' & res & Hbatch & Hs)]]];
    rewrite Hs; cbn [accesses outcome store].
  - split; [intros ? ? [?|[]]; discriminate|intros; assumption].
  - split; [|intros; assumption].
    intros stmts results Hin. apply in_app_or in Hin as [Hin|[Hin|[]]].
    + now apply Hlk in Hin.
    + inversion Hin; subst. apply compile_scope.
  - split.
    + intros stmts results Hin. apply in_app_or in Hin as [Hin|[Hin|[]]].
      * now apply Hlk in Hin.
      * inversion Hin; subst. apply compile_scope.
    + intros id row Hrow Hf.
      eapply run_frame; [apply compile_scope|exact Hbatch|exact Hrow|exact Hf].
Qed.

(** ** Version conflicts *)

(** C1. The scenario of a save repeated without re-fetch: the first save of
    [create_request] succeeds with version 1 and one entry; the second, still
    sending [expected_version = 0], gets the 409 conflict response, its guard
    having changed no row, and yet its insert is committed: the table holds
    two entries afterwards. *)
Theorem stale_save_persists :
  outcome first_save
  = Returned (jsonResponse 200 (OkBody {| sr_month_key := "2026-02"; new_version := 1;
                                          applied := {| created_entries := 1;
                                                        updated_entries := 0;
                                                        deleted_entries := 0;
                                                        upserted_daily_budgets := 0;
                                                        deleted_daily_budgets := 0 |} |}))
  /\ size (entries (store first_save)) = 1%nat
  /\ outcome second_save = Returned (jsonResponse 409 conflict)
  /\ (exists stmts rest, accesses second_save
                         = [CategoryLookup "u1"; Batch stmts (Some (0 :: 0 :: rest))])
  /\ stored_version (store second_save) "u1" "2026-02" = Some 1
  /\ size (entries (store second_save)) = 2%nat
  /\ is_Some (entries (store second_save) !! "uuid-1").
Proof.
  repeat split; try (vm_compute; reflexivity).
  - vm_compute. eauto.
  - vm_compute. eauto.
Qed.

(** ** The no-op save *)

(** C3. A request that validates, whose month-key is in the editable window
    and whose five validated lists are all empty, is answered with success,
    [new_version = expected_version] and five zero counts, without any
    storage access. *)
Theorem noop_save_no_access clock now uuid db u b rq v :
  validateBody b = inr rq ->
  editable clock (month_key rq) = true ->
  validateOps uuid (month_key rq) (ops rq) = inr v ->
  totalOps v = 0%nat ->
  handlePostMonthly clock now uuid db u (Some b)
  = {| outcome := Returned {| status := 200;
                              body := OkBody {| sr_month_key := month_key rq;
                                                new_version := expected_version rq;
                                                applied := {| created_entries := 0;
                                                              updated_entries := 0;
                                                              deleted_entries := 0;
                                                              upserted_daily_budgets := 0;
                                                              deleted_daily_budgets := 0 |} |} |};
       store := db;
       accesses := [] |}.
Proof.
  intros Hb He Hv Ht. rewrite (handle_valid _ _ _ _ _ _ _ _ Hb He Hv), Ht. reflexivity.
Qed.

Lemma noop_save_no_access_witness :
  handlePostMonthly sample_clock "2026-02-10 09:00:00" sample_uuid sample_db "u1"
    (Some (request "2026-02" 3 []))
  = {| outcome := Returned {| status := 200;
                              body := OkBody {| sr_month_key := "2026-02";
                                                new_version := 3;
                                                applied := no_counts |} |};
       store := sample_db;
       accesses := [] |}.
Proof.
  apply (noop_save_no_access sample_clock "2026-02-10 09:00:00" sample_uuid sample_db "u1"
           (request "2026-02" 3 [])
           {| month_key := "2026-02"; expected_version := 3; ops := JObj [] |} empty_ops);
    reflexivity.
Defined.

(** C3 needs the range check: [old_noop_request] validates and has no operation,
    but its month is outside the window and the answer is 403, not success. *)
Lemma noop_outside_window_rejected :
  validateBody old_noop_request
  = inr {| month_key := "2025-01"; expected_version := 3; ops := JObj [] |}
  /\ validateOps sample_uuid "2025-01" (JObj []) = inr empty_ops
  /\ totalOps empty_ops = 0%nat
  /\ outcome (handlePostMonthly sample_clock "2026-02-10 09:00:00" sample_uuid sample_db
                "u1" (Some old_noop_request))
     = Returned (errorResponse 403 "This month is read-only.").
Proof. repeat split; vm_compute; reflexivity. Qed.

(** ** Applied counts *)

Lemma no_counts_counts v : totalOps v = 0%nat -> no_counts = counts v.
Proof.
  unfold totalOps, counts, no_counts. intros H.
  destruct (createEntries v), (updateEntries v), (deleteEntryIds v),
    (upsertDailyBudgets v), (deleteDailyBudgetDates v); try discriminate H.
  reflexivity.
Qed.

Lemma success_counts clock now uuid db u b rq v resp :
  validateBody b = inr rq ->
  validateOps uuid (month_key rq) (ops rq) = inr v ->
  body_of (outcome (handlePostMonthly clock now uuid db u (Some b))) = Some (OkBody resp) ->
  applied resp = counts v.
Proof.
  intros Hb Hv Hok.
  destruct (handle_cases clock now uuid db u (Some b))
    as [(m & Hr)|[(b' & rq' & _ & _ & _ & Hr)
                  |(b' & rq' & v' & Heq & Hb' & He & Hv' & Hr)]].
  { rewrite Hr in Hok. discriminate. }
  { rewrite Hr in Hok. discriminate. }
  inversion Heq; subst b'. rewrite Hb in Hb'. inversion Hb'; subst rq'.
  rewrite Hv in Hv'. inversion Hv'; subst v'.
  destruct Hr as [[Ht Hr]|[_ Hr]]; rewrite Hr in Hok.
  { cbn in Hok. inversion Hok; subst; cbn. now apply no_counts_counts. }
  destruct (save_cases now db u (month_key rq) (expected_version rq) v)
    as [(cid & _ & _ & Hs)|[_ [[_ Hs]|(db' & res & Hbatch & Hs)]]];
    rewrite Hs in Hok; cbn in Hok; try discriminate.
  destruct (nth 1 res 0 =? 0); cbn in Hok; [discriminate|].
  inversion Hok; subst; reflexivity.
Qed.



(** ** The category reference check *)

Lemma has_In l x : has l x = true <-> In x l.
Proof.
  unfold has. rewrite existsb_exists. split.
  - intros [y [Hy Heq]]. apply String.eqb_eq in Heq. now subst.
  - intros H. exists x. split; [assumption|apply String.eqb_refl].
Qed.

Lemma set_add_In keys mk x : In x (set_add keys mk) <-> In x keys \/ x = mk.
Proof.
  unfold set_add. destruct (has keys mk) eqn:H.
  - apply has_In in H. split; [now left|]. intros [?| ->]; assumption.
  - rewrite in_app_iff. cbn. intuition (subst; auto).
Qed.

Lemma fold_set_add_In xs : forall acc x,
  In x (fold_left set_add xs acc) <-> In x acc \/ In x xs.
Proof.
  induction xs as [|y ys IH]; intros acc x; cbn.
  - tauto.
  - rewrite IH, set_add_In. split; intros H; intuition (subst; auto).
Qed.

Lemma allCategoryIds_In v x : In x (allCategoryIds v) <-> In x (referenced v).
Proof.
  unfold allCategoryIds, referenced.
  rewrite !fold_set_add_In, map_app, in_app_iff. cbn. tauto.
Qed.

Lemma allCategoryIds_nil v : allCategoryIds v = [] <-> referenced v = [].
Proof.
  split; intros H.
  - destruct (referenced v) as [|x xs] eqn:Hr; [reflexivity|].
    assert (In x (allCategoryIds v)) as Hin by (apply allCategoryIds_In; rewrite Hr; now left).
    rewrite H in Hin. destruct Hin.
  - destruct (allCategoryIds v) as [|x xs] eqn:Hr; [reflexivity|].
    assert (In x (referenced v)) as Hin by (apply allCategoryIds_In; rewrite Hr; now left).
    rewrite H in Hin. destruct Hin.
Qed.

Lemma select_category_ids_In db u cid :
  In cid (select_category_ids db u) <-> owns db u cid.
Proof.
  unfold select_category_ids, owns. rewrite <- list_elem_of_In, list_elem_of_fmap. split.
  - intros [[k r] [Heq Hin]]. cbn in Heq. subst k. apply elem_of_map_to_list in Hin.
    apply map_lookup_filter_Some in Hin as [Hl Hu]. cbn in *. eauto.
  - intros [r [Hl Hu]]. exists (cid, r). split; [reflexivity|].
    apply elem_of_map_to_list, map_lookup_filter_Some. now split.
Qed.

Lemma first_invalid_Some valid ids cid :
  first_invalid valid ids = Some cid -> In cid ids /\ ~ In cid valid.
Proof.
  unfold first_invalid. intros H. apply find_some in H as [Hin Hneg].
  split; [assumption|]. intros Hv. apply has_In in Hv. rewrite Hv in Hneg. discriminate.
Qed.

Lemma first_invalid_None valid ids cid :
  first_invalid valid ids = None -> In cid ids -> In cid valid.
Proof.
  unfold first_invalid. intros H Hin. apply has_In.
  pose proof (find_none _ _ H _ Hin) as Hn. now apply negb_false_iff in Hn.
Qed.

Lemma lookups_before_batch u v stmts results :
  lookups (lookups_of u v ++ [Batch stmts results])
  = if (0 <? length (allCategoryIds v))%nat then 1%nat else 0%nat.
Proof. unfold lookups, lookups_of. destruct (0 <? _)%nat; reflexivity. Qed.

(** C7. For a request that validates and passes the range check: when the
    create and update operations refer to no category, no category lookup is
    issued; otherwise exactly one is issued; and when some referenced id is
    not in the requesting user's category set, the request is rejected with
    status 400 after that single lookup, no batch having been submitted and
    the tables unchanged. *)
Theorem category_check clock now uuid db u b rq v :
  validateBody b = inr rq ->
  editable clock (month_key rq) = true ->
  validateOps uuid (month_key rq) (ops rq) = inr v ->
  (referenced v = [] ->
   lookups (accesses (handlePostMonthly clock now uuid db u (Some b))) = 0%nat)
  /\ (referenced v <> [] ->
      lookups (accesses (handlePostMonthly clock now uuid db u (Some b))) = 1%nat)
  /\ ((exists cid, In cid (referenced v) /\ ~ owns db u cid) ->
      exists cid,
        In cid (referenced v) /\ ~ owns db u cid
        /\ handlePostMonthly clock now uuid db u (Some b)
           = {| outcome := Returned (errorResponse 400 ("Invalid category_id: " ++ cid));
                store := db;
                accesses := [CategoryLookup u] |}).
Proof.
  intros Hb He Hv. rewrite (handle_valid _ _ _ _ _ _ _ _ Hb He Hv).
  destruct (totalOps v =? 0)%nat eqn:Ht.
  { apply Nat.eqb_eq in Ht.
    assert (referenced v = []) as Hnil.
    { unfold referenced, totalOps in *.
      destruct (createEntries v), (updateEntries v); try discriminate Ht; reflexivity. }
    rewrite Hnil. split; [reflexivity|split]; [congruence|].
    intros [cid [[] _]]. }
  destruct (save_cases now db u (month_key rq) (expected_version rq) v)
    as [(cid & Hne & Hf & Hs)|[Hnone [[_ Hs]|(db' & res & _ & Hs)]]];
    rewrite Hs; cbn [accesses outcome store].
  - apply first_invalid_Some in Hf as [Hin Hnot].
    rewrite allCategoryIds_In in Hin. rewrite select_category_ids_In in Hnot.
    split; [|split].
    + intros Hnil. rewrite Hnil in Hin. destruct Hin.
    + reflexivity.
    + intros _. exists cid. split; [assumption|split]; [assumption|reflexivity].
  - rewrite lookups_before_batch. split; [|split].
    + intros Hnil. apply allCategoryIds_nil in Hnil. now rewrite Hnil.
    + intros Hne. destruct (allCategoryIds v) eqn:Hids; [|reflexivity].
      now apply allCategoryIds_nil in Hids.
    + intros [cid [Hin Hnot]]. exfalso. apply Hnot, select_category_ids_In.
      eapply first_invalid_None; [exact Hnone|]. now apply allCategoryIds_In.
  - rewrite lookups_before_batch. split; [|split].
    + intros Hnil. apply allCategoryIds_nil in Hnil. now rewrite Hnil.
    + intros Hne. destruct (allCategoryIds v) eqn:Hids; [|reflexivity].
      now apply allCategoryIds_nil in Hids.
    + intros [cid [Hin Hnot]]. exfalso. apply Hnot, select_category_ids_In.
      eapply first_invalid_None; [exact Hnone|]. now apply allCategoryIds_In.
Qed.

(** ** The editable window *)

Lemma months_back_closed y k (i : nat) :
  0 <= k <= 11 ->
  months_back (y, k + 1) i = (y + (k - Z.of_nat i) / 12, (k - Z.of_nat i) mod 12 + 1).
Proof.
  intros Hk. induction i as [|i IH].
  - change (months_back (y, k + 1) 0) with (y, k + 1).
    f_equal; Z.div_mod_to_equations; lia.
  - change (months_back (y, k + 1) (S i)) with (previous_month (months_back (y, k + 1) i)).
    rewrite IH.
    unfold previous_month. cbn [fst snd].
    destruct (Z.eqb_spec ((k - Z.of_nat i) mod 12 + 1) 1) as [He|He];
      f_equal; Z.div_mod_to_equations; lia.
Qed.

(** Under a clock of a year from 100 on, [new Date(y, m - 1 - i, 1)] is the
    month [i] months back. *)
Lemma Date_ym_back now (i : nat) :
  100 <= fullYear now -> 0 <= monthIndex now <= 11 ->
  month_key_text (Date_ym (fullYear now) (monthIndex now + 1 - 1 - Z.of_nat i))
  = month_key_of (months_back (fullYear now, monthIndex now + 1) i).
Proof.
  intros Hy Hk. rewrite months_back_closed by assumption.
  unfold month_key_text, month_key_of, Date_ym.
  replace ((0 <=? fullYear now) && (fullYear now <=? 99)) with false
    by (symmetry; apply andb_false_iff; right; apply Z.leb_gt; lia).
  cbn [fst snd]. now replace (monthIndex now + 1 - 1 - Z.of_nat i)
                   with (monthIndex now - Z.of_nat i) by lia.
Qed.

Lemma editable_loop_In now n : forall i keys x,
  In x (editable_loop now i n keys)
  <-> In x keys
      \/ exists j, (j < n)%nat
                   /\ x = month_key_text
                            (Date_ym (fullYear now)
                               (monthIndex now + 1 - 1 - (i + Z.of_nat j))).
Proof.
  induction n as [|n IH]; intros i keys x; cbn [editable_loop].
  - split; [now left|]. intros [?|[j [Hj _]]]; [assumption|lia].
  - rewrite IH, set_add_In. split.
    + intros [[Hin|Hx]|[j [Hj Hx]]].
      * now left.
      * right. exists 0%nat. split; [lia|]. now rewrite Z.add_0_r.
      * right. exists (S j). split; [lia|].
        now replace (i + Z.of_nat (S j)) with (i + 1 + Z.of_nat j) by lia.
    + intros [Hin|[[|j] [Hj Hx]]].
      * left. now left.
      * left. right. now rewrite Z.add_0_r in Hx.
      * right. exists j. split; [lia|].
        now replace (i + 1 + Z.of_nat j) with (i + Z.of_nat (S j)) by lia.
Qed.

(** The keys the code collects are the keys of the window. *)
Lemma editable_iff_window now x :
  100 <= fullYear now -> 0 <= monthIndex now <= 11 ->
  editable now x = true <-> In x (editable_window now).
Proof.
  intros Hy Hk. unfold editable, getEditableMonthKeys, editable_window.
  rewrite has_In, editable_loop_In, in_map_iff. split.
  - intros [[]|[j [Hj ->]]]. exists j. rewrite Z.add_0_l, Date_ym_back by assumption.
    split; [reflexivity|]. cbn. lia.
  - intros [j [<- Hj]]. right. exists j. rewrite Z.add_0_l, Date_ym_back by assumption.
    split; [|reflexivity]. cbn in Hj. lia.
Qed.

(** Outside of the read-only rejection no response has status 403. *)
Lemma status_403 clock now uuid db u request r :
  outcome (handlePostMonthly clock now uuid db u request) = Returned r ->
  status r = 403 ->
  exists b rq, request = Some b /\ validateBody b = inr rq
               /\ editable clock (month_key rq) = false.
Proof.
  intros Hout Hst.
  destruct (handle_cases clock now uuid db u request)
    as [(m & Hr)|[(b & rq & Heq & Hb & He & _)
                  |(b & rq & v & _ & _ & _ & _ & [[_ Hr]|[_ Hr]])]].
  - rewrite Hr in Hout. inversion Hout; subst. discriminate.
  - eauto.
  - rewrite Hr in Hout. inversion Hout; subst. discriminate.
  - destruct (save_cases now db u (month_key rq) (expected_version rq) v)
      as [(cid & _ & _ & Hs)|[_ [[_ Hs]|(db' & res & _ & Hs)]]];
      rewrite Hr, Hs in Hout; cbn in Hout; try discriminate.
    + inversion Hout; subst. discriminate.
    + inversion Hout; subst. destruct (nth 1 res 0 =? 0); discriminate.
Qed.

(** C5. With the clock in a year from 100 on, a request whose body validates
    is rejected with the read-only failure, status 403 and no storage access,
    exactly when its month-key is not one of the six keys of the editable
    window (the current month and the five before it), the keys compared as
    strings; a body that fails validation is rejected with status 400
    instead. *)
Theorem read_only_iff_outside_window clock now uuid db u b rq :
  100 <= fullYear clock -> 0 <= monthIndex clock <= 11 ->
  validateBody b = inr rq ->
  (~ In (month_key rq) (editable_window clock) ->
   handlePostMonthly clock now uuid db u (Some b)
   = {| outcome := Returned {| status := 403;
                               body := ErrorBody "This month is read-only." |};
        store := db; accesses := [] |})
  /\ (In (month_key rq) (editable_window clock) ->
      forall r, outcome (handlePostMonthly clock now uuid db u (Some b)) = Returned r ->
                status r <> 403)
  /\ (forall b' message,
         validateBody b' = inl message ->
         handlePostMonthly clock now uuid db u (Some b')
         = {| outcome := Returned {| status := 400; body := ErrorBody message |};
              store := db; accesses := [] |}).
Proof.
  intros Hy Hk Hb. split; [|split].
  - intros Hout. apply (handle_readonly clock now uuid db u b rq Hb).
    destruct (editable clock (month_key rq)) eqn:He; [|reflexivity].
    exfalso. apply Hout. now apply editable_iff_window.
  - intros Hin r Hr Hst.
    destruct (status_403 _ _ _ _ _ _ _ Hr Hst) as (b' & rq' & Heq & Hb' & He).
    inversion Heq; subst b'. rewrite Hb in Hb'. inversion Hb'; subst rq'.
    apply editable_iff_window in Hin; [|assumption..]. congruence.
  - intros b' message Hb'. unfold handlePostMonthly. now rewrite Hb'.
Qed.

Lemma read_only_iff_outside_window_witness :
  (~ In "2025-01" (editable_window sample_clock) ->
   handlePostMonthly sample_clock "2026-02-10 09:00:00" sample_uuid sample_db "u1"
     (Some old_noop_request)
   = {| outcome := Returned {| status := 403;
                               body := ErrorBody "This month is read-only." |};
        store := sample_db; accesses := [] |})
  /\ (In "2025-01" (editable_window sample_clock) ->
      forall r, outcome (handlePostMonthly sample_clock "2026-02-10 09:00:00" sample_uuid
                           sample_db "u1" (Some old_noop_request)) = Returned r ->
                status r <> 403)
  /\ (forall b' message,
         validateBody b' = inl message ->
         handlePostMonthly sample_clock "2026-02-10 09:00:00" sample_uuid sample_db "u1"
           (Some b')
         = {| outcome := Returned {| status := 400; body := ErrorBody message |};
              store := sample_db; accesses := [] |}).
Proof.
  apply (read_only_iff_outside_window sample_clock "2026-02-10 09:00:00" sample_uuid
           sample_db "u1" old_noop_request
           {| month_key := "2025-01"; expected_version := 3; ops := JObj [] |}).
  - cbn. lia.
  - cbn. lia.
  - reflexivity.
Defined.

Example sample_window :
  editable_window sample_clock
  = ["2026-02"; "2026-01"; "2025-12"; "2025-11"; "2025-10"; "2025-09"]
  /\ getEditableMonthKeys sample_clock = editable_window sample_clock.
Proof. split; vm_compute; reflexivity. Qed.

(** ** Dates *)

Lemma validateBody_inr b rq :
  validateBody b = inr rq -> MONTH_KEY_RE (month_key rq) = true /\ 0 <= expected_version rq.
Proof.
  unfold validateBody. intros H.
  destruct (not_object (Some b)); [discriminate|].
  destruct (string_where MONTH_KEY_RE (prop b "month_key")) eqn:Hm; [|discriminate].
  destruct (integer_where (fun v => 0 <=? v) (prop b "expected_version")) eqn:Hv;
    [|discriminate].
  destruct (not_object (prop b "ops")); [discriminate|].
  cbn in H. inversion H; subst; cbn.
  destruct (prop b "month_key") as [[]|]; try discriminate Hm.
  destruct (prop b "expected_version") as [[]|]; try discriminate Hv.
  cbn in *. split; [assumption|]. now apply Z.leb_le.
Qed.

Lemma date_shape mk d :
  MONTH_KEY_RE mk = true -> DATE_RE d = true -> dateMatchesMonthKey d mk = true ->
  dated mk d /\ substring 0 7 d = mk.
Proof.
  unfold MONTH_KEY_RE, DATE_RE, dateMatchesMonthKey, dated.
  destruct mk as [|a1 [|a2 [|a3 [|a4 [|a5 [|a6 [|a7 [|a8 mk]]]]]]]];
    cbv [list_ascii_of_string]; try discriminate.
  intros _.
  destruct d as [|b1 [|b2 [|b3 [|b4 [|b5 [|b6 [|b7 [|b8 [|b9 [|b10 [|b11 d]]]]]]]]]]];
    cbv [list_ascii_of_string String.append String.prefix substring]; try discriminate.
  intros Hd Hp.
  repeat match type of Hp with
         | context [ascii_dec ?a ?b] => destruct (ascii_dec a b); [subst|discriminate]
         end.
  split; [|reflexivity].
  exists b9, b10. split; [reflexivity|].
  repeat (apply andb_prop in Hd as [Hd ?]). assumption.
Qed.

Lemma string_where_true p v :
  string_where p v = true -> exists s, v = Some (JStr s) /\ p s = true.
Proof. destruct v as [[]|]; cbn; try discriminate. eauto. Qed.

Lemma integer_where_true p v :
  integer_where p v = true -> exists z, v = Some (JInt z) /\ p z = true.
Proof. destruct v as [[]|]; cbn; try discriminate. eauto. Qed.

(** What an accepted create element has passed. *)
Lemma validateCreateEntry_inr e mk c :
  validateCreateEntry e mk = inr c ->
  not_object (Some e) = false
  /\ provided (prop e "entry_id") && negb (string_where (fun _ => true) (prop e "entry_id"))
     = false
  /\ string_where DATE_RE (prop e "date") = true
  /\ dateMatchesMonthKey (the_string (prop e "date")) mk = true
  /\ string_where (has VALID_TYPES) (prop e "type") = true
  /\ integer_where (fun a => 0 <? a) (prop e "amount") = true
  /\ string_where nonempty (prop e "category_id") = true
  /\ provided (prop e "payment_method")
     && negb (string_where (has VALID_PAYMENT_METHODS) (prop e "payment_method")) = false
  /\ c = {| ce_entry_id := string_or Some None (prop e "entry_id");
            ce_date := the_string (prop e "date");
            ce_type := the_string (prop e "type");
            ce_amount := the_integer (prop e "amount");
            ce_category_id := the_string (prop e "category_id");
            ce_memo := string_or Some None (prop e "memo");
            ce_payment_method := string_or Some None (prop e "payment_method") |}.
Proof.
  unfold validateCreateEntry. intros H.
  repeat match type of H with
         | (if ?c then _ else _) = _ => destruct c eqn:?; [discriminate|]
         end.
  inversion H; subst.
  repeat match goal with
         | E : negb _ = false |- _ => apply negb_false_iff in E
         end.
  repeat split; assumption.
Qed.

Lemma validateCreateEntry_dated e mk c :
  MONTH_KEY_RE mk = true -> validateCreateEntry e mk = inr c -> dated mk (ce_date c).
Proof.
  intros Hmk H. apply validateCreateEntry_inr in H as (_ & _ & Hd & Hm & _ & _ & _ & _ & ->).
  cbn [ce_date]. apply string_where_true in Hd as (d & Hp & Hd). rewrite Hp in *.
  cbn in *. now apply date_shape.
Qed.

Lemma validateUpdateEntry_inr e mk c :
  validateUpdateEntry e mk = inr c ->
  string_where nonempty (prop e "entry_id") = true
  /\ exists base, validateCreateEntry e mk = inr base
                  /\ c = with_entry_id base (the_string (prop e "entry_id")).
Proof.
  unfold validateUpdateEntry. intros H.
  destruct (not_object (Some e)); [discriminate|].
  destruct (negb (string_where nonempty (prop e "entry_id"))) eqn:Hid; [discriminate|].
  apply negb_false_iff in Hid.
  destruct (validateCreateEntry e mk) as [m|base]; [discriminate|].
  inversion H; subst. eauto.
Qed.

Lemma validateUpsertDailyBudget_dated d mk c :
  MONTH_KEY_RE mk = true -> validateUpsertDailyBudget d mk = inr c -> dated mk (udb_date c).
Proof.
  unfold validateUpsertDailyBudget. intros Hmk H.
  destruct (not_object (Some d)); [discriminate|].
  destruct (negb (string_where DATE_RE (prop d "date"))) eqn:Hd; [discriminate|].
  destruct (negb (dateMatchesMonthKey (the_string (prop d "date")) mk)) eqn:Hm;
    [discriminate|].
  destruct (negb (integer_where (fun v => 0 <=? v) (prop d "daily_budget_override")));
    [discriminate|].
  inversion H; subst. cbn [udb_date].
  apply negb_false_iff in Hd, Hm. apply string_where_true in Hd as (s & Hp & Hd).
  rewrite Hp in *. cbn in *. now apply date_shape.
Qed.

Section LoopFacts.

Variable uuid : nat -> string.
Variable mk : string.

(** An accepted list has one validated element per element of the array. *)
Lemma create_loop_inr es : forall k cs,
  create_loop uuid mk es k = inr cs ->
  Forall2 (fun e c => exists base id,
               validateCreateEntry e mk = inr base /\ c = with_entry_id base id) es cs.
Proof.
  induction es as [|e es IH]; intros k cs H; cbn in H.
  - inversion H. constructor.
  - destruct (validateCreateEntry e mk) as [m|base] eqn:He; [discriminate|].
    destruct (assign_entry_id uuid base k) as [id k'].
    destruct (create_loop uuid mk es k') as [m|rest] eqn:Hr; [discriminate|].
    inversion H; subst. constructor; eauto.
Qed.

Lemma update_loop_inr es : forall cs,
  update_loop mk es = inr cs ->
  Forall2 (fun e c => validateUpdateEntry e mk = inr c) es cs.
Proof.
  induction es as [|e es IH]; intros cs H; cbn in H.
  - inversion H. constructor.
  - destruct (validateUpdateEntry e mk) as [m|c] eqn:He; [discriminate|].
    destruct (update_loop mk es) as [m|rest] eqn:Hr; [discriminate|].
    inversion H; subst. constructor; eauto.
Qed.

Lemma upsert_loop_inr ds : forall cs,
  upsert_loop mk ds = inr cs ->
  Forall2 (fun d c => validateUpsertDailyBudget d mk = inr c) ds cs.
Proof.
  induction ds as [|d ds IH]; intros cs H; cbn in H.
  - inversion H. constructor.
  - destruct (validateUpsertDailyBudget d mk) as [m|c] eqn:He; [discriminate|].
    destruct (upsert_loop mk ds) as [m|rest] eqn:Hr; [discriminate|].
    inversion H; subst. constructor; eauto.
Qed.

Lemma delete_dates_loop_inr ds : forall cs,
  delete_dates_loop mk ds = inr cs ->
  Forall2 (fun d c => d = JStr c /\ DATE_RE c = true /\ dateMatchesMonthKey c mk = true)
    ds cs.
Proof.
  induction ds as [|d ds IH]; intros cs H; cbn [delete_dates_loop] in H.
  - inversion H. constructor.
  - destruct (negb (string_where DATE_RE (Some d))) eqn:Hd; [discriminate|].
    destruct (negb (dateMatchesMonthKey (the_string (Some d)) mk)) eqn:Hm; [discriminate|].
    destruct (delete_dates_loop mk ds) as [m|rest] eqn:Hr; [discriminate|].
    apply negb_false_iff in Hd, Hm. apply string_where_true in Hd as (s & Hp & Hd).
    injection Hp as ->. inversion H; subst. constructor; eauto.
Qed.

Lemma delete_ids_loop_inr ids : forall cs,
  delete_ids_loop ids = inr cs ->
  Forall2 (fun i c => i = JStr c /\ c <> "") ids cs.
Proof.
  induction ids as [|i ids IH]; intros cs H; cbn [delete_ids_loop] in H.
  - inversion H. constructor.
  - destruct (negb (string_where nonempty (Some i))) eqn:Hi; [discriminate|].
    destruct (delete_ids_loop ids) as [m|rest] eqn:Hr; [discriminate|].
    apply negb_false_iff in Hi. apply string_where_true in Hi as (s & Hp & Hs).
    injection Hp as ->. inversion H; subst. constructor; [|eauto].
    split; [reflexivity|]. unfold nonempty in Hs. apply negb_true_iff in Hs.
    now apply String.eqb_neq in Hs.
Qed.

(** An operation list is empty when its property is falsy, and otherwise
    the result of its loop over an array. *)
Lemma op_list_inr {A} v name (loop : list JSON -> string + list A) l :
  op_list v name loop = inr l ->
  (falsy v = true /\ l = []) \/ (exists es, v = Some (JArr es) /\ loop es = inr l).
Proof.
  unfold op_list. destruct (falsy v) eqn:Hf.
  - intros H. inversion H. now left.
  - destruct v as [[]|]; try discriminate. intros H. right. eauto.
Qed.

End LoopFacts.

Lemma validateOps_inr uuid mk o v :
  validateOps uuid mk o = inr v ->
  op_list (prop o "create_entries") "create_entries" (fun l => create_loop uuid mk l 0)
  = inr (createEntries v)
  /\ op_list (prop o "update_entries") "update_entries" (update_loop mk)
     = inr (updateEntries v)
  /\ op_list (prop o "delete_entry_ids") "delete_entry_ids" delete_ids_loop
     = inr (deleteEntryIds v)
  /\ op_list (prop o "upsert_daily_budgets") "upsert_daily_budgets" (upsert_loop mk)
     = inr (upsertDailyBudgets v)
  /\ op_list (prop o "delete_daily_budget_dates") "delete_daily_budget_dates"
       (delete_dates_loop mk)
     = inr (deleteDailyBudgetDates v).
Proof.
  unfold validateOps. intros H.
  repeat match type of H with
         | match ?x with _ => _ end = _ => destruct x; [discriminate|]
         end.
  inversion H; subst; cbn. repeat split; reflexivity.
Qed.

Lemma Forall2_map_r {A B C} (P : A -> B -> Prop) (Q : C -> Prop) (f : B -> C) l1 l2 :
  Forall2 P l1 l2 -> (forall a b, P a b -> Q (f b)) -> Forall Q (map f l2).
Proof. intros H HPQ. induction H; cbn; constructor; eauto. Qed.

Lemma validateOps_dated uuid mk o v :
  MONTH_KEY_RE mk = true -> validateOps uuid mk o = inr v -> Forall (dated mk) (dates_of v).
Proof.
  intros Hmk Hv. apply validateOps_inr in Hv as (Hc & Hu & _ & Hp & Hd).
  unfold dates_of. repeat (apply Forall_app; split).
  - apply op_list_inr in Hc as [[_ ->]|(es & _ & Hc)]; [constructor|].
    apply create_loop_inr in Hc. eapply Forall2_map_r; [exact Hc|].
    intros e c (base & id & Hbase & ->). cbn. eapply validateCreateEntry_dated; eauto.
  - apply op_list_inr in Hu as [[_ ->]|(es & _ & Hu)]; [constructor|].
    apply update_loop_inr in Hu. eapply Forall2_map_r; [exact Hu|].
    intros e c Hec. apply validateUpdateEntry_inr in Hec as (_ & base & Hbase & ->).
    cbn. eapply validateCreateEntry_dated; eauto.
  - apply op_list_inr in Hp as [[_ ->]|(es & _ & Hp)]; [constructor|].
    apply upsert_loop_inr in Hp. eapply Forall2_map_r; [exact Hp|].
    intros d c Hdc. exact (validateUpsertDailyBudget_dated d mk c Hmk Hdc).
  - apply op_list_inr in Hd as [[_ ->]|(es & _ & Hd)]; [constructor|].
    apply delete_dates_loop_inr in Hd. rewrite <- (map_id (deleteDailyBudgetDates v)).
    eapply Forall2_map_r; [exact Hd|].
    intros d c (_ & Hre & Hm). now apply date_shape.
Qed.

(** ** Validated lists and the request's arrays *)

Lemma op_list_elements {A} o name label (loop : list JSON -> string + list A) l :
  op_list (prop o name) label loop = inr l ->
  (elements o name = [] /\ l = []) \/ loop (elements o name) = inr l.
Proof.
  intros H. unfold elements. apply op_list_inr in H as [[Hf ->]|(es & -> & H)].
  - left. split; [|reflexivity]. destruct (prop o name) as [[]|]; try reflexivity.
    discriminate.
  - now right.
Qed.

(** Each validated list has one element per element of its array. *)
Lemma validateOps_listed uuid mk o v :
  validateOps uuid mk o = inr v ->
  length (createEntries v) = listed o "create_entries"
  /\ length (updateEntries v) = listed o "update_entries"
  /\ length (deleteEntryIds v) = listed o "delete_entry_ids"
  /\ length (upsertDailyBudgets v) = listed o "upsert_daily_budgets"
  /\ length (deleteDailyBudgetDates v) = listed o "delete_daily_budget_dates".
Proof.
  intros Hv. apply validateOps_inr in Hv as (Hc & Hu & Hi & Hp & Hd). unfold listed.
  split; [|split; [|split; [|split]]].
  - apply op_list_elements in Hc as [[-> ->]|Hc]; [reflexivity|].
    apply create_loop_inr in Hc. symmetry. exact (Forall2_length _ _ _ Hc).
  - apply op_list_elements in Hu as [[-> ->]|Hu]; [reflexivity|].
    apply update_loop_inr in Hu. symmetry. exact (Forall2_length _ _ _ Hu).
  - apply op_list_elements in Hi as [[-> ->]|Hi]; [reflexivity|].
    apply delete_ids_loop_inr in Hi. symmetry. exact (Forall2_length _ _ _ Hi).
  - apply op_list_elements in Hp as [[-> ->]|Hp]; [reflexivity|].
    apply upsert_loop_inr in Hp. symmetry. exact (Forall2_length _ _ _ Hp).
  - apply op_list_elements in Hd as [[-> ->]|Hd]; [reflexivity|].
    apply delete_dates_loop_inr in Hd. symmetry. exact (Forall2_length _ _ _ Hd).
Qed.

Lemma counts_listed uuid mk o v :
  validateOps uuid mk o = inr v ->
  counts v
  = {| created_entries := listed o "create_entries";
       updated_entries := listed o "update_entries";
       deleted_entries := listed o "delete_entry_ids";
       upserted_daily_budgets := listed o "upsert_daily_budgets";
       deleted_daily_budgets := listed o "delete_daily_budget_dates" |}.
Proof.
  intros Hv. destruct (validateOps_listed _ _ _ _ Hv) as (<- & <- & <- & <- & <-).
  reflexivity.
Qed.

(** ** The reported version *)

Lemma number_add_one ev :
  0 <= ev -> ev < MAX_EXACT -> number_add ev 1 = ev + 1.
Proof.
  unfold number_add, double_of, MAX_EXACT. intros H0 Hlt.
  replace (Z.abs (ev + 1) <=? 2 ^ 53) with true; [reflexivity|].
  symmetry. apply Z.leb_le. change (2 ^ 53) with 9007199254740992. lia.
Qed.

(** C2. When the guard statement of a save request changes exactly one row,
    the handler answers 200 with the sum [expected_version + 1] as
    [new_version], which is the integer [expected_version + 1] when
    [expected_version] is below 2^53, and with the five applied counts, each
    the number of elements that the request lists; and the stored version of
    the month row, which was [expected_version] (or the row was absent and
    [expected_version] is 0), is now [expected_version + 1]. *)
Theorem guard_one_row_success clock now uuid db u request stmts results :
  In (Batch stmts (Some results))
     (accesses (handlePostMonthly clock now uuid db u request)) ->
  nth 1 results 0 = 1 ->
  exists b rq v,
    request = Some b /\ validateBody b = inr rq
    /\ validateOps uuid (month_key rq) (ops rq) = inr v
    /\ stmts = compile u (month_key rq) (expected_version rq) now v
    /\ outcome (handlePostMonthly clock now uuid db u request)
       = Returned
           {| status := 200;
              body := OkBody
                        {| sr_month_key := month_key rq;
                           new_version := number_add (expected_version rq) 1;
                           applied :=
                             {| created_entries := listed (ops rq) "create_entries";
                                updated_entries := listed (ops rq) "update_entries";
                                deleted_entries := listed (ops rq) "delete_entry_ids";
                                upserted_daily_budgets :=
                                  listed (ops rq) "upsert_daily_budgets";
                                deleted_daily_budgets :=
                                  listed (ops rq) "delete_daily_budget_dates" |} |} |}
    /\ (expected_version rq < MAX_EXACT ->
        number_add (expected_version rq) 1 = expected_version rq + 1)
    /\ stored_version (store (handlePostMonthly clock now uuid db u request))
         u (month_key rq) = Some (expected_version rq + 1)
    /\ (stored_version db u (month_key rq) = Some (expected_version rq)
        \/ (stored_version db u (month_key rq) = None /\ expected_version rq = 0)).
Proof.
  intros Hin Hone.
  destruct (handle_cases clock now uuid db u request)
    as [(m & Hr)|[(b & rq & _ & _ & _ & Hr)
                  |(b & rq & v & -> & Hb & He & Hv & [[_ Hr]|[_ Hr]])]];
    rewrite Hr in *; try (cbn in Hin; contradiction).
  exists b, rq, v. do 3 (split; [assumption || reflexivity|]).
  destruct (save_cases now db u (month_key rq) (expected_version rq) v)
    as [(cid & _ & _ & Hs)|[_ [[_ Hs]|(db' & res & Hbatch & Hs)]]];
    rewrite Hs in *; cbn [accesses outcome store] in *.
  - destruct Hin as [Hin|[]]. discriminate.
  - apply in_app_or in Hin as [Hin|[Hin|[]]]; [|discriminate].
    unfold lookups_of in Hin. destruct (0 <? _)%nat; [destruct Hin as [?|[]]|destruct Hin].
    discriminate.
  - assert (stmts = compile u (month_key rq) (expected_version rq) now v /\ results = res)
      as [-> ->].
    { apply in_app_or in Hin as [Hin|[Hin|[]]]; [|now inversion Hin].
      unfold lookups_of in Hin.
      destruct (0 <? _)%nat; [destruct Hin as [?|[]]|destruct Hin]. discriminate. }
    split; [reflexivity|]. rewrite Hone. cbn [Z.eqb Pos.eqb].
    rewrite (counts_listed _ _ _ _ Hv).
    split; [reflexivity|].
    split; [apply number_add_one; now apply validateBody_inr in Hb|].
    eapply batch_guard_one; eauto.
Qed.

Lemma guard_one_row_success_witness :
  exists b rq v,
    Some create_request = Some b /\ validateBody b = inr rq
    /\ validateOps sample_uuid (month_key rq) (ops rq) = inr v
    /\ [InsertOrIgnoreMonth "u1" "2026-02" "2026-02-10 09:00:00";
        BumpVersion "2026-02-10 09:00:00" "u1" "2026-02" 0;
        InsertEntry "uuid-0" "u1" "2026-02" "2026-02-05" "expense" 500 "cat-001" None None
          "2026-02-10 09:00:00" "2026-02-10 09:00:00"]
       = compile "u1" (month_key rq) (expected_version rq) "2026-02-10 09:00:00" v
    /\ outcome first_save
       = Returned
           {| status := 200;
              body := OkBody
                        {| sr_month_key := month_key rq;
                           new_version := number_add (expected_version rq) 1;
                           applied :=
                             {| created_entries := listed (ops rq) "create_entries";
                                updated_entries := listed (ops rq) "update_entries";
                                deleted_entries := listed (ops rq) "delete_entry_ids";
                                upserted_daily_budgets :=
                                  listed (ops rq) "upsert_daily_budgets";
                                deleted_daily_budgets :=
                                  listed (ops rq) "delete_daily_budget_dates" |} |} |}
    /\ (expected_version rq < MAX_EXACT ->
        number_add (expected_version rq) 1 = expected_version rq + 1)
    /\ stored_version (store first_save) "u1" (month_key rq) = Some (expected_version rq + 1)
    /\ (stored_version sample_db "u1" (month_key rq) = Some (expected_version rq)
        \/ (stored_version sample_db "u1" (month_key rq) = None /\ expected_version rq = 0)).
Proof.
  apply (guard_one_row_success sample_clock "2026-02-10 09:00:00" sample_uuid sample_db "u1"
           (Some create_request) _ [1; 1; 1]).
  - vm_compute. right. left. reflexivity.
  - reflexivity.
Defined.

(** C2 needs the bound on [expected_version]: on a month row at version
    2^53 the save that sends [expected_version] 2^53 passes the guard, which
    changes one row and stores 2^53 + 1, and the response reports
    [new_version] 2^53, the double nearest to the sum. *)
Lemma worn_version_repeated :
  validateBody worn_request
  = inr {| month_key := "2026-02"; expected_version := MAX_EXACT;
           ops := JObj [("delete_entry_ids", JArr [JStr "no-such-entry"])] |}
  /\ stored_version worn_db "u1" "2026-02" = Some MAX_EXACT
  /\ accesses (handlePostMonthly sample_clock "2026-02-10 09:00:00" sample_uuid worn_db
                 "u1" (Some worn_request))
     = [Batch [InsertOrIgnoreMonth "u1" "2026-02" "2026-02-10 09:00:00";
               BumpVersion "2026-02-10 09:00:00" "u1" "2026-02" MAX_EXACT;
               DeleteEntry "no-such-entry" "u1" "2026-02"]
          (Some [0; 1; 0])]
  /\ body_of (outcome (handlePostMonthly sample_clock "2026-02-10 09:00:00" sample_uuid
                         worn_db "u1" (Some worn_request)))
     = Some (OkBody {| sr_month_key := "2026-02"; new_version := MAX_EXACT;
                       applied := {| created_entries := 0; updated_entries := 0;
                                     deleted_entries := 1; upserted_daily_budgets := 0;
                                     deleted_daily_budgets := 0 |} |})
  /\ stored_version (store (handlePostMonthly sample_clock "2026-02-10 09:00:00"
                              sample_uuid worn_db "u1" (Some worn_request)))
       "u1" "2026-02"
     = Some (MAX_EXACT + 1)
  /\ MAX_EXACT + 1 <> MAX_EXACT.
Proof. repeat split; try (vm_compute; reflexivity). discriminate. Qed.

(** ** Submitted and validated dates *)

Lemma date_prefix mk d :
  DATE_RE d = true -> substring 0 7 d = mk -> dateMatchesMonthKey d mk = true.
Proof.
  unfold DATE_RE, dateMatchesMonthKey.
  destruct d as [|b1 [|b2 [|b3 [|b4 [|b5 [|b6 [|b7 [|b8 [|b9 [|b10 [|b11 d]]]]]]]]]]];
    cbv [list_ascii_of_string substring]; try discriminate.
  intros Hd <-.
  assert (b8 = "-"%char) as ->.
  { repeat (apply andb_prop in Hd as [Hd ?]).
    match goal with H : chr b8 _ = true |- _ => now apply Ascii.eqb_eq in H end. }
  cbv [String.append String.prefix].
  repeat match goal with
         | |- context [ascii_dec ?a ?a] => destruct (ascii_dec a a); [|congruence]
         end.
  reflexivity.
Qed.

Lemma in_month_iff mk d :
  MONTH_KEY_RE mk = true ->
  in_month mk d = true
  <-> exists s, d = Some (JStr s) /\ DATE_RE s = true /\ dateMatchesMonthKey s mk = true.
Proof.
  intros Hmk. unfold in_month. split.
  - intros H. apply string_where_true in H as (s & -> & H).
    apply andb_prop in H as [Hd Hs]. apply String.eqb_eq in Hs.
    exists s. split; [reflexivity|split]; [assumption|now apply date_prefix].
  - intros (s & -> & Hd & Hm). cbn. rewrite Hd.
    destruct (date_shape mk s Hmk Hd Hm) as [_ ->]. now rewrite String.eqb_refl.
Qed.

Lemma validateCreateEntry_date e mk c :
  validateCreateEntry e mk = inr c ->
  prop e "date" = Some (JStr (ce_date c))
  /\ DATE_RE (ce_date c) = true /\ dateMatchesMonthKey (ce_date c) mk = true.
Proof.
  intros H. apply validateCreateEntry_inr in H as (_ & _ & Hd & Hm & _ & _ & _ & _ & ->).
  cbn [ce_date]. apply string_where_true in Hd as (d & Hp & Hd). rewrite Hp in *.
  cbn in *. now repeat split.
Qed.

Lemma validateUpsertDailyBudget_date d mk c :
  validateUpsertDailyBudget d mk = inr c ->
  prop d "date" = Some (JStr (udb_date c))
  /\ DATE_RE (udb_date c) = true /\ dateMatchesMonthKey (udb_date c) mk = true.
Proof.
  unfold validateUpsertDailyBudget. intros H.
  destruct (not_object (Some d)); [discriminate|].
  destruct (negb (string_where DATE_RE (prop d "date"))) eqn:Hd; [discriminate|].
  destruct (negb (dateMatchesMonthKey (the_string (prop d "date")) mk)) eqn:Hm;
    [discriminate|].
  destruct (negb (integer_where (fun v => 0 <=? v) (prop d "daily_budget_override")));
    [discriminate|].
  inversion H; subst. cbn [udb_date].
  apply negb_false_iff in Hd, Hm. apply string_where_true in Hd as (s & Hp & Hd).
  rewrite Hp in *. cbn in *. now repeat split.
Qed.

Lemma Forall2_map_eq {A B C} (P : A -> B -> Prop) (f : A -> C) (g : B -> C) l1 l2 :
  Forall2 P l1 l2 -> (forall a b, P a b -> f a = g b) -> map f l1 = map g l2.
Proof. intros H Hfg. induction H; cbn; [reflexivity|]. f_equal; eauto. Qed.

(** The validated dates are the submitted ones, element by element, and
    each has passed both date checks. *)
Lemma validateOps_submitted uuid mk o v :
  validateOps uuid mk o = inr v ->
  map (fun s => Some (JStr s)) (dates_of v) = submitted_dates o
  /\ Forall (fun s => DATE_RE s = true /\ dateMatchesMonthKey s mk = true) (dates_of v).
Proof.
  intros Hv. apply validateOps_inr in Hv as (Hc & Hu & _ & Hp & Hd).
  unfold dates_of, submitted_dates. rewrite !map_app, !map_map.
  assert (Hcs : map (fun c => Some (JStr (ue_date c))) (createEntries v)
                = map (fun e => prop e "date") (elements o "create_entries")
                /\ Forall (fun s => DATE_RE s = true /\ dateMatchesMonthKey s mk = true)
                     (map ue_date (createEntries v))).
  { apply op_list_elements in Hc as [[-> ->]|Hc]; [split; [reflexivity|constructor]|].
    apply create_loop_inr in Hc. split.
    - symmetry. eapply Forall2_map_eq; [exact Hc|].
      intros e c (base & id & Hbase & ->). cbn.
      now apply validateCreateEntry_date in Hbase as (-> & _).
    - eapply Forall2_map_r; [exact Hc|].
      intros e c (base & id & Hbase & ->). cbn.
      now apply validateCreateEntry_date in Hbase as (_ & ? & ?). }
  assert (Hus : map (fun c => Some (JStr (ue_date c))) (updateEntries v)
                = map (fun e => prop e "date") (elements o "update_entries")
                /\ Forall (fun s => DATE_RE s = true /\ dateMatchesMonthKey s mk = true)
                     (map ue_date (updateEntries v))).
  { apply op_list_elements in Hu as [[-> ->]|Hu]; [split; [reflexivity|constructor]|].
    apply update_loop_inr in Hu. split.
    - symmetry. eapply Forall2_map_eq; [exact Hu|].
      intros e c Hec. apply validateUpdateEntry_inr in Hec as (_ & base & Hbase & ->). cbn.
      now apply validateCreateEntry_date in Hbase as (-> & _).
    - eapply Forall2_map_r; [exact Hu|].
      intros e c Hec. apply validateUpdateEntry_inr in Hec as (_ & base & Hbase & ->). cbn.
      now apply validateCreateEntry_date in Hbase as (_ & ? & ?). }
  assert (Hps : map (fun c => Some (JStr (udb_date c))) (upsertDailyBudgets v)
                = map (fun e => prop e "date") (elements o "upsert_daily_budgets")
                /\ Forall (fun s => DATE_RE s = true /\ dateMatchesMonthKey s mk = true)
                     (map udb_date (upsertDailyBudgets v))).
  { apply op_list_elements in Hp as [[-> ->]|Hp]; [split; [reflexivity|constructor]|].
    apply upsert_loop_inr in Hp. split.
    - symmetry. eapply Forall2_map_eq; [exact Hp|].
      intros e c Hec. now apply validateUpsertDailyBudget_date in Hec as (-> & _).
    - eapply Forall2_map_r; [exact Hp|].
      intros e c Hec. now apply validateUpsertDailyBudget_date in Hec as (_ & ? & ?). }
  assert (Hds : map (fun s => Some (JStr s)) (deleteDailyBudgetDates v)
                = map Some (elements o "delete_daily_budget_dates")
                /\ Forall (fun s => DATE_RE s = true /\ dateMatchesMonthKey s mk = true)
                     (deleteDailyBudgetDates v)).
  { apply op_list_elements in Hd as [[-> ->]|Hd]; [split; [reflexivity|constructor]|].
    apply delete_dates_loop_inr in Hd. split.
    - symmetry. eapply Forall2_map_eq; [exact Hd|].
      intros e c (-> & _). reflexivity.
    - rewrite <- (map_id (deleteDailyBudgetDates v)).
      eapply Forall2_map_r; [exact Hd|]. intros e c (_ & ? & ?). now split. }
  destruct Hcs as [-> Hc'], Hus as [-> Hu'], Hps as [-> Hp'], Hds as [-> Hd'].
  split; [reflexivity|]. repeat (apply Forall_app; split); assumption.
Qed.

Lemma omap_map_Some {A B C} (f : B -> option C) (g : A -> B) (h : A -> C) l :
  (forall a, f (g a) = Some (h a)) -> omap f (map g l) = map h l.
Proof. intros H. induction l as [|a l IH]; cbn; [reflexivity|]. now rewrite H, IH. Qed.

Lemma omap_map_None {A B C} (f : B -> option C) (g : A -> B) l :
  (forall a, f (g a) = None) -> omap f (map g l) = [].
Proof. intros H. induction l as [|a l IH]; cbn; [reflexivity|]. now rewrite H, IH. Qed.

(** The statements bind the validated dates, in the order of the lists. *)
Lemma compile_dates u mk ev now v :
  omap bound_date (compile u mk ev now v) = dates_of v.
Proof.
  unfold compile, dates_of. rewrite !omap_app.
  change (omap bound_date [InsertOrIgnoreMonth u mk now; BumpVersion now u mk ev])
    with (@nil string).
  cbn [app].
  rewrite (omap_map_Some _ _ ue_date) by reflexivity.
  rewrite (omap_map_Some _ _ ue_date) by reflexivity.
  rewrite omap_map_None by reflexivity.
  rewrite (omap_map_Some _ _ udb_date) by reflexivity.
  rewrite (omap_map_Some _ _ id) by reflexivity.
  now rewrite map_id.
Qed.

(** C4. For a request whose body validates: when some date it submits, in
    an element of [create_entries], [update_entries] or
    [upsert_daily_budgets] or as an element of [delete_daily_budget_dates],
    is not a string YYYY-MM-DD of the year and month of the month-key, the
    request is rejected without storage access; and when the request is
    accepted, every submitted date is the month-key followed by a hyphen and
    a two-digit day between 01 and 31, the validated dates are the submitted
    ones unchanged, and they are the dates the statements of the batch
    bind. *)
Theorem accepted_dates_in_month clock now uuid db u b rq :
  validateBody b = inr rq ->
  (forall d,
      In d (submitted_dates (ops rq)) -> in_month (month_key rq) d = false ->
      exists st message,
        (st = 400 \/ st = 403)
        /\ handlePostMonthly clock now uuid db u (Some b)
           = {| outcome := Returned {| status := st; body := ErrorBody message |};
                store := db; accesses := [] |})
  /\ (forall resp,
         body_of (outcome (handlePostMonthly clock now uuid db u (Some b)))
         = Some (OkBody resp) ->
         exists v,
           validateOps uuid (month_key rq) (ops rq) = inr v
           /\ Forall (fun d => exists s, d = Some (JStr s) /\ dated (month_key rq) s)
                (submitted_dates (ops rq))
           /\ map (fun s => Some (JStr s)) (dates_of v) = submitted_dates (ops rq)
           /\ forall stmts results,
                In (Batch stmts results)
                   (accesses (handlePostMonthly clock now uuid db u (Some b))) ->
                omap bound_date stmts = dates_of v).
Proof.
  intros Hb. pose proof (validateBody_inr _ _ Hb) as [Hmk _].
  destruct (handle_cases clock now uuid db u (Some b))
    as [(m & Hr)|[(b' & rq' & _ & _ & _ & Hr)|(b' & rq' & v & Heq & Hb' & He & Hv & _)]].
  { split.
    - intros d _ _. exists 400, m. split; [now left|exact Hr].
    - intros resp Hok. rewrite Hr in Hok. discriminate. }
  { split.
    - intros d _ _. exists 403. eexists. split; [now right|exact Hr].
    - intros resp Hok. rewrite Hr in Hok. discriminate. }
  injection Heq as <-. rewrite Hb in Hb'. injection Hb' as <-.
  destruct (validateOps_submitted _ _ _ _ Hv) as [Hsub Hall].
  split.
  - intros d Hin Hout. exfalso. rewrite <- Hsub in Hin.
    apply in_map_iff in Hin as (s & <- & Hs).
    rewrite Forall_forall in Hall. apply list_elem_of_In, Hall in Hs as [Hd Hm].
    assert (in_month (month_key rq) (Some (JStr s)) = true) as Hin
      by (apply in_month_iff; eauto).
    congruence.
  - intros resp _. exists v. split; [assumption|split; [|split]].
    + rewrite <- Hsub. apply List.Forall_map. eapply Forall_impl; [exact Hall|].
      intros s [Hd Hm]. exists s. split; [reflexivity|]. now apply date_shape.
    + assumption.
    + intros stmts results Hin.
      destruct (submitted_batch _ _ _ _ _ _ _ _ Hin)
        as (b' & rq' & v' & Heq & Hb' & _ & Hv' & _ & -> & _).
      injection Heq as <-. rewrite Hb in Hb'. injection Hb' as <-.
      rewrite Hv in Hv'. injection Hv' as <-. apply compile_dates.
Qed.

Lemma accepted_dates_in_month_witness :
  (exists st message,
      (st = 400 \/ st = 403)
      /\ handlePostMonthly sample_clock "2026-02-10 09:00:00" sample_uuid sample_db "u1"
           (Some march_request)
         = {| outcome := Returned {| status := st; body := ErrorBody message |};
              store := sample_db; accesses := [] |})
  /\ exists v,
       validateOps sample_uuid "2026-02"
         (JObj [("create_entries", JArr [entry_json "2026-02-30" 500 []])]) = inr v
       /\ Forall (fun d => exists s, d = Some (JStr s) /\ dated "2026-02" s)
            (submitted_dates (JObj [("create_entries",
                                     JArr [entry_json "2026-02-30" 500 []])]))
       /\ map (fun s => Some (JStr s)) (dates_of v)
          = submitted_dates (JObj [("create_entries", JArr [entry_json "2026-02-30" 500 []])])
       /\ forall stmts results,
            In (Batch stmts results)
               (accesses (handlePostMonthly sample_clock "2026-02-10 09:00:00" sample_uuid
                            sample_db "u1" (Some feb30_request))) ->
            omap bound_date stmts = dates_of v.
Proof.
  split.
  - apply (accepted_dates_in_month sample_clock "2026-02-10 09:00:00" sample_uuid sample_db
             "u1" march_request
             {| month_key := "2026-02"; expected_version := 0;
                ops := JObj [("create_entries", JArr [entry_json "2026-03-15" 500 []])] |}
             eq_refl)
      with (d := Some (JStr "2026-03-15")).
    + left. reflexivity.
    + reflexivity.
  - apply (accepted_dates_in_month sample_clock "2026-02-10 09:00:00" sample_uuid sample_db
             "u1" feb30_request
             {| month_key := "2026-02"; expected_version := 0;
                ops := JObj [("create_entries", JArr [entry_json "2026-02-30" 500 []])] |}
             eq_refl)
      with (resp := {| sr_month_key := "2026-02"; new_version := 1;
                       applied := {| created_entries := 1; updated_entries := 0;
                                     deleted_entries := 0; upserted_daily_budgets := 0;
                                     deleted_daily_budgets := 0 |} |}).
    vm_compute. reflexivity.
Defined.

(** A create dated in March under the month-key of February is answered
    with the mismatch message; the same request dated in February is stored
    with the date as submitted. *)
Example march_date_rejected :
  handlePostMonthly sample_clock "2026-02-10 09:00:00" sample_uuid sample_db "u1"
    (Some march_request)
  = rejected sample_db 400 "date 2026-03-15 does not match month_key 2026-02."
  /\ e_date <$> entries (store first_save) !! "uuid-0" = Some "2026-02-05".
Proof. split; vm_compute; reflexivity. Qed.

(** C4 stops at the day range 01..31: February 2026 has 28 days, and the
    create dated "2026-02-30" under month-key "2026-02" is accepted and
    stored with that date. *)
Lemma feb30_accepted :
  days_in_month 2026 2 = 28
  /\ in_calendar_month "2026-02-30" "2026-02" = false
  /\ outcome (handlePostMonthly sample_clock "2026-02-10 09:00:00" sample_uuid sample_db
                "u1" (Some feb30_request))
     = Returned (jsonResponse 200
                   (OkBody {| sr_month_key := "2026-02"; new_version := 1;
                              applied := {| created_entries := 1; updated_entries := 0;
                                            deleted_entries := 0;
                                            upserted_daily_budgets := 0;
                                            deleted_daily_budgets := 0 |} |}))
  /\ e_date <$> entries (store (handlePostMonthly sample_clock "2026-02-10 09:00:00"
                                  sample_uuid sample_db "u1" (Some feb30_request)))
                !! "uuid-0"
     = Some "2026-02-30".
Proof. repeat split; vm_compute; reflexivity. Qed.

(** ** Malformed entries *)

Lemma accepted_not_violating e mk c :
  MONTH_KEY_RE mk = true -> validateCreateEntry e mk = inr c -> violates e mk = false.
Proof.
  intros Hmk H.
  apply validateCreateEntry_inr in H as (_ & _ & Hd & Hm & Ht & Ha & Hc & Hp & _).
  unfold violates, date_ok, type_ok, amount_ok, category_id_ok, payment_method_ok,
    absent_or_null.
  apply negb_false_iff. repeat (apply andb_true_iff; split).
  - apply string_where_true in Hd as (d & Hp' & Hd). rewrite Hp' in *. cbn in *.
    rewrite Hd. destruct (date_shape mk d Hmk Hd Hm) as [_ ->].
    now rewrite String.eqb_refl.
  - apply string_where_true in Ht as (t & Hp' & Ht). rewrite Hp'. cbn in *.
    now rewrite orb_false_r in Ht.
  - assumption.
  - assumption.
  - destruct (provided (prop e "payment_method")); [|reflexivity].
    cbn in *. now apply negb_false_iff in Hp.
Qed.

Lemma Forall2_In_l {A B} (P : A -> B -> Prop) l1 l2 a :
  Forall2 P l1 l2 -> In a l1 -> exists b, P a b.
Proof.
  intros H. induction H; intros Hin; [destruct Hin|].
  destruct Hin as [<-|Hin]; eauto.
Qed.

(** The lists of accepted operations come from accepted elements only. *)
Lemma validateOps_elements uuid mk o v es e :
  validateOps uuid mk o = inr v ->
  (prop o "create_entries" = Some (JArr es) \/ prop o "update_entries" = Some (JArr es)) ->
  In e es -> exists base, validateCreateEntry e mk = inr base.
Proof.
  intros Hv Hes Hin. apply validateOps_inr in Hv as (Hc & Hu & _).
  destruct Hes as [Hes|Hes].
  - rewrite Hes in Hc. apply op_list_inr in Hc as [[Hf _]|(es' & Heq & Hc)];
      [discriminate|].
    injection Heq as <-. apply create_loop_inr in Hc.
    destruct (Forall2_In_l _ _ _ _ Hc Hin) as (c & base & id & Hbase & _). eauto.
  - rewrite Hes in Hu. apply op_list_inr in Hu as [[Hf _]|(es' & Heq & Hu)];
      [discriminate|].
    injection Heq as <-. apply update_loop_inr in Hu.
    destruct (Forall2_In_l _ _ _ _ Hu Hin) as (c & Hec).
    apply validateUpdateEntry_inr in Hec as (_ & base & Hbase & _). eauto.
Qed.

(** The checks of [validateCreateEntry] decide the constraints on the
    fields. *)
Lemma date_check e mk :
  MONTH_KEY_RE mk = true ->
  string_where DATE_RE (prop e "date")
  && dateMatchesMonthKey (the_string (prop e "date")) mk
  = date_ok e mk.
Proof.
  intros Hmk. unfold date_ok. destruct (prop e "date") as [[| | | |d| |]|]; try reflexivity.
  change (the_string (Some (JStr d))) with d. cbn [string_where].
  destruct (DATE_RE d) eqn:Hd; [|reflexivity]. cbn [andb].
  destruct (dateMatchesMonthKey d mk) eqn:Hm.
  - destruct (date_shape mk d Hmk Hd Hm) as [_ ->]. now rewrite String.eqb_refl.
  - destruct (String.eqb_spec (substring 0 7 d) mk) as [Heq|]; [|reflexivity].
    now rewrite (date_prefix _ _ Hd Heq) in Hm.
Qed.

Lemma type_check e : string_where (has VALID_TYPES) (prop e "type") = type_ok e.
Proof.
  unfold type_ok. destruct (prop e "type") as [[| | | |t| |]|]; try reflexivity.
  cbn. now rewrite orb_false_r.
Qed.

Lemma payment_check e :
  negb (provided (prop e "payment_method")
        && negb (string_where (has VALID_PAYMENT_METHODS) (prop e "payment_method")))
  = payment_method_ok e.
Proof.
  unfold payment_method_ok, absent_or_null.
  destruct (provided _), (string_where _ _); reflexivity.
Qed.

Lemma id_check e :
  negb (provided (prop e "entry_id")
        && negb (string_where (fun _ => true) (prop e "entry_id")))
  = id_usable e.
Proof. unfold id_usable. destruct (prop e "entry_id") as [[]|]; reflexivity. Qed.

Lemma field_message_mentions f e mk :
  mentions (field_name f) (field_message f e mk) = true.
Proof.
  destruct f; cbn [field_name field_message]; try reflexivity.
  destruct (string_where DATE_RE (prop e "date")); reflexivity.
Qed.

(** A message of [validateCreateEntry] reports a true defect: the element
    is not an object, its [entry_id] is mistyped, or the message is that of
    the first field that breaks its constraint. *)
Lemma validateCreateEntry_blame e mk m :
  MONTH_KEY_RE mk = true ->
  validateCreateEntry e mk = inl m ->
  (m = "Invalid entry object." /\ not_object (Some e) = true)
  \/ (m = "entry_id must be a string if provided." /\ id_usable e = false)
  \/ exists f, first_violated e mk = Some f /\ m = field_message f e mk.
Proof.
  intros Hmk. unfold validateCreateEntry.
  pose proof (date_check e mk Hmk) as Hdate. pose proof (type_check e) as Htype.
  pose proof (payment_check e) as Hpay. pose proof (id_check e) as Hid.
  unfold first_violated, FIELDS. cbn [find field_ok].
  destruct (not_object (Some e)); [intros [= <-]; now left|].
  destruct (provided (prop e "entry_id") && _).
  { intros [= <-]. right; left. now rewrite <- Hid. }
  destruct (string_where DATE_RE (prop e "date")) eqn:Hd; cbn [negb].
  2:{ intros [= <-]. right; right. exists DateField. rewrite <- Hdate. cbn.
      rewrite Hd. now split. }
  destruct (dateMatchesMonthKey (the_string (prop e "date")) mk); cbn [negb].
  2:{ intros [= <-]. right; right. exists DateField. rewrite <- Hdate. cbn.
      rewrite Hd. now split. }
  rewrite <- Hdate. cbn [andb negb].
  rewrite <- Htype. unfold amount_ok, category_id_ok.
  destruct (string_where (has VALID_TYPES) (prop e "type")); cbn [negb].
  2:{ intros [= <-]. right; right. exists TypeField. now split. }
  destruct (integer_where (fun a => 0 <? a) (prop e "amount")); cbn [negb].
  2:{ intros [= <-]. right; right. exists AmountField. now split. }
  change (string_where (fun c => negb (c =? "")%string) (prop e "category_id"))
    with (string_where nonempty (prop e "category_id")).
  destruct (string_where nonempty (prop e "category_id")); cbn [negb].
  2:{ intros [= <-]. right; right. exists CategoryField. now split. }
  rewrite <- Hpay.
  destruct (provided (prop e "payment_method") && _); cbn [negb]; [|discriminate].
  intros [= <-]. right; right. exists PaymentField. now split.
Qed.

Section Stops.

Variable uuid : nat -> string.
Variable mk : string.

Lemma create_loop_accepts es : forall k,
  Forall (fun x => exists c, validateCreateEntry x mk = inr c) es ->
  exists cs, create_loop uuid mk es k = inr cs.
Proof.
  induction es as [|e es IH]; intros k Hall; cbn [create_loop]; [eauto|].
  apply Forall_cons in Hall as [[c Hc] Hall]. rewrite Hc.
  destruct (assign_entry_id uuid c k) as [id k'].
  destruct (IH k' Hall) as [cs ->]. eauto.
Qed.

(** The create loop stops at the first element that fails, with its
    message. *)
Lemma create_loop_stops pre e post m : forall k,
  Forall (fun x => exists c, validateCreateEntry x mk = inr c) pre ->
  validateCreateEntry e mk = inl m ->
  create_loop uuid mk (pre ++ e :: post) k = inl m.
Proof.
  induction pre as [|x pre IH]; intros k Hall He; cbn [app create_loop].
  - now rewrite He.
  - apply Forall_cons in Hall as [[c Hc] Hall]. rewrite Hc.
    destruct (assign_entry_id uuid c k) as [id k']. now rewrite (IH k' Hall He).
Qed.

Lemma update_loop_stops pre e post m :
  Forall (fun x => exists c, validateUpdateEntry x mk = inr c) pre ->
  validateUpdateEntry e mk = inl m ->
  update_loop mk (pre ++ e :: post) = inl m.
Proof.
  induction pre as [|x pre IH]; intros Hall He; cbn [app update_loop].
  - now rewrite He.
  - apply Forall_cons in Hall as [[c Hc] Hall]. rewrite Hc. now rewrite (IH Hall He).
Qed.

Lemma creates_pass v :
  all_pass (fun x => validateCreateEntry x mk) v ->
  exists cs, op_list v "create_entries" (fun l => create_loop uuid mk l 0) = inr cs.
Proof.
  unfold op_list. intros [Hf|(es & -> & Hall)].
  - rewrite Hf. eauto.
  - cbn [falsy]. now apply create_loop_accepts.
Qed.

End Stops.

(** C6. When an element of [create_entries] or [update_entries] breaks a
    constraint on its date, type, amount, category id or payment method, the
    whole request is rejected with an error response, status 400 (403 when
    the month is read-only), without any storage access.  The validation of
    the element fails with the message of the first of these fields that
    breaks its constraint, which names the field, unless the element is no
    object or its [entry_id] is mistyped, which is then what the message
    says.  And when the month is editable and the element is the first of the
    request to fail validation, [create_entries] going before
    [update_entries], that message is the response; an update element without
    a non-empty string [entry_id] is reported for that instead. *)
Theorem malformed_entry_rejects clock now uuid db u b rq es e :
  validateBody b = inr rq ->
  (prop (ops rq) "create_entries" = Some (JArr es)
   \/ prop (ops rq) "update_entries" = Some (JArr es)) ->
  In e es ->
  violates e (month_key rq) = true ->
  (exists st message,
      (st = 400 \/ st = 403)
      /\ handlePostMonthly clock now uuid db u (Some b)
         = {| outcome := Returned {| status := st; body := ErrorBody message |};
              store := db; accesses := [] |})
  /\ exists message,
       validateCreateEntry e (month_key rq) = inl message
       /\ (message = "Invalid entry object." /\ not_object (Some e) = true
           \/ message = "entry_id must be a string if provided." /\ id_usable e = false
           \/ exists f,
                first_violated e (month_key rq) = Some f
                /\ message = field_message f e (month_key rq)
                /\ mentions (field_name f) message = true)
       /\ (editable clock (month_key rq) = true ->
           forall pre post,
             es = (pre ++ e :: post)%list ->
             prop (ops rq) "create_entries" = Some (JArr es) ->
             Forall (fun x => exists c, validateCreateEntry x (month_key rq) = inr c) pre ->
             handlePostMonthly clock now uuid db u (Some b)
             = {| outcome := Returned {| status := 400; body := ErrorBody message |};
                  store := db; accesses := [] |})
       /\ (editable clock (month_key rq) = true ->
           forall pre post,
             es = (pre ++ e :: post)%list ->
             prop (ops rq) "update_entries" = Some (JArr es) ->
             all_pass (fun x => validateCreateEntry x (month_key rq))
               (prop (ops rq) "create_entries") ->
             Forall (fun x => exists c, validateUpdateEntry x (month_key rq) = inr c) pre ->
             handlePostMonthly clock now uuid db u (Some b)
             = {| outcome :=
                    Returned
                      {| status := 400;
                         body := ErrorBody
                                   (if string_where nonempty (prop e "entry_id")
                                    then message
                                    else if not_object (Some e)
                                         then "Invalid entry object."
                                         else "entry_id is required for update.") |};
                  store := db; accesses := [] |}).
Proof.
  intros Hb Hes Hin Hviol.
  pose proof (validateBody_inr _ _ Hb) as [Hmk _].
  split.
  - destruct (handle_cases clock now uuid db u (Some b))
      as [(m & Hr)|[(b' & rq' & _ & _ & _ & Hr)|(b' & rq' & v & Heq & Hb' & _ & Hv & _)]].
    + exists 400, m. split; [now left|exact Hr].
    + exists 403. eexists. split; [now right|exact Hr].
    + injection Heq as <-. rewrite Hb in Hb'. injection Hb' as <-.
      destruct (validateOps_elements _ _ _ _ _ _ Hv Hes Hin) as [base Hbase].
      rewrite (accepted_not_violating _ _ _ Hmk Hbase) in Hviol. discriminate.
  - destruct (validateCreateEntry e (month_key rq)) as [m|base] eqn:He.
    2:{ rewrite (accepted_not_violating _ _ _ Hmk He) in Hviol. discriminate. }
    exists m. split; [reflexivity|split].
    { destruct (validateCreateEntry_blame _ _ _ Hmk He) as [?|[?|(f & Hf & ->)]];
        [now left|right; now left|].
      right; right. exists f. split; [assumption|split]; [reflexivity|].
      apply field_message_mentions. }
    split.
    + intros Hed pre post -> Hc Hpre. unfold handlePostMonthly, editable in *.
      rewrite Hb, Hed. cbn [negb]. unfold validateOps.
      rewrite Hc. cbn [op_list falsy].
      now rewrite (create_loop_stops uuid _ _ _ _ _ 0%nat Hpre He).
    + intros Hed pre post -> Hu Hcs Hpre. unfold handlePostMonthly, editable in *.
      rewrite Hb, Hed. cbn [negb]. unfold validateOps.
      destruct (creates_pass uuid _ _ Hcs) as [cs ->].
      rewrite Hu. cbn [op_list falsy].
      assert (validateUpdateEntry e (month_key rq)
              = inl (if string_where nonempty (prop e "entry_id") then m
                     else if not_object (Some e) then "Invalid entry object."
                          else "entry_id is required for update.")) as Hue.
      { unfold validateUpdateEntry. rewrite He.
        destruct (not_object (Some e)) eqn:Hno.
        - destruct e; try discriminate Hno; reflexivity.
        - destruct (string_where nonempty (prop e "entry_id")); reflexivity. }
      now rewrite (update_loop_stops _ _ _ _ _ Hpre Hue).
Qed.

Lemma malformed_entry_rejects_witness :
  (exists st message,
      (st = 400 \/ st = 403)
      /\ handlePostMonthly sample_clock "2026-02-10 09:00:00" sample_uuid shared_db "u1"
           (Some zero_update_request)
         = {| outcome := Returned {| status := st; body := ErrorBody message |};
              store := shared_db; accesses := [] |})
  /\ exists message,
       validateCreateEntry zero_amount_update "2026-02" = inl message
       /\ (message = "Invalid entry object." /\ not_object (Some zero_amount_update) = true
           \/ message = "entry_id must be a string if provided."
              /\ id_usable zero_amount_update = false
           \/ exists f,
                first_violated zero_amount_update "2026-02" = Some f
                /\ message = field_message f zero_amount_update "2026-02"
                /\ mentions (field_name f) message = true)
       /\ (editable sample_clock "2026-02" = true ->
           forall pre post,
             [entry_json "2026-02-06" 600 [("entry_id", JStr "e-3")]; zero_amount_update]
             = (pre ++ zero_amount_update :: post)%list ->
             prop (JObj zero_update_ops) "create_entries"
             = Some (JArr [entry_json "2026-02-06" 600 [("entry_id", JStr "e-3")];
                           zero_amount_update]) ->
             Forall (fun x => exists c, validateCreateEntry x "2026-02" = inr c) pre ->
             handlePostMonthly sample_clock "2026-02-10 09:00:00" sample_uuid shared_db "u1"
               (Some zero_update_request)
             = {| outcome := Returned {| status := 400; body := ErrorBody message |};
                  store := shared_db; accesses := [] |})
       /\ (editable sample_clock "2026-02" = true ->
           forall pre post,
             [entry_json "2026-02-06" 600 [("entry_id", JStr "e-3")]; zero_amount_update]
             = (pre ++ zero_amount_update :: post)%list ->
             prop (JObj zero_update_ops) "update_entries"
             = Some (JArr [entry_json "2026-02-06" 600 [("entry_id", JStr "e-3")];
                           zero_amount_update]) ->
             all_pass (fun x => validateCreateEntry x "2026-02")
               (prop (JObj zero_update_ops) "create_entries") ->
             Forall (fun x => exists c, validateUpdateEntry x "2026-02" = inr c) pre ->
             handlePostMonthly sample_clock "2026-02-10 09:00:00" sample_uuid shared_db "u1"
               (Some zero_update_request)
             = {| outcome := Returned {| status := 400; body := ErrorBody message |};
                  store := shared_db; accesses := [] |}).
Proof.
  apply (malformed_entry_rejects sample_clock "2026-02-10 09:00:00" sample_uuid shared_db
           "u1" zero_update_request
           {| month_key := "2026-02"; expected_version := 0; ops := JObj zero_update_ops |}
           [entry_json "2026-02-06" 600 [("entry_id", JStr "e-3")]; zero_amount_update]
           zero_amount_update).
  - reflexivity.
  - right. reflexivity.
  - right. left. reflexivity.
  - reflexivity.
Defined.

(** The scenario of an entry with [amount: 0]. *)
Example zero_amount_rejected :
  handlePostMonthly sample_clock "2026-02-10 09:00:00" sample_uuid sample_db "u1"
    (Some zero_amount_request)
  = rejected sample_db 400 "amount must be a positive integer.".
Proof. vm_compute. reflexivity. Qed.

(** The scenario of an update with [amount: 0] behind a well-formed create
    and a well-formed update. *)
Example zero_update_rejected :
  first_violated zero_amount_update "2026-02" = Some AmountField
  /\ handlePostMonthly sample_clock "2026-02-10 09:00:00" sample_uuid shared_db "u1"
       (Some zero_update_request)
     = rejected shared_db 400 "amount must be a positive integer.".
Proof. split; vm_compute; reflexivity. Qed.

(** C6 does not extend to the memo, to a read-only month, to an element
    behind another malformed one or to a field behind a mistyped id.  A
    create whose memo is the number 5, neither absent, null nor a string, is
    not rejected: the request succeeds and the row is stored without memo.  A
    create whose amount is zero, for a month before the editable window, is
    answered with the read-only message.  Of two malformed creates only the
    first is reported: the message about the missing type of the first says
    nothing of the amount of the second.  And a create whose amount is zero
    and whose id is a number is reported for its id. *)
Lemma violations_not_reported :
  memo_ok number_memo_entry = false
  /\ outcome (handlePostMonthly sample_clock "2026-02-10 09:00:00" sample_uuid sample_db
                "u1" (Some number_memo_request))
     = Returned (jsonResponse 200
                   (OkBody {| sr_month_key := "2026-02"; new_version := 1;
                              applied := {| created_entries := 1; updated_entries := 0;
                                            deleted_entries := 0;
                                            upserted_daily_budgets := 0;
                                            deleted_daily_budgets := 0 |} |}))
  /\ e_memo <$> entries (store (handlePostMonthly sample_clock "2026-02-10 09:00:00"
                                  sample_uuid sample_db "u1" (Some number_memo_request)))
                !! "uuid-0"
     = Some None
  /\ first_violated old_zero_amount_entry "2025-01" = Some AmountField
  /\ handlePostMonthly sample_clock "2026-02-10 09:00:00" sample_uuid sample_db "u1"
       (Some old_zero_amount_request)
     = rejected sample_db 403 "This month is read-only."
  /\ first_violated zero_amount_entry "2026-02" = Some AmountField
  /\ handlePostMonthly sample_clock "2026-02-10 09:00:00" sample_uuid sample_db "u1"
       (Some two_malformed_request)
     = rejected sample_db 400 "type must be 'expense' or 'income'."
  /\ mentions "amount" "type must be 'expense' or 'income'." = false
  /\ first_violated numbered_entry "2026-02" = Some AmountField
  /\ handlePostMonthly sample_clock "2026-02-10 09:00:00" sample_uuid sample_db "u1"
       (Some numbered_request)
     = rejected sample_db 400 "entry_id must be a string if provided."
  /\ mentions "amount" "entry_id must be a string if provided." = false.
Proof. repeat split; vm_compute; reflexivity. Qed.

(** ** Identifiers of created entries *)

Section Ids.

Variable uuid : nat -> string.
Variable mk : string.

Lemma assign_entry_id_spec e base k :
  validateCreateEntry e mk = inr base ->
  assign_entry_id uuid base k
  = if id_missing e then (uuid k, S k) else (the_string (prop e "entry_id"), k).
Proof.
  intros H. apply validateCreateEntry_inr in H as (_ & Hid & _ & _ & _ & _ & _ & _ & ->).
  unfold assign_entry_id, id_missing. cbn [ce_entry_id].
  destruct (prop e "entry_id") as [[| | | |s| |]|]; cbn in *; try discriminate;
    try reflexivity.
  destruct s; reflexivity.
Qed.

Lemma supplied_id_nonempty e base :
  validateCreateEntry e mk = inr base -> id_missing e = false ->
  the_string (prop e "entry_id") <> ""
  /\ prop e "entry_id" = Some (JStr (the_string (prop e "entry_id"))).
Proof.
  intros H. apply validateCreateEntry_inr in H as (_ & Hid & _).
  unfold id_missing.
  destruct (prop e "entry_id") as [[| | | |s| |]|]; cbn in *; try discriminate.
  destruct s; [discriminate|]. intros _. split; [discriminate|reflexivity].
Qed.

Lemma create_loop_ids es : forall k cs,
  create_loop uuid mk es k = inr cs -> map ue_entry_id cs = expected_ids uuid es k.
Proof.
  induction es as [|e es IH]; intros k cs H; cbn [create_loop] in H.
  - inversion H. reflexivity.
  - destruct (validateCreateEntry e mk) as [m|base] eqn:He; [discriminate|].
    rewrite (assign_entry_id_spec _ _ _ He) in H. cbn [expected_ids].
    destruct (id_missing e);
      match type of H with
      | context [create_loop uuid mk es ?k'] =>
          destruct (create_loop uuid mk es k') as [m|rest] eqn:Hr; [discriminate|];
          inversion H; subst; cbn; f_equal; eapply IH; eauto
      end.
Qed.

Lemma expected_ids_nonempty es : forall k cs,
  (forall n, uuid n <> "") ->
  create_loop uuid mk es k = inr cs -> Forall (fun id => id <> "") (expected_ids uuid es k).
Proof.
  induction es as [|e es IH]; intros k cs Hne H; cbn [create_loop] in H;
    cbn [expected_ids].
  - constructor.
  - destruct (validateCreateEntry e mk) as [m|base] eqn:He; [discriminate|].
    rewrite (assign_entry_id_spec _ _ _ He) in H.
    destruct (id_missing e) eqn:Hmiss;
      match type of H with
      | context [create_loop uuid mk es ?k'] =>
          destruct (create_loop uuid mk es k') as [m|rest] eqn:Hr; [discriminate|]
      end; constructor; eauto.
    now apply (supplied_id_nonempty e base).
Qed.

(** A generated id comes from a call of the generator not made before. *)
Lemma expected_ids_generated es : forall k j e,
  es !! j = Some e -> id_missing e = true ->
  exists n, (k <= n)%nat /\ expected_ids uuid es k !! j = Some (uuid n).
Proof.
  induction es as [|e0 es IH]; intros k j e Hj Hmiss; [discriminate|].
  cbn [expected_ids]. destruct j as [|j]; cbn in Hj.
  - injection Hj as ->. rewrite Hmiss. exists k. split; [lia|reflexivity].
  - destruct (id_missing e0); cbn.
    + destruct (IH (S k) j e Hj Hmiss) as (n & Hn & Hl). exists n. split; [lia|assumption].
    + destruct (IH k j e Hj Hmiss) as (n & Hn & Hl). exists n. split; [lia|assumption].
Qed.

Lemma expected_ids_distinct es : forall k i j ei ej,
  (forall a b, uuid a = uuid b -> a = b) ->
  (i < j)%nat -> es !! i = Some ei -> es !! j = Some ej ->
  id_missing ei = true -> id_missing ej = true ->
  expected_ids uuid es k !! i <> expected_ids uuid es k !! j.
Proof.
  induction es as [|e0 es IH]; intros k i j ei ej Hinj Hij Hi Hj Hmi Hmj; [discriminate|].
  destruct j as [|j]; [lia|]. cbn in Hj. cbn [expected_ids].
  destruct i as [|i]; cbn in Hi.
  - injection Hi as ->. rewrite Hmi.
    destruct (expected_ids_generated es (S k) j ej Hj Hmj) as (n & Hn & Hl).
    intros Heq. change (Some (uuid k) = expected_ids uuid es (S k) !! j) in Heq.
    rewrite Hl in Heq. injection Heq as Heq. apply Hinj in Heq. lia.
  - destruct (id_missing e0);
      match goal with
      | |- (_ :: ?l) !! _ <> _ => change (l !! i <> l !! j)
      end; eapply IH; eauto; lia.
Qed.

Lemma create_loop_same (uuid' : nat -> string) es : forall k k',
  same_outcome (create_loop uuid mk es k) (create_loop uuid' mk es k').
Proof.
  induction es as [|e es IH]; intros k k'; cbn [create_loop].
  - reflexivity.
  - destruct (validateCreateEntry e mk) as [m|base] eqn:He; [reflexivity|].
    unfold assign_entry_id.
    destruct (ce_entry_id base) as [s|]; [destruct (nonempty s)|]; cbv beta iota;
      match goal with
      | |- context [create_loop uuid mk es ?a] =>
          match goal with
          | |- context [create_loop uuid' mk es ?b] =>
              specialize (IH a b);
              destruct (create_loop uuid mk es a), (create_loop uuid' mk es b);
              cbn in *; try assumption; try contradiction; now f_equal
          end
      end.
Qed.

End Ids.

Lemma missing_id_not_blamed e mk m :
  id_missing e = true -> validateCreateEntry e mk = inl m ->
  m <> "entry_id must be a string if provided.".
Proof.
  unfold validateCreateEntry, id_missing. intros Hmiss H.
  destruct (not_object (Some e)); [inversion H; discriminate|].
  destruct (provided (prop e "entry_id")
            && negb (string_where (fun _ => true) (prop e "entry_id"))) eqn:Hid.
  { destruct (prop e "entry_id") as [[| | | |s| |]|]; cbn in *; discriminate. }
  repeat match type of H with
         | (if ?c then _ else _) = _ =>
             destruct c;
             [inversion H; subst; unfold mismatch_message; cbv [String.append];
              discriminate|]
         end.
  discriminate.
Qed.

Lemma validateOps_created_ids uuid mk o v :
  (forall n, uuid n <> "") -> validateOps uuid mk o = inr v ->
  Forall (fun c => ue_entry_id c <> "") (createEntries v).
Proof.
  intros Hne Hv. apply validateOps_inr in Hv as (Hc & _).
  apply op_list_inr in Hc as [[_ ->]|(es & _ & Hc)]; [constructor|].
  apply List.Forall_map with (P := fun id => id <> "").
  rewrite (create_loop_ids _ _ _ _ _ Hc). eapply expected_ids_nonempty; eauto.
Qed.

Lemma compile_insert_ids u mk ev now v :
  Forall (fun c => ue_entry_id c <> "") (createEntries v) ->
  Forall (fun s => insert_id s <> Some "") (compile u mk ev now v).
Proof.
  intros Hids. unfold compile. cbn [app].
  do 2 (apply Forall_cons; split; [discriminate|]).
  apply Forall_app; split.
  { apply List.Forall_map. eapply Forall_impl; [exact Hids|].
    intros c Hc Heq. cbn in Heq. congruence. }
  repeat (apply Forall_app; split); apply List.Forall_map, Forall_forall;
    intros; discriminate.
Qed.

Lemma first_violated_violates e mk f : first_violated e mk = Some f -> violates e mk = true.
Proof.
  unfold first_violated, violates. intros H. apply find_some in H as [_ H].
  apply negb_true_iff in H. apply negb_true_iff.
  destruct f; cbn [field_ok] in H; rewrite H; repeat rewrite andb_false_r; reflexivity.
Qed.

(** An element that is well-formed in the words of the specification passes
    [validateCreateEntry]. *)
Lemma well_formed_accepted e mk :
  MONTH_KEY_RE mk = true -> well_formed_create e mk = true ->
  exists base, validateCreateEntry e mk = inr base.
Proof.
  unfold well_formed_create. intros Hmk H.
  apply andb_prop in H as [H Hviol]. apply andb_prop in H as [Hobj Hid].
  apply negb_true_iff in Hobj, Hviol.
  destruct (validateCreateEntry e mk) as [m|base] eqn:He; [|eauto].
  destruct (validateCreateEntry_blame _ _ _ Hmk He) as [[_ ?]|[[_ ?]|(f & Hf & _)]];
    [congruence|congruence|].
  apply first_violated_violates in Hf. congruence.
Qed.

Lemma omap_inserted u mk ev now v :
  omap insert_id (compile u mk ev now v) = map ue_entry_id (createEntries v).
Proof.
  unfold compile. rewrite !omap_app.
  change (omap insert_id [InsertOrIgnoreMonth u mk now; BumpVersion now u mk ev])
    with (@nil string).
  cbn [app].
  rewrite (omap_map_Some _ _ ue_entry_id) by reflexivity.
  rewrite !omap_map_None by reflexivity.
  now rewrite !app_nil_r.
Qed.

(** C10. With a generator whose values are non-empty and pairwise distinct.
    A create element whose [entry_id] is absent, null or empty is never
    rejected on account of its id, and when it is an object whose fields meet
    the constraints it passes validation and is given the next value of the
    generator; a list of well-formed create elements, with or without ids,
    passes the create loop.  Which values the generator returns changes
    neither the acceptance of the create list nor its error message nor any
    field of the accepted entries besides the id.  The accepted entries carry
    the supplied ids and, where none was supplied, successive values of the
    generator, all non-empty and distinct from one another.  A request for an
    editable month whose creates are well-formed and whose other lists pass
    validation goes on to the category check and the batch with these ids;
    and the ids that the INSERTs of a submitted batch bind are these ids, none
    of them empty. *)
Theorem created_entry_ids uuid :
  (forall n, uuid n <> "") ->
  (forall a b, uuid a = uuid b -> a = b) ->
  (forall e mk message,
      id_missing e = true -> validateCreateEntry e mk = inl message ->
      message <> "entry_id must be a string if provided.")
  /\ (forall e mk k,
         MONTH_KEY_RE mk = true -> id_missing e = true ->
         not_object (Some e) = false -> violates e mk = false ->
         exists base,
           validateCreateEntry e mk = inr base
           /\ assign_entry_id uuid base k = (uuid k, S k))
  /\ (forall mk es k,
         MONTH_KEY_RE mk = true ->
         Forall (fun e => well_formed_create e mk = true) es ->
         exists cs,
           create_loop uuid mk es k = inr cs
           /\ map ue_entry_id cs = expected_ids uuid es k)
  /\ (forall uuid' mk es k k',
         same_outcome (create_loop uuid mk es k) (create_loop uuid' mk es k'))
  /\ (forall mk es cs,
         create_loop uuid mk es 0 = inr cs ->
         map ue_entry_id cs = expected_ids uuid es 0
         /\ Forall (fun c => ue_entry_id c <> "") cs
         /\ forall i j ei ej,
              (i < j)%nat -> es !! i = Some ei -> es !! j = Some ej ->
              id_missing ei = true -> id_missing ej = true ->
              map ue_entry_id cs !! i <> map ue_entry_id cs !! j)
  /\ (forall clock now db u b rq es v,
         validateBody b = inr rq ->
         editable clock (month_key rq) = true ->
         prop (ops rq) "create_entries" = Some (JArr es) -> es <> [] ->
         Forall (fun e => well_formed_create e (month_key rq) = true) es ->
         others_accepted (month_key rq) (ops rq) v ->
         exists cs,
           map ue_entry_id cs = expected_ids uuid es 0
           /\ handlePostMonthly clock now uuid db u (Some b)
              = save now db u (month_key rq) (expected_version rq) (with_creates cs v))
  /\ (forall clock now db u b rq stmts results,
         validateBody b = inr rq ->
         In (Batch stmts results)
            (accesses (handlePostMonthly clock now uuid db u (Some b))) ->
         omap insert_id stmts = expected_ids uuid (elements (ops rq) "create_entries") 0
         /\ Forall (fun s => insert_id s <> Some "") stmts).
Proof.
  intros Hne Hinj.
  assert (Hloop : forall mk es k,
             MONTH_KEY_RE mk = true ->
             Forall (fun e => well_formed_create e mk = true) es ->
             exists cs,
               create_loop uuid mk es k = inr cs
               /\ map ue_entry_id cs = expected_ids uuid es k).
  { intros mk es k Hmk Hall.
    destruct (create_loop_accepts uuid mk es k) as [cs Hcs].
    { eapply Forall_impl; [exact Hall|]. intros e. now apply well_formed_accepted. }
    exists cs. split; [assumption|]. eapply create_loop_ids; eauto. }
  split; [|split; [|split; [|split; [|split; [|split]]]]].
  - intros e mk m. apply missing_id_not_blamed.
  - intros e mk k Hmk Hmiss Hobj Hviol.
    destruct (well_formed_accepted e mk Hmk) as [base Hbase].
    { unfold well_formed_create. rewrite Hobj, Hviol. cbn [negb andb].
      rewrite andb_true_r. unfold id_missing, id_usable in *.
      destruct (prop e "entry_id") as [[]|]; try discriminate; reflexivity. }
    exists base. split; [assumption|].
    now rewrite (assign_entry_id_spec uuid mk e base k Hbase), Hmiss.
  - exact Hloop.
  - intros uuid' mk es k k'. apply create_loop_same.
  - intros mk es cs Hc. pose proof (create_loop_ids _ _ _ _ _ Hc) as Hids.
    split; [assumption|split].
    + apply List.Forall_map with (P := fun id => id <> ""). rewrite Hids.
      eapply expected_ids_nonempty; eauto.
    + intros i j ei ej Hij Hi Hj Hmi Hmj. rewrite Hids.
      eapply expected_ids_distinct; eauto.
  - intros clock now db u b rq es v Hb He Hes Hnil Hall (Hu & Hi & Hp & Hd).
    pose proof (validateBody_inr _ _ Hb) as [Hmk _].
    destruct (Hloop (month_key rq) es 0%nat Hmk Hall) as (cs & Hcs & Hids).
    exists cs. split; [assumption|].
    assert (Hv : validateOps uuid (month_key rq) (ops rq) = inr (with_creates cs v)).
    { unfold validateOps. rewrite Hes. cbn [op_list falsy]. now rewrite Hcs, Hu, Hi, Hp, Hd. }
    rewrite (handle_valid _ _ _ _ _ _ _ _ Hb He Hv).
    replace (totalOps (with_creates cs v) =? 0)%nat with false; [reflexivity|].
    symmetry. apply Nat.eqb_neq. unfold totalOps, with_creates. cbn [createEntries].
    apply (f_equal (@length string)) in Hids. rewrite length_map in Hids.
    rewrite Hids. destruct es as [|e0 es]; [congruence|].
    cbn [expected_ids]. destruct (id_missing e0); cbn [length]; lia.
  - intros clock now db u b rq stmts results Hb Hin.
    destruct (submitted_batch _ _ _ _ _ _ _ _ Hin)
      as (b' & rq' & v & Heq & Hb' & _ & Hv & _ & -> & _).
    injection Heq as <-. rewrite Hb in Hb'. injection Hb' as <-.
    split.
    + rewrite omap_inserted.
      apply validateOps_inr in Hv as (Hc & _).
      apply op_list_elements in Hc as [[-> ->]|Hc]; [reflexivity|].
      eapply create_loop_ids; eauto.
    + apply compile_insert_ids. eapply validateOps_created_ids; eauto.
Qed.

Lemma sample_uuid_nonempty n : sample_uuid n <> "".
Proof. unfold sample_uuid. cbv [String.append]. discriminate. Qed.

Lemma sample_uuid_inj a b : sample_uuid a = sample_uuid b -> a = b.
Proof.
  unfold sample_uuid. cbv [String.append]. intros H. injection H as H.
  now apply pretty_nat_inj in H.
Qed.

Lemma created_entry_ids_witness :
  (forall e mk message,
      id_missing e = true -> validateCreateEntry e mk = inl message ->
      message <> "entry_id must be a string if provided.")
  /\ (forall e mk k,
         MONTH_KEY_RE mk = true -> id_missing e = true ->
         not_object (Some e) = false -> violates e mk = false ->
         exists base,
           validateCreateEntry e mk = inr base
           /\ assign_entry_id sample_uuid base k = (sample_uuid k, S k))
  /\ (forall mk es k,
         MONTH_KEY_RE mk = true ->
         Forall (fun e => well_formed_create e mk = true) es ->
         exists cs,
           create_loop sample_uuid mk es k = inr cs
           /\ map ue_entry_id cs = expected_ids sample_uuid es k)
  /\ (forall uuid' mk es k k',
         same_outcome (create_loop sample_uuid mk es k) (create_loop uuid' mk es k'))
  /\ (forall mk es cs,
         create_loop sample_uuid mk es 0 = inr cs ->
         map ue_entry_id cs = expected_ids sample_uuid es 0
         /\ Forall (fun c => ue_entry_id c <> "") cs
         /\ forall i j ei ej,
              (i < j)%nat -> es !! i = Some ei -> es !! j = Some ej ->
              id_missing ei = true -> id_missing ej = true ->
              map ue_entry_id cs !! i <> map ue_entry_id cs !! j)
  /\ (forall clock now db u b rq es v,
         validateBody b = inr rq ->
         editable clock (month_key rq) = true ->
         prop (ops rq) "create_entries" = Some (JArr es) -> es <> [] ->
         Forall (fun e => well_formed_create e (month_key rq) = true) es ->
         others_accepted (month_key rq) (ops rq) v ->
         exists cs,
           map ue_entry_id cs = expected_ids sample_uuid es 0
           /\ handlePostMonthly clock now sample_uuid db u (Some b)
              = save now db u (month_key rq) (expected_version rq) (with_creates cs v))
  /\ (forall clock now db u b rq stmts results,
         validateBody b = inr rq ->
         In (Batch stmts results)
            (accesses (handlePostMonthly clock now sample_uuid db u (Some b))) ->
         omap insert_id stmts
         = expected_ids sample_uuid (elements (ops rq) "create_entries") 0
         /\ Forall (fun s => insert_id s <> Some "") stmts).
Proof.
  apply (created_entry_ids sample_uuid).
  - exact sample_uuid_nonempty.
  - exact sample_uuid_inj.
Defined.

(** A request of two creates without id around one that brings its own is
    accepted: the batch inserts under the first two generated values and the
    supplied id, and the three rows are stored. *)
Example three_creates_saved :
  Forall (fun e => well_formed_create e "2026-02" = true) three_creates
  /\ status <$> (match outcome (handlePostMonthly sample_clock "2026-02-10 09:00:00"
                                  sample_uuid sample_db "u1" (Some three_creates_request))
                 with Returned r => Some r | Thrown => None end)
     = Some 200
  /\ (exists results,
         accesses (handlePostMonthly sample_clock "2026-02-10 09:00:00" sample_uuid
                     sample_db "u1" (Some three_creates_request))
         = [CategoryLookup "u1";
            Batch (compile "u1" "2026-02" 0 "2026-02-10 09:00:00"
                     {| createEntries :=
                          [with_entry_id
                             {| ce_entry_id := Some ""; ce_date := "2026-02-05";
                                ce_type := "expense"; ce_amount := 500;
                                ce_category_id := "cat-001"; ce_memo := None;
                                ce_payment_method := None |} "uuid-0";
                           with_entry_id
                             {| ce_entry_id := Some "mine"; ce_date := "2026-02-06";
                                ce_type := "expense"; ce_amount := 600;
                                ce_category_id := "cat-001"; ce_memo := None;
                                ce_payment_method := None |} "mine";
                           with_entry_id
                             {| ce_entry_id := None; ce_date := "2026-02-07";
                                ce_type := "expense"; ce_amount := 700;
                                ce_category_id := "cat-001"; ce_memo := None;
                                ce_payment_method := None |} "uuid-1"];
                        updateEntries := []; deleteEntryIds := [];
                        upsertDailyBudgets := []; deleteDailyBudgetDates := [] |})
              (Some results)])
  /\ e_date <$> entries (store (handlePostMonthly sample_clock "2026-02-10 09:00:00"
                                  sample_uuid sample_db "u1" (Some three_creates_request)))
                !! "uuid-0" = Some "2026-02-05"
  /\ e_date <$> entries (store (handlePostMonthly sample_clock "2026-02-10 09:00:00"
                                  sample_uuid sample_db "u1" (Some three_creates_request)))
                !! "mine" = Some "2026-02-06"
  /\ e_date <$> entries (store (handlePostMonthly sample_clock "2026-02-10 09:00:00"
                                  sample_uuid sample_db "u1" (Some three_creates_request)))
                !! "uuid-1" = Some "2026-02-07".
Proof.
  split; [repeat constructor|].
  split; [vm_compute; reflexivity|].
  split; [eexists; vm_compute; reflexivity|].
  repeat split; vm_compute; reflexivity.
Qed.

(** An empty id and an absent id get the first two generated values; a
    supplied id is kept. *)
Example three_creates_ids :
  expected_ids sample_uuid three_creates 0 = ["uuid-0"; "mine"; "uuid-1"]
  /\ exists cs, create_loop sample_uuid "2026-02" three_creates 0 = inr cs
                /\ map ue_entry_id cs = ["uuid-0"; "mine"; "uuid-1"].
Proof. split; [vm_compute; reflexivity|]. eexists. split; vm_compute; reflexivity. Qed.

(** ** Runs on the sample data *)

Lemma category_check_witness :
  (referenced unknown_category_ops = [] ->
   lookups (accesses (handlePostMonthly sample_clock "2026-02-10 09:00:00" sample_uuid
                        sample_db "u1" (Some unknown_category_request))) = 0%nat)
  /\ (referenced unknown_category_ops <> [] ->
      lookups (accesses (handlePostMonthly sample_clock "2026-02-10 09:00:00" sample_uuid
                           sample_db "u1" (Some unknown_category_request))) = 1%nat)
  /\ ((exists cid, In cid (referenced unknown_category_ops) /\ ~ owns sample_db "u1" cid) ->
      exists cid,
        In cid (referenced unknown_category_ops) /\ ~ owns sample_db "u1" cid
        /\ handlePostMonthly sample_clock "2026-02-10 09:00:00" sample_uuid sample_db "u1"
             (Some unknown_category_request)
           = {| outcome := Returned (errorResponse 400 ("Invalid category_id: " ++ cid));
                store := sample_db;
                accesses := [CategoryLookup "u1"] |}).
Proof.
  apply (category_check sample_clock "2026-02-10 09:00:00" sample_uuid sample_db "u1"
           unknown_category_request
           {| month_key := "2026-02"; expected_version := 0;
              ops := JObj [("create_entries",
                            JArr [JObj [("date", JStr "2026-02-05");
                                        ("type", JStr "expense"); ("amount", JInt 500);
                                        ("category_id", JStr "cat-999")]])] |}
           unknown_category_ops).
  - reflexivity.
  - vm_compute. reflexivity.
  - vm_compute. reflexivity.
Defined.

(** The scenario of a create that refers to a nonexistent category. *)
Example unknown_category_rejected :
  handlePostMonthly sample_clock "2026-02-10 09:00:00" sample_uuid sample_db "u1"
    (Some unknown_category_request)
  = {| outcome := Returned (errorResponse 400 "Invalid category_id: cat-999");
       store := sample_db;
       accesses := [CategoryLookup "u1"] |}.
Proof. vm_compute. reflexivity. Qed.

Lemma foreign_entries_untouched_witness :
  (forall stmts results,
      In (Batch stmts results)
         (accesses (handlePostMonthly sample_clock "2026-02-10 09:00:00" sample_uuid
                      shared_db "u1" (Some grab_request))) ->
      Forall (fun s => scope s = ("u1", "2026-02")) stmts)
  /\ (forall id row,
         entries shared_db !! id = Some row -> foreign "u1" "2026-02" row ->
         entries (store (handlePostMonthly sample_clock "2026-02-10 09:00:00" sample_uuid
                           shared_db "u1" (Some grab_request))) !! id
         = Some row).
Proof.
  apply (foreign_entries_untouched sample_clock "2026-02-10 09:00:00" sample_uuid shared_db
           "u1" grab_request
           {| month_key := "2026-02"; expected_version := 0; ops := JObj grab_ops |}).
  reflexivity.
Defined.

(** User u1's save of February succeeds; the entry of u2 and u1's entry of
    January are as before, and u1's entry of February is deleted. *)
Example grab_leaves_foreign_rows :
  body_of (outcome (handlePostMonthly sample_clock "2026-02-10 09:00:00" sample_uuid
                      shared_db "u1" (Some grab_request)))
  = Some (OkBody {| sr_month_key := "2026-02"; new_version := 1;
                    applied := {| created_entries := 0; updated_entries := 2;
                                  deleted_entries := 3; upserted_daily_budgets := 0;
                                  deleted_daily_budgets := 0 |} |})
  /\ entries (store (handlePostMonthly sample_clock "2026-02-10 09:00:00" sample_uuid
                       shared_db "u1" (Some grab_request))) !! "e-1"
     = Some (sample_row "u2" "2026-02" "2026-02-03")
  /\ entries (store (handlePostMonthly sample_clock "2026-02-10 09:00:00" sample_uuid
                       shared_db "u1" (Some grab_request))) !! "e-2"
     = Some (sample_row "u1" "2026-01" "2026-01-03")
  /\ entries (store (handlePostMonthly sample_clock "2026-02-10 09:00:00" sample_uuid
                       shared_db "u1" (Some grab_request))) !! "e-3"
     = None.
Proof. repeat split; vm_compute; reflexivity. Qed.

(** * Further properties of the save handler *)

(** ** Failures and the tables *)

(** X1. A response with status 400 or 403 means that the tables are as
    before and that no batch was submitted. *)
Theorem rejections_leave_tables clock now uuid db u request r :
  outcome (handlePostMonthly clock now uuid db u request) = Returned r ->
  status r = 400 \/ status r = 403 ->
  store (handlePostMonthly clock now uuid db u request) = db
  /\ forall stmts results,
       ~ In (Batch stmts results) (accesses (handlePostMonthly clock now uuid db u request)).
Proof.
  intros Hout Hst.
  destruct (handle_cases clock now uuid db u request)
    as [(m & Hr)|[(b & rq & _ & _ & _ & Hr)
                  |(b & rq & v & -> & Hb & He & Hv & [[_ Hr]|[Ht Hr]])]];
    rewrite Hr in *; try (split; [reflexivity|intros ? ? []]).
  destruct (save_cases now db u (month_key rq) (expected_version rq) v)
    as [(cid & _ & _ & Hs)|[_ [[Hnone Hs]|(db' & res & Hbatch & Hs)]]];
    rewrite Hs in *; cbn [accesses outcome store] in *.
  - split; [reflexivity|]. intros ? ? [?|[]]. discriminate.
  - discriminate.
  - exfalso. injection Hout as <-.
    destruct (nth 1 res 0 =? 0); cbn in Hst; destruct Hst; discriminate.
Qed.

(** X2. When the exception of a failed batch escapes the handler, the
    batch was its last access and the tables are as before. *)
Theorem failed_batch_rolls_back clock now uuid db u request :
  outcome (handlePostMonthly clock now uuid db u request) = Thrown ->
  store (handlePostMonthly clock now uuid db u request) = db
  /\ exists stmts (before : list Access),
       accesses (handlePostMonthly clock now uuid db u request)
       = (before ++ [Batch stmts None])%list
       /\ batch stmts db = None.
Proof.
  intros Hout.
  destruct (handle_cases clock now uuid db u request)
    as [(m & Hr)|[(b & rq & _ & _ & _ & Hr)
                  |(b & rq & v & -> & Hb & He & Hv & [[_ Hr]|[Ht Hr]])]];
    rewrite Hr in *; try discriminate.
  destruct (save_cases now db u (month_key rq) (expected_version rq) v)
    as [(cid & _ & _ & Hs)|[_ [[Hnone Hs]|(db' & res & Hbatch & Hs)]]];
    rewrite Hs in *; cbn [accesses outcome store] in *; try discriminate.
  split; [reflexivity|]. eauto.
Qed.

(** X3. The handler answers with status 200, 400, 403 or 409 only, and it
    goes to the database at most twice: at most one category lookup, for the
    requesting user, followed by at most one batch. *)
Theorem statuses_and_round_trips clock now uuid db u request :
  (forall r, outcome (handlePostMonthly clock now uuid db u request) = Returned r ->
             status r = 200 \/ status r = 400 \/ status r = 403 \/ status r = 409)
  /\ (accesses (handlePostMonthly clock now uuid db u request) = []
      \/ accesses (handlePostMonthly clock now uuid db u request) = [CategoryLookup u]
      \/ (exists stmts results,
             accesses (handlePostMonthly clock now uuid db u request)
             = [Batch stmts results])
      \/ (exists stmts results,
             accesses (handlePostMonthly clock now uuid db u request)
             = [CategoryLookup u; Batch stmts results])).
Proof.
  destruct (handle_cases clock now uuid db u request)
    as [(m & Hr)|[(b & rq & _ & _ & _ & Hr)
                  |(b & rq & v & -> & Hb & He & Hv & [[_ Hr]|[Ht Hr]])]];
    rewrite Hr; try (split; [intros r [= <-]; cbn; tauto|now left]).
  destruct (save_cases now db u (month_key rq) (expected_version rq) v)
    as [(cid & _ & _ & Hs)|[_ [[Hnone Hs]|(db' & res & Hbatch & Hs)]]];
    rewrite Hs; cbn [accesses outcome].
  - split; [intros r [= <-]; cbn; tauto|]. right; left. reflexivity.
  - split; [discriminate|]. unfold lookups_of.
    destruct (0 <? _)%nat; cbn [app]; [right; right; right|right; right; left]; eauto.
  - split.
    + intros r [= <-]. destruct (nth 1 res 0 =? 0); cbn; tauto.
    + unfold lookups_of.
      destruct (0 <? _)%nat; cbn [app]; [right; right; right|right; right; left]; eauto.
Qed.

(** ** What a save leaves alone *)

Lemma same_outside_refl u mk db : same_outside u mk db db.
Proof. repeat split. Qed.

Lemma same_outside_trans u mk db1 db2 db3 :
  same_outside u mk db1 db2 -> same_outside u mk db2 db3 -> same_outside u mk db1 db3.
Proof.
  intros (Hu & Hc & Hm & Hd) (Hu' & Hc' & Hm' & Hd').
  split; [congruence|split]; [congruence|split].
  - intros k Hk. rewrite Hm', Hm; auto.
  - intros u' mk' d Hk. rewrite Hd', Hd; auto.
Qed.

Lemma exec_same_outside s u mk db db' c :
  scope s = (u, mk) -> exec s db = Some (db', c) -> same_outside u mk db db'.
Proof.
  intros Hsc He.
  destruct s; cbn in Hsc; inversion Hsc; subst; cbn in He;
    repeat (match type of He with
            | context [match ?x with _ => _ end] => destruct x eqn:?
            end; try discriminate He);
    inversion He; subst; try apply same_outside_refl;
    (split; [reflexivity|split]; [reflexivity|split]);
    cbn [months daily_budgets set_months set_entries set_daily_budgets];
    intros; try reflexivity;
    try (rewrite lookup_insert_ne; [reflexivity|congruence]);
    try (rewrite lookup_delete_ne; [reflexivity|congruence]).
Qed.

Lemma run_same_outside u mk stmts : forall db db' results,
  Forall (fun s => scope s = (u, mk)) stmts ->
  run stmts db = Some (db', results) -> same_outside u mk db db'.
Proof.
  induction stmts as [|s rest IH]; intros db db' results Hall Hrun; cbn in Hrun.
  - inversion Hrun; subst. apply same_outside_refl.
  - apply Forall_cons in Hall as [Hs Hrest].
    destruct (exec s db) as [[db1 c]|] eqn:He; [|discriminate].
    destruct (run rest db1) as [[db2 cs]|] eqn:Hr; [|discriminate].
    inversion Hrun; subst.
    eapply same_outside_trans; [eapply exec_same_outside; eauto|eapply IH; eauto].
Qed.

(** X4. A save by user [u] for month [month_key] never changes the users,
    the categories, the month row of any other user or month, or a daily
    budget of any other user or month. *)
Theorem save_leaves_others clock now uuid db u b rq :
  validateBody b = inr rq ->
  same_outside u (month_key rq) db
    (store (handlePostMonthly clock now uuid db u (Some b))).
Proof.
  intros Hb.
  destruct (handle_cases clock now uuid db u (Some b))
    as [(m & Hr)|[(b' & rq' & _ & _ & _ & Hr)
                  |(b' & rq' & v & Heq & Hb' & He & Hv & [[_ Hr]|[Ht Hr]])]];
    rewrite Hr; try apply same_outside_refl.
  injection Heq as <-. rewrite Hb in Hb'. injection Hb' as <-.
  destruct (save_cases now db u (month_key rq) (expected_version rq) v)
    as [(cid & _ & _ & Hs)|[_ [[Hnone Hs]|(db' & res & Hbatch & Hs)]]];
    rewrite Hs; cbn [store]; try apply same_outside_refl.
  eapply run_same_outside; [apply compile_scope|exact Hbatch].
Qed.

Lemma save_leaves_others_witness :
  same_outside "u1" "2026-02" shared_db
    (store (handlePostMonthly sample_clock "2026-02-10 09:00:00" sample_uuid shared_db "u1"
              (Some grab_request))).
Proof.
  apply (save_leaves_others sample_clock "2026-02-10 09:00:00" sample_uuid shared_db "u1"
           grab_request
           {| month_key := "2026-02"; expected_version := 0; ops := JObj grab_ops |}).
  reflexivity.
Defined.

(** ** Stale versions *)

Lemma batch_stale u mk ev now v db db' results w :
  stored_version db u mk = Some w -> w <> ev ->
  batch (compile u mk ev now v) db = Some (db', results) ->
  nth 1 results 0 = 0 /\ stored_version db' u mk = Some w.
Proof.
  unfold batch, stored_version. rewrite compile_steps. cbn [run exec].
  intros Hw Hne Hrun.
  destruct (months db !! (u, mk)) as [r|] eqn:Hrow; [|discriminate].
  injection Hw as Hw. rewrite Hrow in Hrun.
  destruct (version r =? ev) eqn:Hv; [apply Z.eqb_eq in Hv; congruence|].
  destruct (run (steps u mk now v) db) as [[db3 cs]|] eqn:H2; [|discriminate].
  inversion Hrun; subst. split; [reflexivity|].
  rewrite (run_off_months _ _ _ _ (steps_off_months u mk now v) H2), Hrow. reflexivity.
Qed.

(** X5. When the month row exists and its version differs from
    [expected_version], the version is the same after the run, whatever the
    outcome, and the only success the handler can report is the no-op reply
    of a request without operations. *)
Theorem stale_version_never_succeeds clock now uuid db u b rq w :
  validateBody b = inr rq ->
  stored_version db u (month_key rq) = Some w ->
  w <> expected_version rq ->
  stored_version (store (handlePostMonthly clock now uuid db u (Some b))) u (month_key rq)
  = Some w
  /\ forall r,
       outcome (handlePostMonthly clock now uuid db u (Some b)) = Returned r ->
       status r = 200 ->
       accesses (handlePostMonthly clock now uuid db u (Some b)) = []
       /\ exists v, validateOps uuid (month_key rq) (ops rq) = inr v /\ totalOps v = 0%nat.
Proof.
  intros Hb Hw Hne.
  destruct (handle_cases clock now uuid db u (Some b))
    as [(m & Hr)|[(b' & rq' & _ & _ & _ & Hr)
                  |(b' & rq' & v & Heq & Hb' & He & Hv & [[Ht Hr]|[Ht Hr]])]];
    rewrite Hr; cbn [store outcome accesses rejected noop_reply];
    try (split; [assumption|intros r [= <-]; discriminate]).
  - injection Heq as <-. rewrite Hb in Hb'. injection Hb' as <-.
    split; [assumption|]. intros r _ _. split; [reflexivity|]. eauto.
  - injection Heq as <-. rewrite Hb in Hb'. injection Hb' as <-.
    destruct (save_cases now db u (month_key rq) (expected_version rq) v)
      as [(cid & _ & _ & Hs)|[_ [[Hnone Hs]|(db' & res & Hbatch & Hs)]]];
      rewrite Hs; cbn [store outcome accesses];
      try (split; [assumption|intros r [= <-]; discriminate]).
    destruct (batch_stale _ _ _ _ _ _ _ _ _ Hw Hne Hbatch) as [Hzero Hsame].
    split; [assumption|]. rewrite Hzero. intros r [= <-]. discriminate.
Qed.

Lemma stale_version_never_succeeds_witness :
  stored_version (store second_save) "u1" "2026-02" = Some 1
  /\ forall r,
       outcome second_save = Returned r ->
       status r = 200 ->
       accesses second_save = []
       /\ exists v, validateOps (fun k => sample_uuid (S k)) "2026-02"
                      (JObj [("create_entries", JArr [entry_json "2026-02-05" 500 []])])
                    = inr v /\ totalOps v = 0%nat.
Proof.
  apply (stale_version_never_succeeds sample_clock "2026-02-10 09:00:05"
           (fun k => sample_uuid (S k)) (store first_save) "u1" create_request
           {| month_key := "2026-02"; expected_version := 0;
              ops := JObj [("create_entries", JArr [entry_json "2026-02-05" 500 []])] |} 1).
  - reflexivity.
  - vm_compute. reflexivity.
  - discriminate.
Defined.

(** ** The stages of a committed batch *)

Lemma run_app l1 : forall l2 db db' results,
  run (l1 ++ l2) db = Some (db', results) ->
  exists mid r1 r2,
    run l1 db = Some (mid, r1) /\ run l2 mid = Some (db', r2)
    /\ results = (r1 ++ r2)%list.
Proof.
  induction l1 as [|s l1 IH]; intros l2 db db' results H; cbn [app run] in *.
  - exists db, [], results. now repeat split.
  - destruct (exec s db) as [[db1 c]|]; [|discriminate].
    destruct (run (l1 ++ l2) db1) as [[db2 cs]|] eqn:Hr; [|discriminate].
    injection H as <- <-.
    destruct (IH _ _ _ _ Hr) as (mid & r1 & r2 & H1 & H2 & ->).
    exists mid, (c :: r1), r2. rewrite H1. now repeat split.
Qed.

Lemma compile_stages u mk ev now v :
  compile u mk ev now v
  = ([InsertOrIgnoreMonth u mk now; BumpVersion now u mk ev]
     ++ inserts u mk now (createEntries v)
     ++ updates u mk now (updateEntries v)
     ++ deletions u mk (deleteEntryIds v)
     ++ budget_upserts u mk now (upsertDailyBudgets v)
     ++ budget_deletions u mk (deleteDailyBudgetDates v))%list.
Proof. reflexivity. Qed.

Lemma exec_untouched_entry id s db db' c :
  touches_entry id s = false -> exec s db = Some (db', c) ->
  entries db' !! id = entries db !! id.
Proof.
  intros Ht He.
  destruct s; cbn in Ht; cbn in He;
    repeat (match type of He with
            | context [match ?x with _ => _ end] => destruct x eqn:?
            end; try discriminate He);
    inversion He; subst; cbn [entries set_months set_entries set_daily_budgets];
    try reflexivity;
    apply String.eqb_neq in Ht;
    try (rewrite lookup_insert_ne; [reflexivity|assumption]);
    try (rewrite lookup_delete_ne; [reflexivity|assumption]).
Qed.

Lemma run_untouched_entry id stmts : forall db db' results,
  Forall (fun s => touches_entry id s = false) stmts ->
  run stmts db = Some (db', results) -> entries db' !! id = entries db !! id.
Proof.
  induction stmts as [|s rest IH]; intros db db' results Hall Hrun; cbn in Hrun.
  - now inversion Hrun.
  - apply Forall_cons in Hall as [Hs Hrest].
    destruct (exec s db) as [[db1 c]|] eqn:He; [|discriminate].
    destruct (run rest db1) as [[db2 cs]|] eqn:Hr; [|discriminate].
    inversion Hrun; subst.
    rewrite (IH _ _ _ Hrest Hr). eapply exec_untouched_entry; eauto.
Qed.

Lemma exec_untouched_budget u mk date s db db' c :
  scope s = (u, mk) -> touches_budget date s = false -> exec s db = Some (db', c) ->
  daily_budgets db' !! (u, mk, date) = daily_budgets db !! (u, mk, date).
Proof.
  intros Hsc Ht He.
  destruct s; cbn in Ht; cbn in He; cbn in Hsc;
    repeat (match type of He with
            | context [match ?x with _ => _ end] => destruct x eqn:?
            end; try discriminate He);
    inversion He; subst; cbn [daily_budgets set_months set_entries set_daily_budgets];
    try reflexivity;
    apply String.eqb_neq in Ht;
    try (rewrite lookup_insert_ne; [reflexivity|congruence]);
    try (rewrite lookup_delete_ne; [reflexivity|congruence]).
Qed.

Lemma run_untouched_budget u mk date stmts : forall db db' results,
  Forall (fun s => scope s = (u, mk)) stmts ->
  Forall (fun s => touches_budget date s = false) stmts ->
  run stmts db = Some (db', results) ->
  daily_budgets db' !! (u, mk, date) = daily_budgets db !! (u, mk, date).
Proof.
  induction stmts as [|s rest IH]; intros db db' results Hsc Hall Hrun; cbn in Hrun.
  - now inversion Hrun.
  - apply Forall_cons in Hall as [Hs Hrest]. apply Forall_cons in Hsc as [Hsc Hscs].
    destruct (exec s db) as [[db1 c]|] eqn:He; [|discriminate].
    destruct (run rest db1) as [[db2 cs]|] eqn:Hr; [|discriminate].
    inversion Hrun; subst.
    rewrite (IH _ _ _ Hscs Hrest Hr). eapply exec_untouched_budget; eauto.
Qed.

(** No statement on [daily_budgets] names an entry, and no statement on
    [entries] or [months] names a date of [daily_budgets]. *)
Lemma budget_stmts_off_entries u mk now id ups dds :
  Forall (fun s => touches_entry id s = false)
    (budget_upserts u mk now ups ++ budget_deletions u mk dds).
Proof.
  apply Forall_app; split; apply List.Forall_map, Forall_forall; reflexivity.
Qed.

Lemma Forall_map_all {A B} (P : B -> Prop) (f : A -> B) l :
  (forall a, P (f a)) -> Forall P (map f l).
Proof. intros H. apply List.Forall_map, Forall_forall. auto. Qed.

Lemma Forall_map_In {A B} (P : B -> Prop) (f : A -> B) l :
  (forall a, In a l -> P (f a)) -> Forall P (map f l).
Proof.
  intros H. apply List.Forall_map, Forall_forall. intros a Ha. apply H.
  now apply list_elem_of_In.
Qed.

(** ** Deletions *)

Lemma exec_deletion_gone u mk id' id db db' c :
  exec (DeleteEntry id' u mk) db = Some (db', c) ->
  gone u mk id db \/ id' = id -> gone u mk id db'.
Proof.
  unfold gone. cbn [exec]. intros He Hpre.
  destruct (entries db !! id') as [r|] eqn:Hrow.
  - destruct (String.eqb (e_user_id r) u && String.eqb (e_month_key r) mk) eqn:Hown.
    + injection He as <- _. cbn [entries set_entries].
      destruct (String.eqb_spec id' id) as [->|Hne].
      * left. apply lookup_delete_eq.
      * rewrite lookup_delete_ne by assumption.
        destruct Hpre as [Hpre|Heq]; [assumption|contradiction].
    + injection He as <- _. destruct Hpre as [Hpre|<-]; [assumption|].
      right. exists r. split; [assumption|].
      apply andb_false_iff in Hown as [H|H]; apply String.eqb_neq in H;
        [now left|now right].
  - injection He as <- _. destruct Hpre as [Hpre|<-]; [assumption|now left].
Qed.

Lemma run_deletions_gone u mk id ids : forall db db' results,
  run (deletions u mk ids) db = Some (db', results) ->
  gone u mk id db \/ In id ids -> gone u mk id db'.
Proof.
  induction ids as [|i ids IH]; intros db db' results Hrun Hpre;
    cbn [deletions map run] in Hrun.
  - injection Hrun as <- _. destruct Hpre as [?|[]]. assumption.
  - destruct (exec (DeleteEntry i u mk) db) as [[db1 c]|] eqn:He; [|discriminate].
    fold (deletions u mk ids) in Hrun.
    destruct (run (deletions u mk ids) db1) as [[db2 cs]|] eqn:Hr; [|discriminate].
    injection Hrun as <- _. eapply IH; [exact Hr|].
    destruct Hpre as [Hpre|[->|Hin]].
    + left. eapply exec_deletion_gone; eauto.
    + left. eapply exec_deletion_gone; eauto.
    + now right.
Qed.

Lemma gone_same_entries u mk id db db' :
  entries db' !! id = entries db !! id -> gone u mk id db -> gone u mk id db'.
Proof. unfold gone. intros ->. tauto. Qed.

Lemma run_budget_deletions_none u mk d ds : forall db db' results,
  run (budget_deletions u mk ds) db = Some (db', results) ->
  daily_budgets db !! (u, mk, d) = None \/ In d ds ->
  daily_budgets db' !! (u, mk, d) = None.
Proof.
  induction ds as [|d0 ds IH]; intros db db' results Hrun Hpre;
    cbn [budget_deletions map run] in Hrun.
  - injection Hrun as <- _. destruct Hpre as [?|[]]. assumption.
  - fold (budget_deletions u mk ds) in Hrun.
    destruct (exec (DeleteDailyBudget u mk d0) db) as [[db1 c]|] eqn:He; [|discriminate].
    destruct (run (budget_deletions u mk ds) db1) as [[db2 cs]|] eqn:Hr; [|discriminate].
    injection Hrun as <- _. eapply IH; [exact Hr|].
    cbn [exec] in He.
    destruct (String.eqb_spec d0 d) as [->|Hne].
    + left. destruct (daily_budgets db !! (u, mk, d)) eqn:Hrow; injection He as <- _;
        cbn [daily_budgets set_daily_budgets]; [apply lookup_delete_eq|assumption].
    + destruct Hpre as [Hpre|[Heq|Hin]]; [left|contradiction|now right].
      destruct (daily_budgets db !! (u, mk, d0)); injection He as <- _;
        cbn [daily_budgets set_daily_budgets]; [|assumption].
      rewrite lookup_delete_ne by congruence. assumption.
Qed.

(** ** Insertions and upserts *)

Lemma exec_insert id u mk date type amount cat memo pm created updated db db' c :
  exec (InsertEntry id u mk date type amount cat memo pm created updated) db
  = Some (db', c) ->
  entries db !! id = None
  /\ entries db' !! id
     = Some {| e_user_id := u; e_month_key := mk; e_date := date; e_type := type;
               e_amount := amount; e_category_id := cat; e_memo := memo;
               e_payment_method := pm; e_created_at := created;
               e_updated_at := updated |}
  /\ forall id', id' <> id -> entries db' !! id' = entries db !! id'.
Proof.
  cbn [exec]. intros He.
  destruct (entries db !! id) eqn:Hrow; [discriminate|].
  destruct (_ && _); [|discriminate]. injection He as <- _.
  cbn [entries set_entries]. split; [reflexivity|split].
  - apply lookup_insert_eq.
  - intros id' Hne. now rewrite lookup_insert_ne.
Qed.

Lemma run_inserts u mk now cs : forall db db' results,
  run (inserts u mk now cs) db = Some (db', results) ->
  NoDup (map ue_entry_id cs)
  /\ (forall c, In c cs -> entries db !! ue_entry_id c = None)
  /\ (forall c, In c cs -> entries db' !! ue_entry_id c = Some (inserted_row u mk now c)).
Proof.
  induction cs as [|c0 cs IH]; intros db db' results Hrun; cbn [inserts map run] in Hrun.
  - split; [constructor|]. split; intros c [].
  - fold (inserts u mk now cs) in Hrun.
    match type of Hrun with
    | context [exec ?s db] => destruct (exec s db) as [[db1 c1]|] eqn:He; [|discriminate]
    end.
    destruct (run (inserts u mk now cs) db1) as [[db2 rs]|] eqn:Hr; [|discriminate].
    injection Hrun as <- _.
    apply exec_insert in He as (Hfresh & Hnew & Hother).
    destruct (IH _ _ _ Hr) as (Hnd & Hfree & Hstored).
    assert (Hdiff : forall c, In c cs -> ue_entry_id c <> ue_entry_id c0).
    { intros c Hc Heq. specialize (Hfree c Hc). rewrite Heq, Hnew in Hfree. discriminate. }
    split; [|split].
    + cbn [map]. apply NoDup_cons. split; [|assumption].
      intros Hin. apply list_elem_of_In, in_map_iff in Hin as (c & Heq & Hc).
      now apply (Hdiff c Hc).
    + intros c [<-|Hc]; [assumption|].
      rewrite <- Hother by now apply Hdiff. now apply Hfree.
    + intros c [<-|Hc]; [|now apply Hstored].
      rewrite (fun H => run_untouched_entry (ue_entry_id c0) _ _ _ _ H Hr); [exact Hnew|].
      apply Forall_map_In. intros c Hc. cbn. apply String.eqb_neq. now apply Hdiff.
Qed.

Lemma exec_upsert u mk d o created updated db db' c :
  exec (UpsertDailyBudgetRow u mk d o created updated) db = Some (db', c) ->
  exists row, daily_budgets db' !! (u, mk, d) = Some row
              /\ d_override row = o /\ d_updated_at row = updated.
Proof.
  cbn [exec]. intros He.
  destruct (daily_budgets db !! (u, mk, d)) as [r|].
  - injection He as <- _. cbn [daily_budgets set_daily_budgets].
    rewrite lookup_insert_eq. eauto.
  - destruct (_ && _); [|discriminate]. injection He as <- _.
    cbn [daily_budgets set_daily_budgets]. rewrite lookup_insert_eq. eauto.
Qed.

Lemma inserts_scope u mk now cs : Forall (fun s => scope s = (u, mk)) (inserts u mk now cs).
Proof. apply Forall_map_all. reflexivity. Qed.

Lemma updates_scope u mk now us : Forall (fun s => scope s = (u, mk)) (updates u mk now us).
Proof. apply Forall_map_all. reflexivity. Qed.

Lemma deletions_scope u mk ids : Forall (fun s => scope s = (u, mk)) (deletions u mk ids).
Proof. apply Forall_map_all. reflexivity. Qed.

Lemma budget_upserts_scope u mk now ds :
  Forall (fun s => scope s = (u, mk)) (budget_upserts u mk now ds).
Proof. apply Forall_map_all. reflexivity. Qed.

Lemma budget_deletions_scope u mk ds :
  Forall (fun s => scope s = (u, mk)) (budget_deletions u mk ds).
Proof. apply Forall_map_all. reflexivity. Qed.

(** The tables after each of the six stages of a committed batch. *)
Lemma committed_stages u mk ev now v db db' results :
  batch (compile u mk ev now v) db = Some (db', results) ->
  exists d0 d1 d2 d3 d4 r0 r1 r2 r3 r4 r5,
    run [InsertOrIgnoreMonth u mk now; BumpVersion now u mk ev] db = Some (d0, r0)
    /\ run (inserts u mk now (createEntries v)) d0 = Some (d1, r1)
    /\ run (updates u mk now (updateEntries v)) d1 = Some (d2, r2)
    /\ run (deletions u mk (deleteEntryIds v)) d2 = Some (d3, r3)
    /\ run (budget_upserts u mk now (upsertDailyBudgets v)) d3 = Some (d4, r4)
    /\ run (budget_deletions u mk (deleteDailyBudgetDates v)) d4 = Some (db', r5).
Proof.
  unfold batch. rewrite compile_stages. intros H.
  apply run_app in H as (d0 & r0 & q0 & H0 & H & _).
  apply run_app in H as (d1 & r1 & q1 & H1 & H & _).
  apply run_app in H as (d2 & r2 & q2 & H2 & H & _).
  apply run_app in H as (d3 & r3 & q3 & H3 & H & _).
  apply run_app in H as (d4 & r4 & r5 & H4 & H5 & _).
  exists d0, d1, d2, d3, d4, r0, r1, r2, r3, r4, r5. now repeat split.
Qed.

(** A batch among the accesses with its results has committed, and the
    tables of the run are its tables. *)
Lemma committed clock now uuid db u b rq v stmts results :
  validateBody b = inr rq ->
  validateOps uuid (month_key rq) (ops rq) = inr v ->
  In (Batch stmts (Some results))
     (accesses (handlePostMonthly clock now uuid db u (Some b))) ->
  batch (compile u (month_key rq) (expected_version rq) now v) db
  = Some (store (handlePostMonthly clock now uuid db u (Some b)), results).
Proof.
  intros Hb Hv Hin.
  destruct (submitted_batch _ _ _ _ _ _ _ _ Hin)
    as (b' & rq' & v' & Heq & Hb' & _ & Hv' & _ & -> & [(Hnone & _)|(db' & res & Hres & Hbatch & Hr)]);
    [discriminate|].
  injection Heq as <-. rewrite Hb in Hb'. injection Hb' as <-.
  rewrite Hv in Hv'. injection Hv' as <-. injection Hres as ->.
  rewrite Hr. exact Hbatch.
Qed.

(** ** Applied counts and changed rows *)

Lemma run_length stmts : forall db db' results,
  run stmts db = Some (db', results) -> length results = length stmts.
Proof.
  induction stmts as [|s rest IH]; intros db db' results H; cbn [run] in H.
  - now injection H as <- <-.
  - destruct (exec s db) as [[db1 c]|]; [|discriminate].
    destruct (run rest db1) as [[db2 cs]|] eqn:Hr; [|discriminate].
    injection H as <- <-. cbn. f_equal. eauto.
Qed.

(** An UPDATE or a DELETE whose id names no row changes no row. *)
Lemma run_updates_absent u mk now us db :
  Forall (fun e => entries db !! ue_entry_id e = None) us ->
  run (updates u mk now us) db = Some (db, replicate (length us) 0).
Proof.
  induction us as [|e us IH]; intros Hall; [reflexivity|].
  apply Forall_cons in Hall as [He Hall].
  change (updates u mk now (e :: us))
    with (UpdateEntryRow (ue_date e) (ue_type e) (ue_amount e) (ue_category_id e)
            (ue_memo e) (ue_payment_method e) now (ue_entry_id e) u mk
          :: updates u mk now us).
  cbn [run exec]. rewrite He, (IH Hall). reflexivity.
Qed.

Lemma run_deletions_absent u mk ids db :
  Forall (fun id => entries db !! id = None) ids ->
  run (deletions u mk ids) db = Some (db, replicate (length ids) 0).
Proof.
  induction ids as [|id ids IH]; intros Hall; [reflexivity|].
  apply Forall_cons in Hall as [He Hall].
  change (deletions u mk (id :: ids)) with (DeleteEntry id u mk :: deletions u mk ids).
  cbn [run exec]. rewrite He, (IH Hall). reflexivity.
Qed.

Lemma Forall2_Forall_r {A B} (P : A -> B -> Prop) (Q : A -> Prop) (R : B -> Prop) l1 l2 :
  Forall2 P l1 l2 -> Forall Q l1 -> (forall a b, P a b -> Q a -> R b) -> Forall R l2.
Proof.
  intros H. induction H; intros HQ HR; constructor; apply Forall_cons in HQ as [? ?]; eauto.
Qed.

(** The ids of the validated updates and deletions are those of the
    request's elements. *)
Lemma validated_targets uuid mk o v (Q : string -> Prop) :
  validateOps uuid mk o = inr v ->
  Forall (fun e => Q (the_string (prop e "entry_id"))) (elements o "update_entries") ->
  Forall (fun i => Q (the_string (Some i))) (elements o "delete_entry_ids") ->
  Forall (fun e => Q (ue_entry_id e)) (updateEntries v) /\ Forall Q (deleteEntryIds v).
Proof.
  intros Hv HU HD. apply validateOps_inr in Hv as (_ & Hu & Hi & _). split.
  - apply op_list_elements in Hu as [[_ ->]|Hu]; [constructor|].
    apply update_loop_inr in Hu. eapply Forall2_Forall_r; [exact Hu|exact HU|].
    intros e c Hec He. apply validateUpdateEntry_inr in Hec as (_ & base & _ & ->).
    exact He.
  - apply op_list_elements in Hi as [[_ ->]|Hi]; [constructor|].
    apply delete_ids_loop_inr in Hi. eapply Forall2_Forall_r; [exact Hi|exact HD|].
    intros i c [-> _] He. exact He.
Qed.

(** C9. In a success response each of the five applied counts is the number
    of elements the request lists for the operation, which is the length of
    the validated list, whatever the tables hold: every element of
    [update_entries] and of [delete_entry_ids] counts for one; when the
    request creates nothing and no id it lists for update or deletion names a
    row, every UPDATE and DELETE of the batch has changed no row, and the
    counts are still the numbers of listed elements; and on any other
    database, at any other time, on which the same request succeeds, the
    counts are the same. *)
Theorem applied_counts_are_lengths clock now uuid db u b resp :
  body_of (outcome (handlePostMonthly clock now uuid db u (Some b))) = Some (OkBody resp) ->
  exists rq v,
    validateBody b = inr rq
    /\ validateOps uuid (month_key rq) (ops rq) = inr v
    /\ applied resp
       = {| created_entries := listed (ops rq) "create_entries";
            updated_entries := listed (ops rq) "update_entries";
            deleted_entries := listed (ops rq) "delete_entry_ids";
            upserted_daily_budgets := listed (ops rq) "upsert_daily_budgets";
            deleted_daily_budgets := listed (ops rq) "delete_daily_budget_dates" |}
    /\ created_entries (applied resp) = length (createEntries v)
    /\ updated_entries (applied resp) = length (updateEntries v)
    /\ deleted_entries (applied resp) = length (deleteEntryIds v)
    /\ upserted_daily_budgets (applied resp) = length (upsertDailyBudgets v)
    /\ deleted_daily_budgets (applied resp) = length (deleteDailyBudgetDates v)
    /\ (forall pre e post,
           elements (ops rq) "update_entries" = (pre ++ e :: post)%list ->
           updated_entries (applied resp) = S (length pre + length post))
    /\ (forall pre i post,
           elements (ops rq) "delete_entry_ids" = (pre ++ i :: post)%list ->
           deleted_entries (applied resp) = S (length pre + length post))
    /\ (forall stmts results,
           In (Batch stmts (Some results))
              (accesses (handlePostMonthly clock now uuid db u (Some b))) ->
           listed (ops rq) "create_entries" = 0%nat ->
           Forall (fun e => entries db !! the_string (prop e "entry_id") = None)
             (elements (ops rq) "update_entries") ->
           Forall (fun i => entries db !! the_string (Some i) = None)
             (elements (ops rq) "delete_entry_ids") ->
           take (listed (ops rq) "update_entries" + listed (ops rq) "delete_entry_ids")
             (drop 2 results)
           = replicate
               (listed (ops rq) "update_entries" + listed (ops rq) "delete_entry_ids") 0)
    /\ forall clock2 now2 uuid2 db2 u2 resp2,
         body_of (outcome (handlePostMonthly clock2 now2 uuid2 db2 u2 (Some b)))
         = Some (OkBody resp2) ->
         applied resp2 = applied resp.
Proof.
  intros Hok.
  destruct (handle_cases clock now uuid db u (Some b))
    as [(m & Hr)|[(b' & rq & _ & _ & _ & Hr)|(b' & rq & v & Heq & Hb & He & Hv & _)]].
  { rewrite Hr in Hok. discriminate. }
  { rewrite Hr in Hok. discriminate. }
  inversion Heq; subst b'. exists rq, v.
  pose proof (success_counts _ _ _ _ _ _ _ _ _ Hb Hv Hok) as Hc.
  pose proof (counts_listed _ _ _ _ Hv) as Hl.
  destruct (validateOps_listed _ _ _ _ Hv) as (Lc & Lu & Li & Lp & Ld).
  rewrite Hc. do 2 (split; [assumption|]).
  split; [assumption|].
  do 5 (split; [reflexivity|]).
  split; [|split; [|split]].
  - intros pre e post Hsplit. cbn [counts updated_entries]. rewrite Lu. unfold listed.
    rewrite Hsplit, length_app. cbn [length]. lia.
  - intros pre i post Hsplit. cbn [counts deleted_entries]. rewrite Li. unfold listed.
    rewrite Hsplit, length_app. cbn [length]. lia.
  - intros stmts results Hin Hnone HU HD.
    pose proof (committed _ _ _ _ _ _ _ _ _ _ Hb Hv Hin) as Hrun.
    unfold batch in Hrun. rewrite compile_stages in Hrun.
    assert (createEntries v = []) as Hcs
      by (apply length_zero_iff_nil; now rewrite Lc).
    rewrite Hcs in Hrun. cbn [inserts map] in Hrun.
    apply run_app in Hrun as (d0 & r0 & q0 & H0 & Hrun & ->).
    cbn [app] in Hrun.
    apply run_app in Hrun as (d2 & r2 & q2 & H2 & Hrun & ->).
    apply run_app in Hrun as (d3 & r3 & q3 & H3 & _ & ->).
    assert (Hsame : forall id, entries d0 !! id = entries db !! id).
    { intros id. apply (fun H => run_untouched_entry id _ _ _ _ H H0). repeat constructor. }
    destruct (validated_targets _ _ _ _ (fun id => entries d0 !! id = None) Hv)
      as [HU' HD'].
    { eapply Forall_impl; [exact HU|]. intros e. cbn. now rewrite Hsame. }
    { eapply Forall_impl; [exact HD|]. intros e. cbn. now rewrite Hsame. }
    rewrite (run_updates_absent _ _ _ _ _ HU') in H2. injection H2 as <- <-.
    rewrite (run_deletions_absent _ _ _ _ HD') in H3. injection H3 as <- <-.
    apply run_length in H0. cbn [length] in H0.
    destruct r0 as [|c0 [|c1 [|c2 r0]]]; try discriminate H0.
    cbn [app drop]. rewrite <- Lu, <- Li, app_assoc, <- replicate_add.
    apply take_app_length'. symmetry. apply length_replicate.
  - intros clock2 now2 uuid2 db2 u2 resp2 Hok2.
    destruct (handle_cases clock2 now2 uuid2 db2 u2 (Some b))
      as [(m & Hr)|[(b' & rq' & _ & _ & _ & Hr)|(b' & rq' & v' & Heq' & Hb' & _ & Hv' & _)]].
    { rewrite Hr in Hok2. discriminate. }
    { rewrite Hr in Hok2. discriminate. }
    injection Heq' as <-. rewrite Hb in Hb'. injection Hb' as <-.
    rewrite (success_counts _ _ _ _ _ _ _ _ _ Hb Hv' Hok2).
    rewrite (counts_listed _ _ _ _ Hv'). now rewrite Hl.
Qed.

Lemma applied_counts_are_lengths_witness :
  exists rq v,
    validateBody missing_request = inr rq
    /\ validateOps sample_uuid (month_key rq) (ops rq) = inr v
    /\ {| created_entries := 0; updated_entries := 1; deleted_entries := 1;
          upserted_daily_budgets := 0; deleted_daily_budgets := 0 |}
       = {| created_entries := listed (ops rq) "create_entries";
            updated_entries := listed (ops rq) "update_entries";
            deleted_entries := listed (ops rq) "delete_entry_ids";
            upserted_daily_budgets := listed (ops rq) "upsert_daily_budgets";
            deleted_daily_budgets := listed (ops rq) "delete_daily_budget_dates" |}
    /\ 0%nat = length (createEntries v)
    /\ 1%nat = length (updateEntries v)
    /\ 1%nat = length (deleteEntryIds v)
    /\ 0%nat = length (upsertDailyBudgets v)
    /\ 0%nat = length (deleteDailyBudgetDates v)
    /\ (forall pre e post,
           elements (ops rq) "update_entries" = (pre ++ e :: post)%list ->
           1%nat = S (length pre + length post))
    /\ (forall pre i post,
           elements (ops rq) "delete_entry_ids" = (pre ++ i :: post)%list ->
           1%nat = S (length pre + length post))
    /\ (forall stmts results,
           In (Batch stmts (Some results))
              (accesses (handlePostMonthly sample_clock "2026-02-10 09:00:00" sample_uuid
                           sample_db "u1" (Some missing_request))) ->
           listed (ops rq) "create_entries" = 0%nat ->
           Forall (fun e => entries sample_db !! the_string (prop e "entry_id") = None)
             (elements (ops rq) "update_entries") ->
           Forall (fun i => entries sample_db !! the_string (Some i) = None)
             (elements (ops rq) "delete_entry_ids") ->
           take (listed (ops rq) "update_entries" + listed (ops rq) "delete_entry_ids")
             (drop 2 results)
           = replicate
               (listed (ops rq) "update_entries" + listed (ops rq) "delete_entry_ids") 0)
    /\ forall clock2 now2 uuid2 db2 u2 resp2,
         body_of (outcome (handlePostMonthly clock2 now2 uuid2 db2 u2 (Some missing_request)))
         = Some (OkBody resp2) ->
         applied resp2
         = {| created_entries := 0; updated_entries := 1; deleted_entries := 1;
              upserted_daily_budgets := 0; deleted_daily_budgets := 0 |}.
Proof.
  apply (applied_counts_are_lengths sample_clock "2026-02-10 09:00:00" sample_uuid
           sample_db "u1" missing_request
           {| sr_month_key := "2026-02"; new_version := 1;
              applied := {| created_entries := 0; updated_entries := 1;
                            deleted_entries := 1; upserted_daily_budgets := 0;
                            deleted_daily_budgets := 0 |} |}).
  vm_compute. reflexivity.
Defined.

(** The update and the deletion of an id that no row has change no row,
    and each counts as one. *)
Example missing_rows_count_one :
  entries sample_db !! "no-such-entry" = None
  /\ accesses (handlePostMonthly sample_clock "2026-02-10 09:00:00" sample_uuid sample_db
                 "u1" (Some missing_request))
     = [CategoryLookup "u1";
        Batch [InsertOrIgnoreMonth "u1" "2026-02" "2026-02-10 09:00:00";
               BumpVersion "2026-02-10 09:00:00" "u1" "2026-02" 0;
               UpdateEntryRow "2026-02-09" "expense" 1 "cat-001" None None
                 "2026-02-10 09:00:00" "no-such-entry" "u1" "2026-02";
               DeleteEntry "no-such-entry" "u1" "2026-02"]
          (Some [1; 1; 0; 0])]
  /\ body_of (outcome (handlePostMonthly sample_clock "2026-02-10 09:00:00" sample_uuid
                         sample_db "u1" (Some missing_request)))
     = Some (OkBody {| sr_month_key := "2026-02"; new_version := 1;
                       applied := {| created_entries := 0; updated_entries := 1;
                                     deleted_entries := 1; upserted_daily_budgets := 0;
                                     deleted_daily_budgets := 0 |} |}).
Proof. repeat split; vm_compute; reflexivity. Qed.

(** The deletion of an id that no row has changes no row and counts as one
    deleted entry. *)
Example delete_missing_counts_one :
  entries sample_db !! "no-such-entry" = None
  /\ accesses (handlePostMonthly sample_clock "2026-02-10 09:00:00" sample_uuid sample_db
                 "u1" (Some delete_missing_request))
     = [Batch [InsertOrIgnoreMonth "u1" "2026-02" "2026-02-10 09:00:00";
               BumpVersion "2026-02-10 09:00:00" "u1" "2026-02" 0;
               DeleteEntry "no-such-entry" "u1" "2026-02"]
          (Some [1; 1; 0])]
  /\ body_of (outcome (handlePostMonthly sample_clock "2026-02-10 09:00:00" sample_uuid
                         sample_db "u1" (Some delete_missing_request)))
     = Some (OkBody {| sr_month_key := "2026-02"; new_version := 1;
                       applied := {| created_entries := 0; updated_entries := 0;
                                     deleted_entries := 1; upserted_daily_budgets := 0;
                                     deleted_daily_budgets := 0 |} |}).
Proof. repeat split; vm_compute; reflexivity. Qed.

(** ** What a committed batch leaves in the tables *)

Lemma after_deletions_entries clock now uuid db u b (rq : SaveRequest) (v : Ops) d3 r4 d4 r5 id :
  run (budget_upserts u (month_key rq) now (upsertDailyBudgets v)) d3 = Some (d4, r4) ->
  run (budget_deletions u (month_key rq) (deleteDailyBudgetDates v)) d4 = Some ((store (handlePostMonthly clock now uuid db u (Some b))), r5) ->
  entries (store (handlePostMonthly clock now uuid db u (Some b))) !! id = entries d3 !! id.
Proof.
  intros H4 H5.
  rewrite (fun H => run_untouched_entry id _ _ _ _ H H5)
    by (apply Forall_map_all; reflexivity).
  apply (fun H => run_untouched_entry id _ _ _ _ H H4).
  apply Forall_map_all. reflexivity.
Qed.

(** X6. After a batch that committed, no id of [delete_entry_ids] names an
    entry of the request's user and month any more: the id has no row, or its
    row belongs to another user or month. *)
Theorem deleted_entries_gone clock now uuid db u b rq v stmts results id :
  validateBody b = inr rq ->
  validateOps uuid (month_key rq) (ops rq) = inr v ->
  In (Batch stmts (Some results))
     (accesses (handlePostMonthly clock now uuid db u (Some b))) ->
  In id (deleteEntryIds v) -> gone u (month_key rq) id (store (handlePostMonthly clock now uuid db u (Some b))).
Proof.
  intros Hbody Hops Hcommitted Hid.
  destruct (committed_stages _ _ _ _ _ _ _ _ (committed _ _ _ _ _ _ _ _ _ _ Hbody Hops Hcommitted))
    as (d0 & d1 & d2 & d3 & d4 & r0 & r1 & r2 & r3 & r4 & r5 & _ & _ & _ & H3 & H4 & H5).
  eapply gone_same_entries; [exact (after_deletions_entries _ _ _ _ _ _ _ _ _ _ _ _ id H4 H5)|].
  eapply run_deletions_gone; [exact H3|now right].
Qed.

(** X7. After a batch that committed, no date of
    [delete_daily_budget_dates] has a daily budget for the request's user and
    month, also when the same request upserts that date: the deletions run
    last. *)
Theorem deleted_budgets_gone clock now uuid db u b rq v stmts results d :
  validateBody b = inr rq ->
  validateOps uuid (month_key rq) (ops rq) = inr v ->
  In (Batch stmts (Some results))
     (accesses (handlePostMonthly clock now uuid db u (Some b))) ->
  In d (deleteDailyBudgetDates v) -> daily_budgets (store (handlePostMonthly clock now uuid db u (Some b))) !! (u, month_key rq, d) = None.
Proof.
  intros Hbody Hops Hcommitted Hd.
  destruct (committed_stages _ _ _ _ _ _ _ _ (committed _ _ _ _ _ _ _ _ _ _ Hbody Hops Hcommitted))
    as (d0 & d1 & d2 & d3 & d4 & r0 & r1 & r2 & r3 & r4 & r5 & _ & _ & _ & _ & _ & H5).
  eapply run_budget_deletions_none; [exact H5|now right].
Qed.

(** X8. After a batch that committed, a date that the request upserts and
    does not delete has a daily budget whose override is that of the last
    upsert of the date in the request, stamped with the time of the batch. *)
Theorem upsert_round_trip clock now uuid db u b rq v stmts results l1 p l2 :
  validateBody b = inr rq ->
  validateOps uuid (month_key rq) (ops rq) = inr v ->
  In (Batch stmts (Some results))
     (accesses (handlePostMonthly clock now uuid db u (Some b))) ->
  upsertDailyBudgets v = (l1 ++ p :: l2)%list ->
  Forall (fun q => udb_date q <> udb_date p) l2 ->
  ~ In (udb_date p) (deleteDailyBudgetDates v) ->
  exists row,
    daily_budgets (store (handlePostMonthly clock now uuid db u (Some b))) !! (u, month_key rq, udb_date p) = Some row
    /\ d_override row = daily_budget_override p
    /\ d_updated_at row = now.
Proof.
  intros Hbody Hops Hcommitted Hsplit Hlast Hkept.
  destruct (committed_stages _ _ _ _ _ _ _ _ (committed _ _ _ _ _ _ _ _ _ _ Hbody Hops Hcommitted))
    as (d0 & d1 & d2 & d3 & d4 & r0 & r1 & r2 & r3 & r4 & r5 & _ & _ & _ & _ & H4 & H5).
  rewrite Hsplit in H4. unfold budget_upserts in H4. rewrite map_app in H4.
  apply run_app in H4 as (m1 & q1 & q2 & _ & H4 & _). cbn [map run] in H4.
  match type of H4 with
  | context [exec ?s m1] => destruct (exec s m1) as [[m2 c]|] eqn:He; [|discriminate]
  end.
  match type of H4 with
  | context [run ?l m2] => destruct (run l m2) as [[m3 cs]|] eqn:Hr; [|discriminate]
  end.
  injection H4 as <- _.
  apply exec_upsert in He as (row & Hrow & Ho & Hu).
  exists row. split; [|now split].
  rewrite (fun Hs H => run_untouched_budget u (month_key rq) (udb_date p) _ _ _ _ Hs H H5).
  - rewrite (fun Hs H => run_untouched_budget u (month_key rq) (udb_date p) _ _ _ _ Hs H Hr);
      [exact Hrow|apply Forall_map_all; reflexivity|].
    apply Forall_map_In. intros q Hq. cbn. apply String.eqb_neq.
    rewrite Forall_forall in Hlast. apply Hlast. now apply list_elem_of_In.
  - apply budget_deletions_scope.
  - apply Forall_map_In. intros d Hd. cbn. apply String.eqb_neq. intros ->. now apply Hkept.
Qed.

(** X9. After a batch that committed, a created entry whose id is neither
    updated nor deleted by the same request is stored under its id with the
    request's user and month, the validated fields and the time of the batch
    as both timestamps. *)
Theorem created_rows_stored clock now uuid db u b rq v stmts results c :
  validateBody b = inr rq ->
  validateOps uuid (month_key rq) (ops rq) = inr v ->
  In (Batch stmts (Some results))
     (accesses (handlePostMonthly clock now uuid db u (Some b))) ->
  In c (createEntries v) ->
  ~ In (ue_entry_id c) (map ue_entry_id (updateEntries v)) ->
  ~ In (ue_entry_id c) (deleteEntryIds v) ->
  entries (store (handlePostMonthly clock now uuid db u (Some b))) !! ue_entry_id c = Some (inserted_row u (month_key rq) now c).
Proof.
  intros Hbody Hops Hcommitted Hc Hnu Hnd.
  destruct (committed_stages _ _ _ _ _ _ _ _ (committed _ _ _ _ _ _ _ _ _ _ Hbody Hops Hcommitted))
    as (d0 & d1 & d2 & d3 & d4 & r0 & r1 & r2 & r3 & r4 & r5 & _ & H1 & H2 & H3 & H4 & H5).
  rewrite (after_deletions_entries _ _ _ _ _ _ _ _ _ _ _ _ _ H4 H5).
  rewrite (fun H => run_untouched_entry (ue_entry_id c) _ _ _ _ H H3).
  2:{ apply Forall_map_In. intros id Hid. cbn. apply String.eqb_neq. intros ->.
      now apply Hnd. }
  rewrite (fun H => run_untouched_entry (ue_entry_id c) _ _ _ _ H H2).
  2:{ apply Forall_map_In. intros e He. cbn. apply String.eqb_neq. intros Heq.
      apply Hnu, in_map_iff. eauto. }
  now apply (run_inserts _ _ _ _ _ _ _ H1).
Qed.

(** X10. A batch commits only when the ids of the created entries are
    pairwise distinct and none of them was the id of a row before, of any user
    or month: an INSERT never replaces a row. *)
Theorem commit_needs_fresh_ids clock now uuid db u b rq v stmts results :
  validateBody b = inr rq ->
  validateOps uuid (month_key rq) (ops rq) = inr v ->
  In (Batch stmts (Some results))
     (accesses (handlePostMonthly clock now uuid db u (Some b))) ->
  NoDup (map ue_entry_id (createEntries v))
  /\ forall c, In c (createEntries v) -> entries db !! ue_entry_id c = None.
Proof.
  intros Hbody Hops Hcommitted.
  destruct (committed_stages _ _ _ _ _ _ _ _ (committed _ _ _ _ _ _ _ _ _ _ Hbody Hops Hcommitted))
    as (d0 & d1 & d2 & d3 & d4 & r0 & r1 & r2 & r3 & r4 & r5 & H0 & H1 & _).
  destruct (run_inserts _ _ _ _ _ _ _ H1) as (Hnd & Hfree & _).
  split; [assumption|]. intros c Hc.
  rewrite <- (fun H => run_untouched_entry (ue_entry_id c) _ _ _ _ H H0).
  - now apply Hfree.
  - repeat constructor.
Qed.

Lemma deleted_entries_gone_witness : gone "u1" "2026-02" "e-3" (store mixed_save).
Proof.
  apply (deleted_entries_gone sample_clock "2026-02-10 09:00:00" sample_uuid shared_db "u1"
           mixed_request
           {| month_key := "2026-02"; expected_version := 0; ops := JObj mixed_ops |}
           mixed_validated mixed_batch [0; 1; 1; 1; 1; 1; 1; 1]).
  - reflexivity.
  - vm_compute. reflexivity.
  - vm_compute. right. left. reflexivity.
  - left. reflexivity.
Defined.

Lemma deleted_budgets_gone_witness :
  daily_budgets (store mixed_save) !! ("u1", "2026-02", "2026-02-12") = None.
Proof.
  apply (deleted_budgets_gone sample_clock "2026-02-10 09:00:00" sample_uuid shared_db "u1"
           mixed_request
           {| month_key := "2026-02"; expected_version := 0; ops := JObj mixed_ops |}
           mixed_validated mixed_batch [0; 1; 1; 1; 1; 1; 1; 1]).
  - reflexivity.
  - vm_compute. reflexivity.
  - vm_compute. right. left. reflexivity.
  - left. reflexivity.
Defined.

Lemma upsert_round_trip_witness :
  exists row,
    daily_budgets (store mixed_save) !! ("u1", "2026-02", "2026-02-11") = Some row
    /\ d_override row = 1200
    /\ d_updated_at row = "2026-02-10 09:00:00".
Proof.
  apply (upsert_round_trip sample_clock "2026-02-10 09:00:00" sample_uuid shared_db "u1"
           mixed_request
           {| month_key := "2026-02"; expected_version := 0; ops := JObj mixed_ops |}
           mixed_validated mixed_batch [0; 1; 1; 1; 1; 1; 1; 1])
    with (l1 := [{| udb_date := "2026-02-11"; daily_budget_override := 1000 |};
                 {| udb_date := "2026-02-12"; daily_budget_override := 700 |}])
         (p := {| udb_date := "2026-02-11"; daily_budget_override := 1200 |})
         (l2 := []).
  - reflexivity.
  - vm_compute. reflexivity.
  - vm_compute. right. left. reflexivity.
  - reflexivity.
  - constructor.
  - intros [H|[]]. discriminate.
Defined.

Lemma created_rows_stored_witness :
  entries (store mixed_save) !! "uuid-0"
  = Some {| e_user_id := "u1"; e_month_key := "2026-02"; e_date := "2026-02-05";
            e_type := "expense"; e_amount := 500; e_category_id := "cat-001";
            e_memo := Some "lunch"; e_payment_method := None;
            e_created_at := "2026-02-10 09:00:00";
            e_updated_at := "2026-02-10 09:00:00" |}.
Proof.
  apply (created_rows_stored sample_clock "2026-02-10 09:00:00" sample_uuid shared_db "u1"
           mixed_request
           {| month_key := "2026-02"; expected_version := 0; ops := JObj mixed_ops |}
           mixed_validated mixed_batch [0; 1; 1; 1; 1; 1; 1; 1])
    with (c := {| ue_entry_id := "uuid-0"; ue_date := "2026-02-05"; ue_type := "expense";
                  ue_amount := 500; ue_category_id := "cat-001"; ue_memo := Some "lunch";
                  ue_payment_method := None |}).
  - reflexivity.
  - vm_compute. reflexivity.
  - vm_compute. right. left. reflexivity.
  - left. reflexivity.
  - intros [].
  - intros [H|[]]. discriminate.
Defined.

Lemma commit_needs_fresh_ids_witness :
  NoDup (map ue_entry_id (createEntries mixed_validated))
  /\ forall c, In c (createEntries mixed_validated) ->
               entries shared_db !! ue_entry_id c = None.
Proof.
  apply (commit_needs_fresh_ids sample_clock "2026-02-10 09:00:00" sample_uuid shared_db "u1"
           mixed_request
           {| month_key := "2026-02"; expected_version := 0; ops := JObj mixed_ops |}
           mixed_validated mixed_batch [0; 1; 1; 1; 1; 1; 1; 1]).
  - reflexivity.
  - vm_compute. reflexivity.
  - vm_compute. right. left. reflexivity.
Defined.

(** Two creates with the same id: the second INSERT fails, the exception
    escapes and nothing is stored. *)
Example twin_creates_throw :
  outcome (handlePostMonthly sample_clock "2026-02-10 09:00:00" sample_uuid sample_db "u1"
             (Some twin_request)) = Thrown
  /\ store (handlePostMonthly sample_clock "2026-02-10 09:00:00" sample_uuid sample_db "u1"
              (Some twin_request)) = sample_db.
Proof. split; vm_compute; reflexivity. Qed.

(** ** Validated operations *)

Lemma validated_entry_ok e mk base eid :
  validateCreateEntry e mk = inr base -> entry_ok (with_entry_id base eid).
Proof.
  intros H. apply validateCreateEntry_inr in H as (_ & _ & _ & _ & Ht & Ha & Hc & Hp & ->).
  unfold entry_ok.
  cbn [with_entry_id ue_amount ue_type ue_category_id ue_payment_method
       ce_type ce_amount ce_category_id ce_payment_method].
  apply string_where_true in Ht as (t & Hpt & Ht).
  apply integer_where_true in Ha as (a & Hpa & Ha).
  apply string_where_true in Hc as (c & Hpc & Hc).
  rewrite Hpt, Hpa, Hpc. unfold the_string, the_integer. cbn [string_or id].
  split; [|split; [|split]].
  - now apply Z.ltb_lt.
  - now apply has_In.
  - unfold nonempty in Hc. apply negb_true_iff in Hc. now apply String.eqb_neq.
  - destruct (prop e "payment_method") as [[| | | |p| |]|];
      cbn [provided string_where string_or negb andb] in *;
      try discriminate; try (now left).
    right. exists p. split; [reflexivity|]. apply has_In. now apply negb_false_iff.
Qed.

(** X11. The operation lists that validation returns hold only well-formed
    operations: every create and update has a positive amount, type expense
    or income, a non-empty category id and a payment method of the
    enumeration or none; every update and every entry deletion names a
    non-empty id; every daily budget is non-negative. *)
Theorem validated_ops_wellformed uuid mk o v :
  validateOps uuid mk o = inr v ->
  Forall entry_ok (createEntries v)
  /\ Forall (fun c => entry_ok c /\ ue_entry_id c <> "") (updateEntries v)
  /\ Forall (fun id => id <> "") (deleteEntryIds v)
  /\ Forall (fun d => 0 <= daily_budget_override d) (upsertDailyBudgets v).
Proof.
  intros Hv. apply validateOps_inr in Hv as (Hc & Hu & Hi & Hp & _).
  split; [|split; [|split]].
  - apply op_list_inr in Hc as [[_ ->]|(es & _ & Hc)]; [constructor|].
    apply create_loop_inr in Hc. rewrite <- (map_id (createEntries v)).
    eapply Forall2_map_r; [exact Hc|].
    intros e c (base & id & Hbase & ->). eapply validated_entry_ok; eauto.
  - apply op_list_inr in Hu as [[_ ->]|(es & _ & Hu)]; [constructor|].
    apply update_loop_inr in Hu. rewrite <- (map_id (updateEntries v)).
    eapply Forall2_map_r; [exact Hu|].
    intros e c Hec. apply validateUpdateEntry_inr in Hec as (Hid & base & Hbase & ->).
    split; [eapply validated_entry_ok; eauto|]. cbn.
    apply string_where_true in Hid as (s & Hps & Hs). rewrite Hps. cbn.
    unfold nonempty in Hs. apply negb_true_iff in Hs. now apply String.eqb_neq.
  - apply op_list_inr in Hi as [[_ ->]|(es & _ & Hi)]; [constructor|].
    apply delete_ids_loop_inr in Hi. rewrite <- (map_id (deleteEntryIds v)).
    eapply Forall2_map_r; [exact Hi|]. now intros i c [_ Hne].
  - apply op_list_inr in Hp as [[_ ->]|(es & _ & Hp)]; [constructor|].
    apply upsert_loop_inr in Hp. rewrite <- (map_id (upsertDailyBudgets v)).
    eapply Forall2_map_r; [exact Hp|].
    intros d c Hdc. unfold validateUpsertDailyBudget in Hdc.
    repeat match type of Hdc with
           | (if ?c then _ else _) = _ => destruct c eqn:?; [discriminate|]
           end.
    injection Hdc as <-. cbn.
    match goal with
    | E : negb (integer_where _ _) = false |- _ =>
        apply negb_false_iff, integer_where_true in E as (z & Hz & Hle)
    end.
    rewrite Hz. cbn. now apply Z.leb_le.
Qed.

Lemma validated_ops_wellformed_witness :
  Forall entry_ok (createEntries mixed_validated)
  /\ Forall (fun c => entry_ok c /\ ue_entry_id c <> "") (updateEntries mixed_validated)
  /\ Forall (fun id => id <> "") (deleteEntryIds mixed_validated)
  /\ Forall (fun d => 0 <= daily_budget_override d) (upsertDailyBudgets mixed_validated).
Proof.
  apply (validated_ops_wellformed sample_uuid "2026-02" (JObj mixed_ops) mixed_validated).
  vm_compute. reflexivity.
Defined.

(** ** Dates and month-keys *)

(** X12. The first seven characters of a date that matches DATE_RE are a
    month-key that matches MONTH_KEY_RE, and among the month-keys that match
    it is the only one that [dateMatchesMonthKey] accepts for the date. *)
Theorem date_has_one_month_key d :
  DATE_RE d = true ->
  MONTH_KEY_RE (substring 0 7 d) = true
  /\ forall mk, MONTH_KEY_RE mk = true ->
                (dateMatchesMonthKey d mk = true <-> mk = substring 0 7 d).
Proof.
  intros Hd.
  assert (Hkey : MONTH_KEY_RE (substring 0 7 d) = true
                 /\ dateMatchesMonthKey d (substring 0 7 d) = true).
  { revert Hd. unfold DATE_RE, MONTH_KEY_RE, dateMatchesMonthKey.
    destruct d as [|b1 [|b2 [|b3 [|b4 [|b5 [|b6 [|b7 [|b8 [|b9 [|b10 [|b11 d]]]]]]]]]]];
      cbv [list_ascii_of_string String.append String.prefix substring];
      try discriminate.
    intros Hd. do 7 (apply andb_prop in Hd as [Hd ?]).
    split.
    - repeat match goal with
             | H : _ = true |- _ => rewrite H; clear H
             end.
      reflexivity.
    - repeat match goal with
             | |- context [ascii_dec ?a ?a] =>
                 destruct (ascii_dec a a); [|congruence]
             end.
      match goal with
      | H : chr b8 "-" = true |- _ => apply Ascii.eqb_eq in H; subst b8
      end.
      destruct (ascii_dec "-" "-"); [reflexivity|congruence]. }
  destruct Hkey as [Hre Hself]. split; [assumption|].
  intros mk Hmk. split.
  - intros Hm. symmetry. now apply (date_shape mk d Hmk Hd Hm).
  - intros ->. assumption.
Qed.

Lemma date_has_one_month_key_witness :
  MONTH_KEY_RE (substring 0 7 "2026-02-05") = true
  /\ forall mk, MONTH_KEY_RE mk = true ->
                (dateMatchesMonthKey "2026-02-05" mk = true
                 <-> mk = substring 0 7 "2026-02-05").
Proof. apply (date_has_one_month_key "2026-02-05"). reflexivity. Defined.

(** Without a validated key the prefix test alone accepts more: the year
    is a "month-key" of every date of the year. *)
Example year_prefix_matches :
  dateMatchesMonthKey "2026-02-05" "2026" = true /\ MONTH_KEY_RE "2026" = false.
Proof. split; reflexivity. Qed.

(** ** The six keys of the editable window *)

Lemma length_append s t :
  String.length (s ++ t) = (String.length s + String.length t)%nat.
Proof.
  induction s as [|a s IH]; [reflexivity|].
  cbv [String.append]. fold String.append. cbn [String.length]. now rewrite IH.
Qed.

Lemma append_inj_length s1 : forall s2 t1 t2,
  s1 ++ t1 = s2 ++ t2 -> String.length t1 = String.length t2 -> s1 = s2 /\ t1 = t2.
Proof.
  induction s1 as [|a s1 IH]; intros s2 t1 t2 Heq Hlen.
  - destruct s2 as [|b s2]; [now split|]. exfalso.
    cbv [String.append] in Heq. fold String.append in Heq.
    rewrite Heq in Hlen. cbn [String.length] in Hlen.
    rewrite length_append in Hlen. lia.
  - destruct s2 as [|b s2].
    + exfalso. cbv [String.append] in Heq. fold String.append in Heq.
      rewrite <- Heq in Hlen. cbn [String.length] in Hlen.
      rewrite length_append in Hlen. lia.
    + cbv [String.append] in Heq. fold String.append in Heq.
      injection Heq as -> Heq. destruct (IH _ _ _ Heq Hlen) as [-> ->]. now split.
Qed.

Lemma padStart2_month m :
  1 <= m <= 12 -> String.length (padStart2 m) = 2%nat.
Proof.
  intros Hm.
  assert (m = 1 \/ m = 2 \/ m = 3 \/ m = 4 \/ m = 5 \/ m = 6 \/ m = 7 \/ m = 8 \/ m = 9
          \/ m = 10 \/ m = 11 \/ m = 12) as Hc by lia.
  repeat (destruct Hc as [->|Hc]; [vm_compute; reflexivity|]). subst. vm_compute. reflexivity.
Qed.

Lemma padStart2_inj m n :
  1 <= m <= 12 -> 1 <= n <= 12 -> padStart2 m = padStart2 n -> m = n.
Proof.
  intros Hm Hn.
  assert (m = 1 \/ m = 2 \/ m = 3 \/ m = 4 \/ m = 5 \/ m = 6 \/ m = 7 \/ m = 8 \/ m = 9
          \/ m = 10 \/ m = 11 \/ m = 12) as Hc by lia.
  assert (n = 1 \/ n = 2 \/ n = 3 \/ n = 4 \/ n = 5 \/ n = 6 \/ n = 7 \/ n = 8 \/ n = 9
          \/ n = 10 \/ n = 11 \/ n = 12) as Hd by lia.
  repeat (destruct Hc as [->|Hc]); try subst m;
    repeat (destruct Hd as [->|Hd]); try subst n;
    vm_compute; intros H; try reflexivity; discriminate H.
Qed.

(** Distinct months have distinct keys. *)
Lemma month_key_of_inj y1 m1 y2 m2 :
  1 <= m1 <= 12 -> 1 <= m2 <= 12 ->
  month_key_of (y1, m1) = month_key_of (y2, m2) -> y1 = y2 /\ m1 = m2.
Proof.
  unfold month_key_of. cbn [fst snd]. intros H1 H2 Heq.
  apply append_inj_length in Heq as [Hy Hm].
  - apply pretty_Z_inj in Hy. split; [assumption|].
    cbv [String.append] in Hm. injection Hm as Hm. now apply padStart2_inj.
  - cbv [String.append]. cbn [String.length]. now rewrite !padStart2_month.
Qed.

Lemma months_back_inj y k (i j : nat) :
  0 <= k <= 11 -> months_back (y, k + 1) i = months_back (y, k + 1) j -> i = j.
Proof.
  intros Hk. rewrite !months_back_closed by assumption. intros Heq.
  injection Heq as Hq Hr. Z.div_mod_to_equations. lia.
Qed.

Lemma months_back_month y k (i : nat) :
  0 <= k <= 11 -> 1 <= snd (months_back (y, k + 1) i) <= 12.
Proof.
  intros Hk. rewrite months_back_closed by assumption. cbn [snd].
  Z.div_mod_to_equations. lia.
Qed.

Lemma NoDup_map_inj {A B} (f : A -> B) l :
  (forall x y, f x = f y -> x = y) -> NoDup l -> NoDup (map f l).
Proof.
  intros Hinj Hnd. induction Hnd as [|x l Hx Hnd IH]; cbn; constructor; [|assumption].
  intros Hin. apply list_elem_of_In, in_map_iff in Hin as (y & Heq & Hy).
  apply Hinj in Heq. subst y. now apply Hx, list_elem_of_In.
Qed.

Lemma editable_window_NoDup now :
  0 <= monthIndex now <= 11 -> NoDup (editable_window now).
Proof.
  intros Hk. unfold editable_window. apply NoDup_map_inj.
  - intros i j Heq.
    destruct (months_back (fullYear now, monthIndex now + 1) i) as [y1 m1] eqn:Hi.
    destruct (months_back (fullYear now, monthIndex now + 1) j) as [y2 m2] eqn:Hj.
    pose proof (months_back_month (fullYear now) (monthIndex now) i Hk) as H1.
    pose proof (months_back_month (fullYear now) (monthIndex now) j Hk) as H2.
    rewrite Hi in H1. rewrite Hj in H2. cbn [snd] in *.
    apply month_key_of_inj in Heq as [-> ->]; [|assumption..].
    apply (months_back_inj (fullYear now) (monthIndex now)); [assumption|congruence].
  - exact (NoDup_seq 0 6).
Qed.

(** The loop appends one key per round when no key repeats. *)
Lemma editable_loop_fresh now n : forall (i : nat) keys,
  NoDup (keys
         ++ map (fun j => month_key_text
                            (Date_ym (fullYear now)
                               (monthIndex now + 1 - 1 - Z.of_nat j))) (seq i n))%list ->
  editable_loop now (Z.of_nat i) n keys
  = (keys
     ++ map (fun j => month_key_text
                        (Date_ym (fullYear now)
                           (monthIndex now + 1 - 1 - Z.of_nat j))) (seq i n))%list.
Proof.
  induction n as [|n IH]; intros i keys Hnd; cbn [editable_loop seq map].
  - now rewrite app_nil_r.
  - cbn [seq map] in Hnd. unfold set_add.
    destruct (has keys _) eqn:Hhas.
    + exfalso. apply has_In in Hhas. apply NoDup_app in Hnd as (_ & Hdisj & _).
      apply (Hdisj _ (proj2 (list_elem_of_In _ _) Hhas)). left.
    + replace (Z.of_nat i + 1) with (Z.of_nat (S i)) by lia.
      rewrite IH; rewrite <- app_assoc; [reflexivity|exact Hnd].
Qed.

(** X13. With the clock in a year from 100 on, [getEditableMonthKeys]
    collects exactly six distinct keys, which are, in order, the key of the
    current month and the keys of the five months before it. *)
Theorem editable_keys_are_the_window now :
  100 <= fullYear now -> 0 <= monthIndex now <= 11 ->
  getEditableMonthKeys now = editable_window now
  /\ NoDup (getEditableMonthKeys now)
  /\ length (getEditableMonthKeys now) = 6%nat.
Proof.
  intros Hy Hk.
  assert (Hkeys : map (fun j => month_key_text
                                  (Date_ym (fullYear now)
                                     (monthIndex now + 1 - 1 - Z.of_nat j))) (seq 0 6)
                  = editable_window now).
  { unfold editable_window. cbn [seq map]. rewrite !Date_ym_back by assumption.
    reflexivity. }
  assert (Heq : getEditableMonthKeys now = editable_window now).
  { unfold getEditableMonthKeys. change 0 with (Z.of_nat 0).
    rewrite editable_loop_fresh; cbn [app]; rewrite Hkeys; [reflexivity|].
    now apply editable_window_NoDup. }
  rewrite Heq. split; [reflexivity|split]; [now apply editable_window_NoDup|reflexivity].
Qed.

Lemma editable_keys_are_the_window_witness :
  getEditableMonthKeys sample_clock = editable_window sample_clock
  /\ NoDup (getEditableMonthKeys sample_clock)
  /\ length (getEditableMonthKeys sample_clock) = 6%nat.
Proof. apply (editable_keys_are_the_window sample_clock); cbn; lia. Defined.

(** * Authentication and routing *)

(** ** Strings *)

Lemma length_list_ascii s : length (list_ascii_of_string s) = String.length s.
Proof. induction s as [|a s IH]; cbn; [reflexivity|now rewrite IH]. Qed.

Lemma USER_ID_RE_shape s :
  USER_ID_RE s = true ->
  exists rest, s = "u_" ++ rest /\ String.length rest = 32%nat
               /\ forallb hex (list_ascii_of_string rest) = true.
Proof.
  unfold USER_ID_RE. destruct s as [|a [|b rest]]; cbn [list_ascii_of_string];
    try discriminate.
  intros H. do 3 (apply andb_prop in H as [H ?]).
  apply Ascii.eqb_eq in H. subst a.
  match goal with Hb : chr b _ = true |- _ => apply Ascii.eqb_eq in Hb; subst b end.
  exists rest. split; [reflexivity|split]; [|assumption].
  rewrite <- length_list_ascii. now apply Nat.eqb_eq.
Qed.

Lemma USER_ID_RE_nonempty s : USER_ID_RE s = true -> s <> "".
Proof. intros H ->. discriminate. Qed.

Lemma prefix_slice p : forall h,
  String.prefix p h = true -> h = p ++ slice_from (String.length p) h.
Proof.
  induction p as [|a p IH]; intros h H; [reflexivity|].
  destruct h as [|b h]; [discriminate|]. cbn [String.prefix] in H.
  destruct (ascii_dec a b) as [->|]; [|discriminate].
  cbv [String.append]. fold String.append. cbn [String.length slice_from].
  f_equal. now apply IH.
Qed.

Lemma indexOf_split c t : forall i,
  indexOf c t = Some i ->
  t = substring 0 i t ++ String c (slice_from (i + 1) t)
  /\ indexOf c (substring 0 i t) = None.
Proof.
  induction t as [|a t IH]; intros i H; [discriminate|]. cbn [indexOf] in H.
  destruct (Ascii.eqb a c) eqn:Hac.
  - injection H as <-. apply Ascii.eqb_eq in Hac. subst a. now split.
  - destruct (indexOf c t) as [j|] eqn:Hj; [|discriminate]. injection H as <-.
    destruct (IH j eq_refl) as [Ht Hnone].
    cbn [substring Nat.add slice_from]. cbv [String.append]. fold String.append.
    split; [now f_equal|]. cbn [indexOf]. now rewrite Hac, Hnone.
Qed.

(** ** Resolved user ids *)

Section AuthFacts.

Variable atob : string -> option string.
Variable hmac_verify : string -> string -> string -> bool.
Variable parse_payload : string -> option Payload.

Local Abbreviation auth := (getAuthUserId atob hmac_verify parse_payload).
Local Abbreviation verify := (verifyToken atob hmac_verify parse_payload).

Lemma verifyToken_resolved nowMs token secret id :
  verify nowMs token secret = Resolved id ->
  exists i sig bytes exp,
    indexOf "." token = Some i
    /\ base64urlDecode atob (slice_from (i + 1) token) = Some sig
    /\ hmac_verify secret sig (substring 0 i token) = true
    /\ base64urlDecode atob (substring 0 i token) = Some bytes
    /\ parse_payload bytes = Some (PValue exp (Some id))
    /\ match exp with Some n => num_lt n (nowMs / 1000) | None => false end = false
    /\ isValidUserId id = true.
Proof.
  unfold verifyToken. intros H.
  destruct (indexOf "." token) as [i|]; [|discriminate].
  destruct (base64urlDecode atob (slice_from (i + 1) token)) as [sig|] eqn:Hsig;
    [|discriminate].
  destruct (hmac_verify secret sig (substring 0 i token)) eqn:Hh; [|discriminate].
  cbn [negb] in H.
  destruct (base64urlDecode atob (substring 0 i token)) as [bytes|] eqn:Hbytes;
    [|discriminate].
  destruct (parse_payload bytes) as [[|exp [s|]]|] eqn:Hp; try discriminate;
    destruct (match exp with Some n => num_lt n (nowMs / 1000) | None => false end) eqn:He;
    try discriminate.
  destruct (String.eqb s "" || negb (isValidUserId s)) eqn:Hs; [discriminate|].
  injection H as <-. apply orb_false_iff in Hs as [_ Hs]. apply negb_false_iff in Hs.
  exists i, sig, bytes, exp.
  repeat (split; [assumption || reflexivity|]). assumption.
Qed.

Lemma resolved_valid nowMs request env id :
  auth nowMs request env = Resolved id -> isValidUserId id = true.
Proof.
  intros H. unfold getAuthUserId in H. destruct (negb (blank (DEV_MODE env))).
  - destruct (_ || _); [discriminate|].
    destruct (negb (isValidUserId _)) eqn:Hv; [discriminate|].
    injection H as <-. now apply negb_false_iff in Hv.
  - repeat match type of H with
           | (if ?c then _ else _) = _ => destruct c; [discriminate|]
           end.
    now apply verifyToken_resolved in H as (? & ? & ? & ? & _ & _ & _ & _ & _ & _ & ?).
Qed.

(** X14. Every user id that authentication resolves, in either mode, is
    canonical: "u_" followed by 32 lowercase hexadecimal digits, 34
    characters in all. *)
Theorem resolved_ids_are_canonical nowMs request env id :
  auth nowMs request env = Resolved id ->
  isValidUserId id = true
  /\ String.length id = 34%nat
  /\ exists rest, id = "u_" ++ rest /\ forallb hex (list_ascii_of_string rest) = true.
Proof.
  intros H. pose proof (resolved_valid _ _ _ _ H) as Hv.
  split; [assumption|].
  destruct (USER_ID_RE_shape _ Hv) as (rest & -> & Hlen & Hhex).
  split; [|eauto]. cbv [String.append]. cbn [String.length]. now rewrite Hlen.
Qed.

Lemma prod_mode nowMs request env :
  blank (DEV_MODE env) = true ->
  auth nowMs request env <> Refused unauthorized ->
  exists h secret,
    req_header request "Authorization" = Some h
    /\ h = "Bearer " ++ slice_from 7 h
    /\ AUTH_SECRET env = Some secret /\ secret <> ""
    /\ forall t, auth t request env = verify t (slice_from 7 h) secret.
Proof.
  unfold getAuthUserId. intros Hdev Hne. rewrite Hdev in *. cbn [negb] in *.
  destruct (req_header request "Authorization") as [h|]; [|cbn in Hne; congruence].
  cbn [default from_option] in *. unfold id in *.
  destruct (blank (Some h) || negb (String.prefix "Bearer " h)) eqn:Hh; [congruence|].
  apply orb_false_iff in Hh as [_ Hp]. apply negb_false_iff in Hp.
  destruct (blank (Some (slice_from 7 h))); [congruence|].
  destruct (AUTH_SECRET env) as [secret|]; [|cbn in Hne; congruence].
  cbn [default from_option] in *. unfold id in *. destruct secret as [|c secret]; [cbn in Hne; congruence|].
  cbn [blank] in *. exists h, (String c secret).
  split; [reflexivity|split]; [exact (prefix_slice "Bearer " h Hp)|].
  split; [reflexivity|split]; [discriminate|intros t; reflexivity].
Qed.

(** X15. Without dev mode a user id is resolved only for a request whose
    Authorization header is "Bearer <payload>.<signature>" with no dot in the
    payload part, under a non-empty configured secret for which the decoded
    signature verifies over the payload part, and whose decoded payload
    parses to a value with that id as [sub] and no [exp] in the past. *)
Theorem prod_resolution_needs_signature nowMs request env id :
  blank (DEV_MODE env) = true ->
  auth nowMs request env = Resolved id ->
  exists secret payloadB64 signatureB64 signature bytes exp,
    AUTH_SECRET env = Some secret /\ secret <> ""
    /\ req_header request "Authorization"
       = Some ("Bearer " ++ payloadB64 ++ "." ++ signatureB64)
    /\ indexOf "." payloadB64 = None
    /\ base64urlDecode atob signatureB64 = Some signature
    /\ hmac_verify secret signature payloadB64 = true
    /\ base64urlDecode atob payloadB64 = Some bytes
    /\ parse_payload bytes = Some (PValue exp (Some id))
    /\ forall n, exp = Some n -> num_lt n (nowMs / 1000) = false.
Proof.
  intros Hdev Hres.
  destruct (prod_mode nowMs request env Hdev) as (h & secret & Hh & Hbearer & Hs & Hne & Hv).
  { rewrite Hres. discriminate. }
  rewrite Hv in Hres.
  apply verifyToken_resolved in Hres
      as (i & sig & bytes & exp & Hi & Hsig & Hmac & Hbytes & Hp & He & _).
  destruct (indexOf_split _ _ _ Hi) as [Htoken Hnodot].
  exists secret, (substring 0 i (slice_from 7 h)), (slice_from (i + 1) (slice_from 7 h)),
    sig, bytes, exp.
  repeat (split; [assumption|]). split.
  - rewrite Hh. f_equal. rewrite Hbearer at 1. f_equal. exact Htoken.
  - repeat (split; [assumption|]). intros n ->. exact He.
Qed.

Lemma num_lt_mono n k k' : k' <= k -> num_lt n k = false -> num_lt n k' = false.
Proof.
  destruct n as [z|z|neg]; cbn; intros Hle H; try assumption;
    apply Z.ltb_ge in H; apply Z.ltb_ge; lia.
Qed.

(** X16. A user id resolved at one time is resolved at every earlier time,
    and at any other time the same request gets that id or the 401 refusal:
    the clock can only expire a token. *)
Theorem token_can_only_expire nowMs request env id :
  auth nowMs request env = Resolved id ->
  forall t,
    (t <= nowMs -> auth t request env = Resolved id)
    /\ (auth t request env = Resolved id \/ auth t request env = Refused unauthorized).
Proof.
  intros Hres t.
  destruct (blank (DEV_MODE env)) eqn:Hdev.
  2:{ assert (auth t request env = auth nowMs request env) as ->.
      { unfold getAuthUserId. now rewrite Hdev. }
      split; [intros _; assumption|now left]. }
  destruct (prod_mode nowMs request env Hdev) as (h & secret & Hh & _ & Hs & Hne & Hv).
  { rewrite Hres. discriminate. }
  pose proof (Hv t) as Ht.
  rewrite Hv in Hres. rewrite Ht.
  apply verifyToken_resolved in Hres
      as (i & sig & bytes & exp & Hi & Hsig & Hmac & Hbytes & Hp & He & Hid).
  unfold verifyToken. rewrite Hi, Hsig, Hmac, Hbytes, Hp. cbn [negb].
  assert (Hsub : String.eqb id "" || negb (isValidUserId id) = false).
  { rewrite Hid. cbn [negb]. rewrite orb_false_r. apply String.eqb_neq.
    now apply USER_ID_RE_nonempty. }
  rewrite Hsub.
  destruct exp as [n|]; [|split; [reflexivity|now left]].
  split.
  - intros Hle. rewrite (num_lt_mono n (nowMs / 1000) (t / 1000)); [reflexivity| |assumption].
    apply Z.div_le_mono; lia.
  - destruct (num_lt n (t / 1000)); [now right|now left].
Qed.

Lemma refusals nowMs request env e :
  auth nowMs request env = Refused e -> e = unauthorized \/ e = bad_request.
Proof.
  unfold getAuthUserId, verifyToken. intros H.
  repeat match type of H with
         | (if ?c then _ else _) = _ => destruct c
         | match ?x with _ => _ end = _ => destruct x
         end;
    try discriminate; injection H as <-; auto.
Qed.

(** X17. Authentication refuses with 401 "Unauthorized" or 400 "Bad
    Request" only.  Another exception escapes only without dev mode, from a
    token with a dot whose signature part [atob] rejects, or whose signature
    verifies over a payload that parses to [null]. *)
Theorem auth_failures nowMs request env :
  (forall e, auth nowMs request env = Refused e -> e = unauthorized \/ e = bad_request)
  /\ (auth nowMs request env = Crashed ->
      blank (DEV_MODE env) = true
      /\ exists h secret i,
           req_header request "Authorization" = Some h
           /\ AUTH_SECRET env = Some secret
           /\ indexOf "." (slice_from 7 h) = Some i
           /\ (base64urlDecode atob (slice_from (i + 1) (slice_from 7 h)) = None
               \/ exists signature bytes,
                    base64urlDecode atob (slice_from (i + 1) (slice_from 7 h))
                    = Some signature
                    /\ hmac_verify secret signature (substring 0 i (slice_from 7 h)) = true
                    /\ base64urlDecode atob (substring 0 i (slice_from 7 h)) = Some bytes
                    /\ parse_payload bytes = Some PNull)).
Proof.
  split; [apply refusals|].
  - intros Hcr.
    destruct (blank (DEV_MODE env)) eqn:Hdev.
    2:{ exfalso. unfold getAuthUserId in Hcr. rewrite Hdev in Hcr. cbn [negb] in Hcr.
        repeat match type of Hcr with
               | (if ?c then _ else _) = _ => destruct c
               end; discriminate. }
    split; [reflexivity|].
    destruct (prod_mode nowMs request env Hdev) as (h & secret & Hh & _ & Hs & Hne & Hv).
    { rewrite Hcr. discriminate. }
    exists h, secret. rewrite Hv in Hcr. unfold verifyToken in Hcr.
    destruct (indexOf "." (slice_from 7 h)) as [i|]; [|discriminate].
    exists i. repeat (split; [assumption || reflexivity|]).
    destruct (base64urlDecode atob (slice_from (i + 1) (slice_from 7 h))) as [sig|];
      [|now left].
    right. exists sig.
    destruct (hmac_verify secret sig (substring 0 i (slice_from 7 h))); [|discriminate].
    cbn [negb] in Hcr.
    destruct (base64urlDecode atob (substring 0 i (slice_from 7 h))) as [bytes|];
      [|discriminate].
    exists bytes.
    destruct (parse_payload bytes) as [[|exp sub]|]; [now repeat split|..|discriminate].
    repeat match type of Hcr with
           | (if ?c then _ else _) = _ => destruct c
           | match ?x with _ => _ end = _ => destruct x
           end; discriminate.
Qed.

(** ** The worker *)

Local Abbreviation worker := (fetch atob hmac_verify parse_payload).

(** X18. The worker hands a request to the monthly read only when it is a
    GET of /api/monthly whose [month_key] parameter matches MONTH_KEY_RE,
    and then with the canonical user id that authentication resolved; every
    other method or path, POST /api/monthly included, is answered with an
    error. *)
Theorem dataset_only_for_authenticated_get nowMs request env user_id month_key :
  worker nowMs request env = MonthlyDataset user_id month_key ->
  auth nowMs request env = Resolved user_id
  /\ isValidUserId user_id = true
  /\ req_method request = "GET"
  /\ req_pathname request = "/api/monthly"
  /\ req_search request "month_key" = Some month_key
  /\ MONTH_KEY_RE month_key = true.
Proof.
  unfold fetch. intros H.
  destruct (auth nowMs request env) as [uid| |] eqn:Ha; try discriminate.
  destruct (String.eqb (req_pathname request) "/api/monthly"
            && String.eqb (req_method request) "GET") eqn:Hroute; [|discriminate].
  apply andb_prop in Hroute as [Hpath Hmeth].
  apply String.eqb_eq in Hpath, Hmeth.
  unfold validateMonthKey in H.
  destruct (req_search request "month_key") as [mk|]; [|discriminate].
  cbn [default from_option] in H. unfold id in H.
  destruct (blank (Some mk) || negb (MONTH_KEY_RE mk)) eqn:Hmk; [discriminate|].
  injection H as <- <-. apply orb_false_iff in Hmk as [_ Hmk]. apply negb_false_iff in Hmk.
  split; [reflexivity|split]; [|now repeat split].
  now apply (resolved_valid nowMs request env).
Qed.

(** X19. The statuses of the worker's error responses are 400, 401, 404
    and 500.  A 404 is answered only to an authenticated request, so an
    unauthenticated caller cannot probe the routes; a 500 is answered
    exactly when authentication fails with an exception that is not an
    AuthError. *)
Theorem worker_error_statuses nowMs request env r :
  worker nowMs request env = ErrorReply r ->
  (status r = 400 \/ status r = 401 \/ status r = 404 \/ status r = 500)
  /\ (status r = 404 -> exists user_id, auth nowMs request env = Resolved user_id)
  /\ (status r = 500 <-> auth nowMs request env = Crashed).
Proof.
  unfold fetch. intros H.
  destruct (auth nowMs request env) as [uid|e|] eqn:Ha.
  - assert (status r = 400 \/ status r = 404) as Hst.
    { destruct (_ && _).
      - unfold validateMonthKey in H. destruct (_ || _); [|discriminate].
        injection H as <-. now left.
      - injection H as <-. now right. }
    split; [tauto|split]; [eauto|].
    split; [intros H5; destruct Hst as [Hst|Hst]; rewrite Hst in H5|]; discriminate.
  - injection H as <-. cbn [status errorResponse].
    destruct (refusals nowMs request env e Ha) as [->| ->]; cbn.
    + split; [tauto|]. split; [discriminate|]. split; discriminate.
    + split; [tauto|]. split; [discriminate|]. split; discriminate.
  - injection H as <-. cbn. split; [tauto|]. split; [discriminate|]. now split.
Qed.

End AuthFacts.

(** ** Dev mode *)

Lemma dev_mode_result atob hmac_verify parse_payload nowMs request env :
  blank (DEV_MODE env) = false ->
  getAuthUserId atob hmac_verify parse_payload nowMs request env
  = match req_header request "X-Debug-User" with
    | None => Refused unauthorized
    | Some h =>
        if blank (Some h) || String.eqb (trim h) "" then Refused unauthorized
        else if isValidUserId (trim h) then Resolved (trim h)
        else Refused bad_request
    end.
Proof.
  intros Hdev. unfold getAuthUserId. rewrite Hdev. cbn [negb].
  destruct (req_header request "X-Debug-User") as [h|]; [|reflexivity].
  cbn [default from_option]. unfold Datatypes.id.
  destruct (_ || _); [reflexivity|]. now destruct (isValidUserId (trim h)).
Qed.

Lemma dev_mode_resolved atob hmac_verify parse_payload nowMs request env id :
  blank (DEV_MODE env) = false ->
  getAuthUserId atob hmac_verify parse_payload nowMs request env = Resolved id
  <-> exists h, req_header request "X-Debug-User" = Some h
                /\ trim h = id /\ isValidUserId id = true.
Proof.
  intros Hdev. rewrite (dev_mode_result _ _ _ _ _ _ Hdev).
  destruct (req_header request "X-Debug-User") as [h|].
  2:{ split; [discriminate|]. now intros (h & Hn & _). }
  destruct (blank (Some h) || String.eqb (trim h) "") eqn:Hblank.
  - split; [discriminate|]. intros (h' & [= <-] & Ht & Hv). exfalso.
    apply orb_true_iff in Hblank as [Hb|Hb].
    + destruct h; [|discriminate]. subst id. discriminate.
    + apply String.eqb_eq in Hb. rewrite Hb in Ht. subst id. discriminate.
  - destruct (isValidUserId (trim h)) eqn:Hv.
    + split; [intros [= <-]; eauto|]. now intros (h' & [= <-] & <- & _).
    + split; [discriminate|]. intros (h' & [= <-] & <- & Hv'). congruence.
Qed.

(** X20. With a non-empty DEV_MODE, the text "false" included, the result
    depends on the X-Debug-User header alone: the Authorization header, the
    secret, the clock and the platform's verification play no part, no
    exception other than an AuthError escapes, and a user id is resolved
    exactly when the trimmed header is canonical. *)
Theorem dev_mode_trusts_debug_header
    atob hmac_verify parse_payload atob' hmac_verify' parse_payload'
    nowMs nowMs' request request' env env' :
  blank (DEV_MODE env) = false ->
  blank (DEV_MODE env') = false ->
  req_header request "X-Debug-User" = req_header request' "X-Debug-User" ->
  getAuthUserId atob hmac_verify parse_payload nowMs request env
  = getAuthUserId atob' hmac_verify' parse_payload' nowMs' request' env'
  /\ getAuthUserId atob hmac_verify parse_payload nowMs request env <> Crashed
  /\ forall id,
       getAuthUserId atob hmac_verify parse_payload nowMs request env = Resolved id
       <-> exists h, req_header request "X-Debug-User" = Some h
                     /\ trim h = id /\ isValidUserId id = true.
Proof.
  intros Hdev Hdev' Hh. split; [|split].
  - rewrite (dev_mode_result _ _ _ _ _ _ Hdev), (dev_mode_result _ _ _ _ _ _ Hdev').
    now rewrite Hh.
  - rewrite (dev_mode_result _ _ _ _ _ _ Hdev).
    destruct (req_header request "X-Debug-User") as [h|]; [|discriminate].
    destruct (_ || _); [discriminate|]. destruct (isValidUserId (trim h)); discriminate.
  - intros id. now apply dev_mode_resolved.
Qed.

Lemma dev_mode_trusts_debug_header_witness :
  getAuthUserId toy_atob toy_hmac toy_parse 0 dev_request dev_env
  = getAuthUserId (fun _ => None) (fun _ _ _ => false) (fun _ => None) 1770000000000
      dev_request dev_env
  /\ getAuthUserId toy_atob toy_hmac toy_parse 0 dev_request dev_env <> Crashed
  /\ forall id,
       getAuthUserId toy_atob toy_hmac toy_parse 0 dev_request dev_env = Resolved id
       <-> exists h, req_header dev_request "X-Debug-User" = Some h
                     /\ trim h = id /\ isValidUserId id = true.
Proof.
  apply (dev_mode_trusts_debug_header toy_atob toy_hmac toy_parse
           (fun _ => None) (fun _ _ _ => false) (fun _ => None) 0 1770000000000
           dev_request dev_request dev_env dev_env); reflexivity.
Defined.

(** The padded header of [dev_request] is resolved to the canonical id
    although DEV_MODE reads "false". *)
Example dev_request_resolved :
  getAuthUserId toy_atob toy_hmac toy_parse 0 dev_request dev_env = Resolved sample_user.
Proof. vm_compute. reflexivity. Qed.

(** ** The argument of [atob] *)

Lemma length_to_base64 s : String.length (to_base64 s) = String.length s.
Proof. induction s as [|a s IH]; cbn; [reflexivity|now rewrite IH]. Qed.

Lemma length_equals_signs n : String.length (equals_signs n) = n.
Proof. induction n as [|n IH]; cbn; [reflexivity|now rewrite IH]. Qed.

Lemma indexOf_append_none c s t :
  indexOf c s = None -> indexOf c t = None -> indexOf c (s ++ t) = None.
Proof.
  induction s as [|a s IH]; intros Hs Ht; [assumption|].
  cbv [String.append]. fold String.append. cbn [indexOf] in *.
  destruct (Ascii.eqb a c); [discriminate|].
  destruct (indexOf c s); [discriminate|]. now rewrite IH.
Qed.

Lemma to_base64_clean s :
  indexOf "-" (to_base64 s) = None /\ indexOf "_" (to_base64 s) = None.
Proof.
  induction s as [|a s [IH1 IH2]]; [now split|]. cbn [to_base64 indexOf].
  rewrite IH1, IH2.
  destruct (Ascii.eqb a "-") eqn:H1; [now split|].
  destruct (Ascii.eqb a "_") eqn:H2; [now split|].
  now rewrite H1, H2.
Qed.

Lemma equals_signs_clean c n :
  Ascii.eqb "=" c = false -> indexOf c (equals_signs n) = None.
Proof.
  intros Hc. induction n as [|n IH]; [reflexivity|]. cbn [equals_signs indexOf].
  now rewrite Hc, IH.
Qed.

(** X21. The text that [base64urlDecode] hands to [atob] has a length
    divisible by four, holds neither "-" nor "_", and is the input with
    those two characters replaced, followed by fewer than four "=". *)
Theorem padded_shape s :
  (String.length (padded s) mod 4 = 0)%nat
  /\ indexOf "-" (padded s) = None
  /\ indexOf "_" (padded s) = None
  /\ exists n, (n < 4)%nat /\ padded s = to_base64 s ++ equals_signs n
               /\ String.length (to_base64 s) = String.length s.
Proof.
  unfold padded. destruct (to_base64_clean s) as [Hd Hu].
  split; [|split; [|split]].
  - rewrite length_append, length_equals_signs.
    generalize (String.length (to_base64 s)). intros n.
    pose proof (Nat.mod_upper_bound n 4) as Hr. specialize (Hr ltac:(lia)).
    pose proof (Nat.div_mod_eq n 4) as Hn.
    remember (n mod 4)%nat as r eqn:Er. remember (n / 4)%nat as q eqn:Eq.
    assert (r = 0 \/ r = 1 \/ r = 2 \/ r = 3)%nat as [->|[->|[->| ->]]] by lia.
    + change ((4 - 0) mod 4)%nat with 0%nat.
      replace (n + 0)%nat with (q * 4)%nat by lia. apply Nat.Div0.mod_mul.
    + change ((4 - 1) mod 4)%nat with 3%nat.
      replace (n + 3)%nat with ((q + 1) * 4)%nat by lia. apply Nat.Div0.mod_mul.
    + change ((4 - 2) mod 4)%nat with 2%nat.
      replace (n + 2)%nat with ((q + 1) * 4)%nat by lia. apply Nat.Div0.mod_mul.
    + change ((4 - 3) mod 4)%nat with 1%nat.
      replace (n + 1)%nat with ((q + 1) * 4)%nat by lia. apply Nat.Div0.mod_mul.
  - apply indexOf_append_none; [assumption|now apply equals_signs_clean].
  - apply indexOf_append_none; [assumption|now apply equals_signs_clean].
  - eexists. split; [|split; [reflexivity|apply length_to_base64]].
    apply Nat.mod_upper_bound. discriminate.
Qed.

(** ** Runs of the worker on the toy platform *)

Lemma resolved_ids_are_canonical_witness :
  isValidUserId sample_user = true
  /\ String.length sample_user = 34%nat
  /\ exists rest, sample_user = "u_" ++ rest
                  /\ forallb hex (list_ascii_of_string rest) = true.
Proof.
  apply (resolved_ids_are_canonical toy_atob toy_hmac toy_parse 1770000000000
           (bearer_request "cGF5.c2ln") prod_env sample_user).
  vm_compute. reflexivity.
Defined.

Lemma prod_resolution_needs_signature_witness :
  exists secret payloadB64 signatureB64 signature bytes exp,
    AUTH_SECRET prod_env = Some secret /\ secret <> ""
    /\ req_header (bearer_request "cGF5.c2ln") "Authorization"
       = Some ("Bearer " ++ payloadB64 ++ "." ++ signatureB64)
    /\ indexOf "." payloadB64 = None
    /\ base64urlDecode toy_atob signatureB64 = Some signature
    /\ toy_hmac secret signature payloadB64 = true
    /\ base64urlDecode toy_atob payloadB64 = Some bytes
    /\ toy_parse bytes = Some (PValue exp (Some sample_user))
    /\ forall n, exp = Some n -> num_lt n (1770000000000 / 1000) = false.
Proof.
  apply (prod_resolution_needs_signature toy_atob toy_hmac toy_parse 1770000000000
           (bearer_request "cGF5.c2ln") prod_env sample_user).
  - reflexivity.
  - vm_compute. reflexivity.
Defined.

Lemma token_can_only_expire_witness :
  (1769999999000 <= 1770000000000 ->
   getAuthUserId toy_atob toy_hmac toy_parse 1769999999000 (bearer_request "cGF5.c2ln")
     prod_env = Resolved sample_user)
  /\ (getAuthUserId toy_atob toy_hmac toy_parse 1769999999000 (bearer_request "cGF5.c2ln")
        prod_env = Resolved sample_user
      \/ getAuthUserId toy_atob toy_hmac toy_parse 1769999999000 (bearer_request "cGF5.c2ln")
           prod_env = Refused unauthorized).
Proof.
  apply (token_can_only_expire toy_atob toy_hmac toy_parse 1770000000000
           (bearer_request "cGF5.c2ln") prod_env sample_user).
  vm_compute. reflexivity.
Defined.

Lemma dataset_only_for_authenticated_get_witness :
  getAuthUserId toy_atob toy_hmac toy_parse 1770000000000 (bearer_request "cGF5.c2ln")
    prod_env = Resolved sample_user
  /\ isValidUserId sample_user = true
  /\ req_method (bearer_request "cGF5.c2ln") = "GET"
  /\ req_pathname (bearer_request "cGF5.c2ln") = "/api/monthly"
  /\ req_search (bearer_request "cGF5.c2ln") "month_key" = Some "2026-02"
  /\ MONTH_KEY_RE "2026-02" = true.
Proof.
  apply (dataset_only_for_authenticated_get toy_atob toy_hmac toy_parse 1770000000000
           (bearer_request "cGF5.c2ln") prod_env sample_user "2026-02").
  vm_compute. reflexivity.
Defined.

Lemma worker_error_statuses_witness :
  (status (errorResponse 404 "Not found.") = 400
   \/ status (errorResponse 404 "Not found.") = 401
   \/ status (errorResponse 404 "Not found.") = 404
   \/ status (errorResponse 404 "Not found.") = 500)
  /\ (status (errorResponse 404 "Not found.") = 404 ->
      exists user_id,
        getAuthUserId toy_atob toy_hmac toy_parse 1770000000000 post_request prod_env
        = Resolved user_id)
  /\ (status (errorResponse 404 "Not found.") = 500
      <-> getAuthUserId toy_atob toy_hmac toy_parse 1770000000000 post_request prod_env
          = Crashed).
Proof.
  apply (worker_error_statuses toy_atob toy_hmac toy_parse 1770000000000 post_request
           prod_env (errorResponse 404 "Not found.")).
  vm_compute. reflexivity.
Defined.

(** A verified token whose payload is [null], and a token whose signature
    part [atob] rejects, are answered with 500; the same token after second
    2000000000 with 401. *)
Example worker_edge_answers :
  fetch toy_atob toy_hmac toy_parse 1770000000000 (bearer_request "bnVsbA.c2ln") prod_env
  = ErrorReply (errorResponse 500 "Internal Server Error")
  /\ fetch toy_atob toy_hmac toy_parse 1770000000000 (bearer_request "cGF5.c2!n") prod_env
     = ErrorReply (errorResponse 500 "Internal Server Error")
  /\ fetch toy_atob toy_hmac toy_parse 2000000001000 (bearer_request "cGF5.c2ln") prod_env
     = ErrorReply (errorResponse 401 "Unauthorized")
  /\ fetch toy_atob toy_hmac toy_parse 2000000000999 (bearer_request "cGF5.c2ln") prod_env
     = MonthlyDataset sample_user "2026-02".
Proof. repeat split; vm_compute; reflexivity. Qed.

(** ** Updates *)

Lemma exec_update_owned date type amount cat memo pm updated id u mk db db' c r :
  exec (UpdateEntryRow date type amount cat memo pm updated id u mk) db = Some (db', c) ->
  entries db !! id = Some r -> e_user_id r = u -> e_month_key r = mk ->
  entries db' !! id
  = Some {| e_user_id := e_user_id r; e_month_key := e_month_key r; e_date := date;
            e_type := type; e_amount := amount; e_category_id := cat; e_memo := memo;
            e_payment_method := pm; e_created_at := e_created_at r;
            e_updated_at := updated |}.
Proof.
  cbn [exec]. intros He Hr Hu Hm. rewrite Hr in He.
  rewrite Hu, Hm, !String.eqb_refl in He. cbn [andb] in He.
  destruct (bool_decide _); [|discriminate]. injection He as <- _.
  cbn [entries set_entries]. rewrite Hu, Hm. apply lookup_insert_eq.
Qed.

Lemma run_updates_kept u mk now id created us : forall db db' results,
  run (updates u mk now us) db = Some (db', results) ->
  kept u mk id created db -> kept u mk id created db'.
Proof.
  induction us as [|p us IH]; intros db db' results Hrun Hk; cbn [updates map run] in Hrun.
  - now injection Hrun as <- _.
  - fold (updates u mk now us) in Hrun.
    match type of Hrun with
    | context [exec ?s db] => destruct (exec s db) as [[db1 c1]|] eqn:He; [|discriminate]
    end.
    destruct (run (updates u mk now us) db1) as [[db2 rs]|] eqn:Hr; [|discriminate].
    injection Hrun as <- _. eapply IH; [exact Hr|].
    destruct Hk as (r & Hrow & Hu & Hm & Hc).
    destruct (String.eqb_spec (ue_entry_id p) id) as [Heq|Hne].
    + rewrite Heq in He. eexists. split; [eapply exec_update_owned; eauto|].
      cbn. now repeat split.
    + exists r. split; [|now repeat split].
      rewrite (fun H => exec_untouched_entry id _ _ _ _ H He);
        [|now apply String.eqb_neq].
      exact Hrow.
Qed.

(** X22. After a batch that committed, an entry of the request's user and
    month that the request updates and does not delete has the fields of the
    last update of its id in the request and the time of the batch as update
    time; its user, month and creation time are as before. *)
Theorem updated_rows_stored clock now uuid db u b rq v stmts results r l1 p l2 :
  validateBody b = inr rq ->
  validateOps uuid (month_key rq) (ops rq) = inr v ->
  In (Batch stmts (Some results))
     (accesses (handlePostMonthly clock now uuid db u (Some b))) ->
  entries db !! ue_entry_id p = Some r ->
  e_user_id r = u -> e_month_key r = month_key rq ->
  updateEntries v = (l1 ++ p :: l2)%list ->
  Forall (fun q => ue_entry_id q <> ue_entry_id p) l2 ->
  ~ In (ue_entry_id p) (deleteEntryIds v) ->
  entries (store (handlePostMonthly clock now uuid db u (Some b))) !! ue_entry_id p
  = Some (updated_row r now p).
Proof.
  intros Hbody Hops Hcommitted Hrow Hu Hm Hsplit Hlast Hkept.
  destruct (committed_stages _ _ _ _ _ _ _ _ (committed _ _ _ _ _ _ _ _ _ _ Hbody Hops Hcommitted))
    as (d0 & d1 & d2 & d3 & d4 & r0 & r1 & r2 & r3 & r4 & r5 & H0 & H1 & H2 & H3 & H4 & H5).
  rewrite (after_deletions_entries _ _ _ _ _ _ _ _ _ _ _ _ _ H4 H5).
  rewrite (fun H => run_untouched_entry (ue_entry_id p) _ _ _ _ H H3).
  2:{ apply Forall_map_In. intros id Hid. cbn. apply String.eqb_neq. intros ->.
      now apply Hkept. }
  assert (Hd1 : entries d1 !! ue_entry_id p = Some r).
  { destruct (run_inserts _ _ _ _ _ _ _ H1) as (_ & Hfree & _).
    assert (Hd0 : entries d0 !! ue_entry_id p = Some r).
    { rewrite (fun H => run_untouched_entry (ue_entry_id p) _ _ _ _ H H0);
        [exact Hrow|repeat constructor]. }
    rewrite (fun H => run_untouched_entry (ue_entry_id p) _ _ _ _ H H1); [exact Hd0|].
    apply Forall_map_In. intros c Hc. cbn. apply String.eqb_neq. intros Heq.
    specialize (Hfree c Hc). rewrite Heq, Hd0 in Hfree. discriminate. }
  rewrite Hsplit in H2. unfold updates in H2. rewrite map_app in H2.
  apply run_app in H2 as (m1 & q1 & q2 & Hl1 & H2 & _). cbn [map run] in H2.
  match type of H2 with
  | context [exec ?s m1] => destruct (exec s m1) as [[m2 c]|] eqn:He; [|discriminate]
  end.
  match type of H2 with
  | context [run ?l m2] => destruct (run l m2) as [[m3 cs]|] eqn:Hr; [|discriminate]
  end.
  injection H2 as <- _.
  rewrite (fun H => run_untouched_entry (ue_entry_id p) _ _ _ _ H Hr).
  2:{ apply Forall_map_In. intros q Hq. cbn. apply String.eqb_neq.
      rewrite Forall_forall in Hlast. apply Hlast. now apply list_elem_of_In. }
  destruct (run_updates_kept u (month_key rq) now (ue_entry_id p) (e_created_at r) l1
              d1 m1 q1 Hl1) as (r' & Hr' & Hu' & Hm' & Hc').
  { exists r. now repeat split. }
  rewrite (exec_update_owned _ _ _ _ _ _ _ _ _ _ _ _ _ _ He Hr' Hu' Hm').
  unfold updated_row. now rewrite Hu', Hm', Hc', Hu, Hm.
Qed.

Lemma updated_rows_stored_witness :
  entries (store edit_save) !! "e-3"
  = Some {| e_user_id := "u1"; e_month_key := "2026-02"; e_date := "2026-02-21";
            e_type := "expense"; e_amount := 300; e_category_id := "cat-001";
            e_memo := Some "fixed"; e_payment_method := None;
            e_created_at := "2026-01-31 08:00:00";
            e_updated_at := "2026-02-10 09:00:00" |}.
Proof.
  apply (updated_rows_stored sample_clock "2026-02-10 09:00:00" sample_uuid shared_db "u1"
           edit_request
           {| month_key := "2026-02"; expected_version := 0; ops := JObj edit_ops |}
           edit_validated edit_batch [0; 1; 1; 1])
    with (r := sample_row "u1" "2026-02" "2026-02-03") (l1 := [edit_first])
         (p := edit_last) (l2 := []).
  - reflexivity.
  - vm_compute. reflexivity.
  - vm_compute. right. left. reflexivity.
  - reflexivity.
  - reflexivity.
  - reflexivity.
  - reflexivity.
  - constructor.
  - intros [].
Defined.

(** ** Month rows *)

Lemma continues_refl r : continues r r.
Proof. unfold continues. repeat split; lia. Qed.

Lemma exec_continues s db db' c k r :
  exec s db = Some (db', c) -> months db !! k = Some r ->
  exists r', months db' !! k = Some r' /\ continues r r'.
Proof.
  intros He Hrow.
  destruct s; cbn [exec] in He;
    repeat (match type of He with
            | context [match ?x with _ => _ end] => destruct x eqn:?
            end; try discriminate He);
    inversion He; subst; cbn [months set_months set_entries set_daily_budgets];
    try (exists r; split; [assumption|apply continues_refl]).
  - (* the month row was absent and is inserted *)
    exists r. split; [|apply continues_refl].
    rewrite lookup_insert_ne; [assumption|]. intros <-. congruence.
  - (* the version is bumped *)
    destruct (decide ((user_id, month_key0) = k)) as [<-|Hne].
    + rewrite lookup_insert_eq. eexists. split; [reflexivity|].
      assert (r = m) as -> by congruence. unfold continues. cbn. repeat split; lia.
    + exists r. split; [|apply continues_refl]. now rewrite lookup_insert_ne.
Qed.

Lemma continues_trans r1 r2 r3 : continues r1 r2 -> continues r2 r3 -> continues r1 r3.
Proof. unfold continues. intros (? & ? & ? & ?) (? & ? & ? & ?). repeat split; try congruence; lia. Qed.

Lemma run_continues stmts : forall db db' results k r,
  run stmts db = Some (db', results) -> months db !! k = Some r ->
  exists r', months db' !! k = Some r' /\ continues r r'.
Proof.
  induction stmts as [|s rest IH]; intros db db' results k r Hrun Hrow; cbn in Hrun.
  - inversion Hrun; subst. exists r. split; [assumption|apply continues_refl].
  - destruct (exec s db) as [[db1 c]|] eqn:He; [|discriminate].
    destruct (run rest db1) as [[db2 cs]|] eqn:Hr; [|discriminate].
    inversion Hrun; subst.
    destruct (exec_continues _ _ _ _ _ _ He Hrow) as (r1 & Hr1 & Hc1).
    destruct (IH _ _ _ _ _ Hr Hr1) as (r2 & Hr2 & Hc2).
    exists r2. split; [assumption|]. eapply continues_trans; eauto.
Qed.

(** X23. No run of the handler removes a month row, changes its monthly
    budget or its cutoff, or lowers its version. *)
Theorem month_rows_persist clock now uuid db u request k r :
  months db !! k = Some r ->
  exists r',
    months (store (handlePostMonthly clock now uuid db u request)) !! k = Some r'
    /\ continues r r'.
Proof.
  intros Hrow.
  destruct (handle_cases clock now uuid db u request)
    as [(m & Hr)|[(b & rq & _ & _ & _ & Hr)
                  |(b & rq & v & _ & _ & _ & _ & [[_ Hr]|[_ Hr]])]];
    rewrite Hr; try (exists r; split; [assumption|apply continues_refl]).
  destruct (save_cases now db u (month_key rq) (expected_version rq) v)
    as [(cid & _ & _ & Hs)|[_ [[_ Hs]|(db' & res & Hbatch & Hs)]]];
    rewrite Hs; cbn [store]; try (exists r; split; [assumption|apply continues_refl]).
  eapply run_continues; eauto.
Qed.

Lemma month_rows_persist_witness :
  exists r',
    months (store mixed_save) !! ("u1", "2026-02") = Some r' /\ continues sample_month r'.
Proof.
  apply (month_rows_persist sample_clock "2026-02-10 09:00:00" sample_uuid shared_db "u1"
           (Some mixed_request) ("u1", "2026-02") sample_month).
  reflexivity.
Defined.

(** ** Canonical ids and white space *)

Lemma trimStart_clean s :
  forallb (fun c => negb (white c)) (list_ascii_of_string s) = true -> trimStart s = s.
Proof.
  destruct s as [|c s]; [reflexivity|]. cbn [list_ascii_of_string forallb trimStart].
  intros H. apply andb_prop in H as [Hc _]. apply negb_true_iff in Hc. now rewrite Hc.
Qed.

Lemma trimEnd_clean s :
  forallb (fun c => negb (white c)) (list_ascii_of_string s) = true -> trimEnd s = s.
Proof.
  induction s as [|c s IH]; [reflexivity|]. cbn [list_ascii_of_string forallb trimEnd].
  intros H. apply andb_prop in H as [Hc Hs]. apply negb_true_iff in Hc.
  rewrite (IH Hs), Hc. now destruct s.
Qed.

Lemma hex_not_white c : hex c = true -> white c = false.
Proof.
  unfold hex, digit, between, white.
  change (nat_of_ascii "a") with 97%nat. change (nat_of_ascii "f") with 102%nat.
  generalize (nat_of_ascii c). intros n H.
  apply orb_prop in H as [H|H]; apply andb_prop in H as [H1 H2];
    apply Nat.leb_le in H1, H2;
    repeat (apply orb_false_iff; split);
    try (apply andb_false_iff; right; apply Nat.leb_gt; lia);
    apply Nat.eqb_neq; lia.
Qed.

Lemma canonical_id_trimmed id : isValidUserId id = true -> trim id = id.
Proof.
  intros Hv. destruct (USER_ID_RE_shape _ Hv) as (rest & -> & _ & Hhex).
  assert (Hclean : forallb (fun c => negb (white c)) (list_ascii_of_string ("u_" ++ rest))
                   = true).
  { cbv [String.append]. cbn [list_ascii_of_string forallb].
    change (negb (white "u")) with true. change (negb (white "_")) with true.
    cbn [andb]. rewrite forallb_forall in Hhex |- *.
    intros c Hc. apply negb_true_iff, hex_not_white. now apply Hhex. }
  unfold trim. now rewrite (trimStart_clean _ Hclean), (trimEnd_clean _ Hclean).
Qed.

(** X24. In dev mode a canonical user id sent as the X-Debug-User header
    is resolved to itself: trimming changes no canonical id. *)
Theorem dev_mode_resolves_canonical_header atob hmac_verify parse_payload nowMs request env id :
  blank (DEV_MODE env) = false ->
  req_header request "X-Debug-User" = Some id ->
  isValidUserId id = true ->
  getAuthUserId atob hmac_verify parse_payload nowMs request env = Resolved id.
Proof.
  intros Hdev Hh Hv.
  apply dev_mode_resolved; [assumption|].
  exists id. split; [assumption|split]; [now apply canonical_id_trimmed|assumption].
Qed.

Lemma dev_mode_resolves_canonical_header_witness :
  getAuthUserId toy_atob toy_hmac toy_parse 0
    {| req_method := "GET"; req_pathname := "/api/monthly"; req_search := fun _ => None;
       req_header := only "X-Debug-User" sample_user |} dev_env
  = Resolved sample_user.
Proof.
  apply (dev_mode_resolves_canonical_header toy_atob toy_hmac toy_parse 0
           {| req_method := "GET"; req_pathname := "/api/monthly";
              req_search := fun _ => None;
              req_header := only "X-Debug-User" sample_user |} dev_env sample_user);
    reflexivity.
Defined.

Lemma rejections_leave_tables_witness :
  store (handlePostMonthly sample_clock "2026-02-10 09:00:00" sample_uuid sample_db "u1"
           (Some unknown_category_request)) = sample_db
  /\ forall stmts results,
       ~ In (Batch stmts results)
           (accesses (handlePostMonthly sample_clock "2026-02-10 09:00:00" sample_uuid
                        sample_db "u1" (Some unknown_category_request))).
Proof.
  apply (rejections_leave_tables sample_clock "2026-02-10 09:00:00" sample_uuid sample_db
           "u1" (Some unknown_category_request)
           (errorResponse 400 "Invalid category_id: cat-999")).
  - vm_compute. reflexivity.
  - left. reflexivity.
Defined.

Lemma failed_batch_rolls_back_witness :
  store (handlePostMonthly sample_clock "2026-02-10 09:00:00" sample_uuid sample_db "u1"
           (Some twin_request)) = sample_db
  /\ exists stmts (before : list Access),
       accesses (handlePostMonthly sample_clock "2026-02-10 09:00:00" sample_uuid sample_db
                   "u1" (Some twin_request))
       = (before ++ [Batch stmts None])%list
       /\ batch stmts sample_db = None.
Proof.
  apply (failed_batch_rolls_back sample_clock "2026-02-10 09:00:00" sample_uuid sample_db
           "u1" (Some twin_request)).
  vm_compute. reflexivity.
Defined.

(** ** Consecutive saves *)

Lemma guard_changed_one clock now uuid db u b rq stmts results :
  validateBody b = inr rq ->
  In (Batch stmts (Some results))
     (accesses (handlePostMonthly clock now uuid db u (Some b))) ->
  nth 1 results 0 = 1 ->
  stored_version (store (handlePostMonthly clock now uuid db u (Some b))) u (month_key rq)
  = Some (expected_version rq + 1)
  /\ (stored_version db u (month_key rq) = Some (expected_version rq)
      \/ (stored_version db u (month_key rq) = None /\ expected_version rq = 0)).
Proof.
  intros Hb Hin Hone.
  destruct (submitted_batch _ _ _ _ _ _ _ _ Hin)
    as (b' & rq' & v & Heq & Hb' & _ & Hv & _ & _ & _).
  injection Heq as <-. rewrite Hb in Hb'. injection Hb' as <-.
  eapply batch_guard_one; [|exact Hone]. eapply committed; eauto.
Qed.

(** X25. When a save whose guard changed one row is followed, on the
    tables it left, by another save of the same user and month whose guard
    also changed one row, the second one sent the first one's
    [expected_version] plus one: of two saves sent with the same
    [expected_version], the later cannot pass the guard. *)
Theorem consecutive_saves_count_up
    clock1 now1 uuid1 clock2 now2 uuid2 db u b1 rq1 b2 rq2 stmts1 results1 stmts2 results2 :
  validateBody b1 = inr rq1 ->
  validateBody b2 = inr rq2 ->
  month_key rq2 = month_key rq1 ->
  In (Batch stmts1 (Some results1))
     (accesses (handlePostMonthly clock1 now1 uuid1 db u (Some b1))) ->
  nth 1 results1 0 = 1 ->
  In (Batch stmts2 (Some results2))
     (accesses (handlePostMonthly clock2 now2 uuid2
                  (store (handlePostMonthly clock1 now1 uuid1 db u (Some b1))) u (Some b2))) ->
  nth 1 results2 0 = 1 ->
  expected_version rq2 = expected_version rq1 + 1.
Proof.
  intros Hb1 Hb2 Hmk Hin1 Hone1 Hin2 Hone2.
  destruct (guard_changed_one _ _ _ _ _ _ _ _ _ Hb1 Hin1 Hone1) as [Hafter _].
  destruct (guard_changed_one _ _ _ _ _ _ _ _ _ Hb2 Hin2 Hone2) as [_ Hbefore].
  rewrite Hmk, Hafter in Hbefore. destruct Hbefore as [[= ->]|[[=] _]]. reflexivity.
Qed.

Lemma consecutive_saves_count_up_witness :
  expected_version follow_body = expected_version create_body + 1.
Proof.
  apply (consecutive_saves_count_up
           sample_clock "2026-02-10 09:00:00" sample_uuid
           sample_clock "2026-02-10 09:00:05" (fun k => sample_uuid (S k))
           sample_db "u1" create_request create_body follow_request follow_body
           (compile "u1" "2026-02" 0 "2026-02-10 09:00:00"
              (one_create "uuid-0" "2026-02-05" 500))
           [1; 1; 1]
           (compile "u1" "2026-02" 1 "2026-02-10 09:00:05"
              (one_create "uuid-1" "2026-02-06" 600))
           [0; 1; 1]).
  - reflexivity.
  - reflexivity.
  - reflexivity.
  - vm_compute. right. left. reflexivity.
  - reflexivity.
  - vm_compute. right. left. reflexivity.
  - reflexivity.
Defined.
